(** * certsuite_claim_spreadsheet.py: claim-to-report pipeline

    A shallow embedding of [src/certsuite_claim_spreadsheet.py] and the
    properties its specification states about it.

    Conventions of the embedding.
    - A Python [str] is a [string]; every [ascii] stands for the character
      with that code point (U+0000 .. U+00FF).  [String.compare], which
      compares code points, is then Python's ordering of [str].
    - A parsed JSON document is a [json] value; objects are association
      lists in insertion order (the order [dict.items()] iterates in).
      JSON numbers are integers.
    - Code that can raise returns a [result]; exceptions are data ([exn]).
    - Lines written on standard output by the extractor are data ([event]). *)

From Stdlib Require Import String Ascii List ZArith Bool Arith Lia.
From Stdlib Require Import Sorting.Sorted Sorting.Permutation.
From Stdlib Require Import Numbers.DecimalString.
Import ListNotations.

Local Open Scope list_scope.
Local Open Scope string_scope.

(** ** Python string primitives *)

Module PyStr.

Definition nl : ascii := "010"%char.

(** [str.isspace] on one character, for code points below 256:
    TAB..CR, FS..US, SPACE, NEL (0x85) and NBSP (0xA0). *)
Definition isspace (c : ascii) : bool :=
  let n := nat_of_ascii c in
  (((9 <=? n) && (n <=? 13)) || ((28 <=? n) && (n <=? 32))
   || (n =? 133) || (n =? 160))%nat.

(** [s.lstrip()] *)
Fixpoint lstrip (s : string) : string :=
  match s with
  | "" => ""
  | String c s' => if isspace c then lstrip s' else s
  end.

(** [s.rstrip()] *)
Fixpoint rstrip (s : string) : string :=
  match s with
  | "" => ""
  | String c s' =>
      match rstrip s' with
      | "" => if isspace c then "" else String c ""
      | r => String c r
      end
  end.

(** [s.strip()] *)
Definition strip (s : string) : string := rstrip (lstrip s).

(** [s.split(sep)] for a one-character separator: never the empty list. *)
Fixpoint split (sep : ascii) (s : string) : list string :=
  match s with
  | "" => [""]
  | String c s' =>
      if Ascii.eqb c sep then "" :: split sep s'
      else match split sep s' with
           | [] => [String c ""]
           | l :: ls => String c l :: ls
           end
  end.

(** [sep.join(l)] *)
Fixpoint join (sep : string) (l : list string) : string :=
  match l with
  | [] => ""
  | x :: l' =>
      match l' with
      | [] => x
      | _ :: _ => x ++ sep ++ join sep l'
      end
  end.

(** [s.startswith(pat)] *)
Fixpoint startswith (s pat : string) {struct pat} : bool :=
  match pat, s with
  | "", _ => true
  | String _ _, "" => false
  | String a pat', String b s' => Ascii.eqb a b && startswith s' pat'
  end.

(** [pat in s] *)
Fixpoint contains (pat s : string) : bool :=
  startswith s pat
  || match s with
     | "" => false
     | String _ s' => contains pat s'
     end.

(** [any(k in s for k in keywords)] *)
Definition contains_any (keywords : list string) (s : string) : bool :=
  existsb (fun k => contains k s) keywords.

(** [s[:n]] *)
Fixpoint take (n : nat) (s : string) {struct s} : string :=
  match s with
  | "" => ""
  | String c s' =>
      match n with
      | O => ""
      | S n' => String c (take n' s')
      end
  end.

(** [c in s] for a single character. *)
Fixpoint has_char (c : ascii) (s : string) : bool :=
  match s with
  | "" => false
  | String d s' => Ascii.eqb c d || has_char c s'
  end.

End PyStr.

(** ** The captured-output line filter (source lines 51-58)

    [filtered_output_str] is the value the source computes into the
    variable of that name from [captured_output], when that is a [str]. *)

Definition lf : string := String PyStr.nl "".

Definition keeps_line (line : string) : bool :=
  negb (PyStr.contains "INFO" line).

Definition filtered_output_str (captured_output : string) : string :=
  match captured_output with
  | "" => ""
  | _ =>
      let output_lines := PyStr.split PyStr.nl (PyStr.strip captured_output) in
      let filtered_output := filter keeps_line output_lines in
      PyStr.join lf filtered_output
  end.

(** The filter as the specification words it: the lines of the input itself
    that do not contain [INFO], rejoined with newlines. *)
Definition spec_line_filter (x : string) : string :=
  PyStr.join lf (filter keeps_line (PyStr.split PyStr.nl x)).

(** ** JSON values, as [json.load] returns them *)

Set Warnings "-register-all".

Inductive json : Type :=
| JNull
| JBool (b : bool)
| JInt (n : Z)
| JStr (s : string)
| JList (l : list json)
| JDict (d : list (string * json)).

(** A Python [dict] with [str] keys, in insertion order. *)
Definition dict : Type := list (string * json).

(** [type(v).__name__] *)
Definition type_name (v : json) : string :=
  match v with
  | JNull => "NoneType"
  | JBool _ => "bool"
  | JInt _ => "int"
  | JStr _ => "str"
  | JList _ => "list"
  | JDict _ => "dict"
  end.

(** [bool(v)] *)
Definition truthy (v : json) : bool :=
  match v with
  | JNull => false
  | JBool b => b
  | JInt n => negb (n =? 0)%Z
  | JStr s => negb (s =? "")
  | JList l => match l with [] => false | _ :: _ => true end
  | JDict d => match d with [] => false | _ :: _ => true end
  end.

(** ** Exceptions and printed lines *)

Inductive exn : Type :=
| AttributeError (ty attr : string)
    (** ['ty' object has no attribute 'attr'] *)
| KeyError (key : string)
| TypeError_lt
    (** ['<' not supported between instances of ...] *)
| TypeError_in (ty : string)
    (** [argument of type 'ty' is not iterable] *)
| NoTestResults
    (** [ValueError("No test results found in claim data")] *)
| ExtractError (cause : exn)
    (** [ValueError(f"Error extracting test results: {cause}")] *)
| InputNotFound
    (** [FileNotFoundError(f"Input file not found: {input_claim}")] *)
| JSONDecodeError
| MissingClaimSection
    (** [ValueError("Invalid claim file: missing 'claim' section")] *)
| MissingResultsSection
    (** [ValueError("Invalid claim file: missing 'results' section")] *)
| InvalidSheetTitle
    (** openpyxl: [ValueError("Invalid character ... found in sheet title")] *)
| CannotConvert (v : json)
    (** openpyxl: [ValueError("Cannot convert ... to Excel")] *)
| IllegalCharacterError (s : string)
| SaveError.
    (** whatever [wb.save] raises when the destination cannot be written *)

Inductive event : Type :=
| Warning (key : string) (e : exn).
    (** [print(f"Warning: Error processing test {key}: {e}")] *)

Inductive result (A : Type) : Type :=
| Ok (a : A)
| Raise (e : exn).

Arguments Ok {A} a.
Arguments Raise {A} e.

Definition bind {A B : Type} (r : result A) (k : A -> result B) : result B :=
  match r with
  | Ok a => k a
  | Raise e => Raise e
  end.

Notation "x <- r ;; k" := (bind r (fun x => k))
  (at level 61, r at next level, right associativity).

Fixpoint mapM {A B : Type} (f : A -> result B) (l : list A)
  : result (list B) :=
  match l with
  | [] => Ok []
  | x :: l' => y <- f x ;; ys <- mapM f l' ;; Ok (y :: ys)
  end.

(** A list comprehension [[x for x in l if p(x)]] whose test may raise. *)
Fixpoint filterM {A : Type} (p : A -> result bool) (l : list A)
  : result (list A) :=
  match l with
  | [] => Ok []
  | x :: l' =>
      b <- p x ;; ys <- filterM p l' ;; Ok (if b then x :: ys else ys)
  end.

(** ** Dictionary operations *)

Fixpoint assoc {A : Type} (k : string) (d : list (string * A)) : option A :=
  match d with
  | [] => None
  | (k', v) :: d' => if k' =? k then Some v else assoc k d'
  end.

(** [d.get(k, default)] on a [dict] *)
Definition dict_get (d : dict) (k : string) (default : json) : json :=
  match assoc k d with
  | Some v => v
  | None => default
  end.

(** [d[k]] *)
Definition dict_getitem (d : dict) (k : string) : result json :=
  match assoc k d with
  | Some v => Ok v
  | None => Raise (KeyError k)
  end.

(** [d[k] = v]: replaces in place, or appends a new key. *)
Fixpoint dict_set (d : dict) (k : string) (v : json) : dict :=
  match d with
  | [] => [(k, v)]
  | (k', v') :: d' =>
      if k' =? k then (k, v) :: d' else (k', v') :: dict_set d' k v
  end.

(** [k in d] *)
Definition dict_has (d : dict) (k : string) : bool :=
  match assoc k d with
  | Some _ => true
  | None => false
  end.

(** [obj.get(k, default)] on any value: only a [dict] has [.get]. *)
Definition py_get (obj : json) (k : string) (default : json) : result json :=
  match obj with
  | JDict d => Ok (dict_get d k default)
  | _ => Raise (AttributeError (type_name obj) "get")
  end.

(** [obj.items()] *)
Definition py_items (obj : json) : result (list (string * json)) :=
  match obj with
  | JDict d => Ok d
  | _ => Raise (AttributeError (type_name obj) "items")
  end.

(** ** Equality, ordering and formatting of values *)

Definition b2z (b : bool) : Z := if b then 1%Z else 0%Z.

(** [a == b] *)
Fixpoint py_eq (a b : json) : bool :=
  match a, b with
  | JNull, JNull => true
  | JBool x, JBool y => Bool.eqb x y
  | JBool x, JInt n => (b2z x =? n)%Z
  | JInt n, JBool y => (n =? b2z y)%Z
  | JInt n, JInt m => (n =? m)%Z
  | JStr s, JStr t => (s =? t)
  | JList l1, JList l2 =>
      (fix eq_list (l1 l2 : list json) : bool :=
         match l1, l2 with
         | [], [] => true
         | x :: l1', y :: l2' => py_eq x y && eq_list l1' l2'
         | _, _ => false
         end) l1 l2
  | JDict d1, JDict d2 =>
      (length d1 =? length d2)%nat
      && (fix sub_dict (d : list (string * json)) : bool :=
            match d with
            | [] => true
            | (k, v) :: d' =>
                match assoc k d2 with
                | Some v' => py_eq v v'
                | None => false
                end && sub_dict d'
            end) d1
  | _, _ => false
  end.

(** [a < b]; sequences compare at their first differing position. *)
Fixpoint py_lt (a b : json) : result bool :=
  match a, b with
  | JStr s, JStr t => Ok (String.ltb s t)
  | JBool x, JBool y => Ok (b2z x <? b2z y)%Z
  | JBool x, JInt n => Ok (b2z x <? n)%Z
  | JInt n, JBool y => Ok (n <? b2z y)%Z
  | JInt n, JInt m => Ok (n <? m)%Z
  | JList l1, JList l2 =>
      (fix lt_list (l1 l2 : list json) : result bool :=
         match l1, l2 with
         | [], [] => Ok false
         | [], _ :: _ => Ok true
         | _ :: _, [] => Ok false
         | x :: l1', y :: l2' =>
             if py_eq x y then lt_list l1' l2' else py_lt x y
         end) l1 l2
  | _, _ => Raise TypeError_lt
  end.

Module PyRepr.

Definition squote : ascii := "039"%char.
Definition dquote : ascii := "034"%char.
Definition backslash : ascii := "092"%char.

Definition hex_digit (n : nat) : ascii :=
  if (n <? 10)%nat then ascii_of_nat (48 + n) else ascii_of_nat (87 + n).

(** [\xhh] *)
Definition hex_escape (c : ascii) : string :=
  let n := nat_of_ascii c in
  String backslash
    (String "x" (String (hex_digit (n / 16)) (String (hex_digit (n mod 16)) ""))).

(** [str.isprintable] on one character above U+007F, below U+0100. *)
Definition printable_latin1 (n : nat) : bool :=
  ((161 <=? n) && negb (n =? 173))%nat.

Definition escape_char (quote c : ascii) : string :=
  let n := nat_of_ascii c in
  if Ascii.eqb c quote || Ascii.eqb c backslash then String backslash (String c "")
  else if (n =? 9)%nat then String backslash "t"
  else if (n =? 10)%nat then String backslash "n"
  else if (n =? 13)%nat then String backslash "r"
  else if ((n <? 32) || (n =? 127))%nat then hex_escape c
  else if (n <? 127)%nat then String c ""
  else if printable_latin1 n then String c ""
  else hex_escape c.

Fixpoint escape (quote : ascii) (s : string) : string :=
  match s with
  | "" => ""
  | String c s' => escape_char quote c ++ escape quote s'
  end.

(** [repr(s)] for a [str] *)
Definition str_repr (s : string) : string :=
  let quote :=
    if PyStr.has_char squote s && negb (PyStr.has_char dquote s)
    then dquote else squote in
  String quote (escape quote s ++ String quote "").

(** [repr(n)] for an [int] *)
Definition int_repr (n : Z) : string :=
  NilZero.string_of_int (Z.to_int n).

End PyRepr.

(** [repr(v)] *)
Fixpoint py_repr (v : json) : string :=
  match v with
  | JNull => "None"
  | JBool true => "True"
  | JBool false => "False"
  | JInt n => PyRepr.int_repr n
  | JStr s => PyRepr.str_repr s
  | JList l => "[" ++ PyStr.join ", " (map py_repr l) ++ "]"
  | JDict d =>
      "{" ++ PyStr.join ", "
               (map (fun kv => PyRepr.str_repr (fst kv) ++ ": " ++ py_repr (snd kv)) d)
          ++ "}"
  end.

(** [f"{v}"] *)
Definition py_format (v : json) : string :=
  match v with
  | JStr s => s
  | _ => py_repr v
  end.

(** ** [sorted(l, key=...)]

    The keys are computed first, one per element; the elements are then
    put in order with [<] on the keys, equal keys keeping their input
    order, and the call raises [TypeError] when two keys that have to be
    compared cannot be.  (Which pairs are compared is the business of the
    sorting algorithm: it shows only for keys that are lists, some pairs
    of which compare and some do not.) *)

Fixpoint insert_by_key {A : Type} (x : json * A) (l : list (json * A))
  : result (list (json * A)) :=
  match l with
  | [] => Ok [x]
  | y :: l' =>
      b <- py_lt (fst y) (fst x) ;;
      if b then (r <- insert_by_key x l' ;; Ok (y :: r)) else Ok (x :: y :: l')
  end.

Fixpoint sort_by_key {A : Type} (l : list (json * A))
  : result (list (json * A)) :=
  match l with
  | [] => Ok []
  | x :: l' => s <- sort_by_key l' ;; insert_by_key x s
  end.

Definition py_sorted {A : Type} (key : A -> result json) (l : list A)
  : result (list A) :=
  keys <- mapM key l ;;
  s <- sort_by_key (combine keys l) ;;
  Ok (map snd s).

(** ** Result Extractor: [extract_test_results] (source lines 31-88) *)

(** A row of the report: the [dict] built for one test. *)
Definition row : Type := dict.

(** [test.get(section, {}).get(field, '')] *)
Definition get_nested (test : json) (section field : string) : result json :=
  o <- py_get test section (JDict []) ;;
  py_get o field (JStr "").

(** [', '.join(f"{k}: {v}" for k, v in
      test.get('categoryClassification', {}).items())] *)
Definition category_classification (test : json) : result string :=
  o <- py_get test "categoryClassification" (JDict []) ;;
  its <- py_items o ;;
  Ok (PyStr.join ", " (map (fun kv => fst kv ++ ": " ++ py_format (snd kv)) its)).

(** Source lines 52-58 on any value of [capturedTestOutput]: a falsy
    value gives [''], a non-empty [str] is filtered, and any other truthy
    value has no [.strip]. *)
Definition filter_captured (captured_output : json) : result string :=
  match captured_output with
  | JStr s => Ok (filtered_output_str s)
  | v =>
      if truthy v then Raise (AttributeError (type_name v) "strip")
      else Ok ""
  end.

(** The body of the inner [try] (source lines 42-65). *)
Definition normalize (test : json) : result row :=
  test_id <- get_nested test "testID" "id" ;;
  test_text <- get_nested test "catalogInfo" "description" ;;
  state <- py_get test "state" (JStr "") ;;
  classification <- category_classification test ;;
  exception_process <- get_nested test "catalogInfo" "exceptionProcess" ;;
  remediation <- get_nested test "catalogInfo" "remediation" ;;
  let result : row :=
    [ ("Test_Id", test_id);
      ("Test_Text", test_text);
      ("State", state);
      ("Category_Classification", JStr classification);
      ("Exception_Process", exception_process);
      ("Remediation", remediation) ]%list in
  captured_output <- py_get test "capturedTestOutput" (JStr "") ;;
  filtered <- filter_captured captured_output ;;
  st <- py_get test "state" JNull ;;
  if negb (py_eq st (JStr "passed")) then
    let result := dict_set result "Capture_Output" (JStr filtered) in
    best <- get_nested test "catalogInfo" "bestPracticeReference" ;;
    Ok (dict_set result "Best_Practice_Link" best)
  else Ok result.

(** The [for] loop (source lines 40-68): the rows appended to [results],
    in order, and the warnings printed, in order. *)
Fixpoint collect_results (items : list (string * json))
  : list row * list event :=
  match items with
  | [] => ([], [])
  | (key, test) :: rest =>
      let (results, warnings) := collect_results rest in
      match normalize test with
      | Ok result => (result :: results, warnings)
      | Raise e => (results, Warning key e :: warnings)
      end
  end.

(** [sorted([r for r in results if r['State'] == state],
            key=lambda r: r['Test_Id'])] *)
Definition bucket (state : string) (results : list row) : result (list row) :=
  selected <-
    filterM (fun r => v <- dict_getitem r "State" ;; Ok (py_eq v (JStr state)))
            results ;;
  py_sorted (fun r => dict_getitem r "Test_Id") selected.

Record extraction : Type := {
  sorted_tests : list row;
  total_failed : nat;
  total_error : nat;
  total_skipped : nat;
  total_passed : nat
}.

(** Source lines 70-85. *)
Definition classify (results : list row) : result extraction :=
  failed_tests <- bucket "failed" results ;;
  error_tests <- bucket "error" results ;;
  skipped_tests <- bucket "skipped" results ;;
  passed_tests <- bucket "passed" results ;;
  Ok {| sorted_tests :=
          (failed_tests ++ error_tests ++ skipped_tests ++ passed_tests)%list;
        total_failed := length failed_tests;
        total_error := length error_tests;
        total_skipped := length skipped_tests;
        total_passed := length passed_tests |}.

(** [data.get('claim', {}).get('results', {})] *)
Definition claim_results_of (data : json) : result json :=
  claim <- py_get data "claim" (JDict []) ;;
  py_get claim "results" (JDict []).

(** The body of the outer [try] (source lines 34-85), with what it
    printed. *)
Definition extract_body (data : json) : list event * result extraction :=
  match claim_results_of data with
  | Raise e => ([], Raise e)
  | Ok claim_results =>
      if negb (truthy claim_results) then ([], Raise NoTestResults)
      else
        match py_items claim_results with
        | Raise e => ([], Raise e)
        | Ok items =>
            let (results, warnings) := collect_results items in
            (warnings, classify results)
        end
  end.

(** [extract_test_results(data)]: every exception of the body is re-raised
    as the [ValueError] of source line 88. *)
Definition reraise {A : Type} (r : result A) : result A :=
  match r with
  | Ok x => Ok x
  | Raise e => Raise (ExtractError e)
  end.

Definition extract_test_results (data : json)
  : list event * result extraction :=
  let (printed, r) := extract_body data in
  (printed, reraise r).

(** ** The worksheet (openpyxl)

    A worksheet is a grid of cells addressed by 1-based row and column.
    Of a cell the embedding keeps its value, its font and the colour of
    its solid fill; borders, alignment, column widths and row heights are
    not represented.  Reading a cell that was never written gives the
    default cell, as openpyxl creates it on access. *)

Record Font : Type := {
  font_name : option string;
  font_bold : bool;
  font_color : option string
}.

(** openpyxl's default font of a new cell. *)
Definition default_font : Font :=
  {| font_name := Some "Calibri"; font_bold := false; font_color := None |}.

Record cell : Type := {
  value : json;
  font : Font;
  fill : option string
}.

Definition default_cell : cell :=
  {| value := JNull; font := default_font; fill := None |}.

Definition with_value (v : json) (c : cell) : cell :=
  {| value := v; font := font c; fill := fill c |}.
Definition with_font (f : Font) (c : cell) : cell :=
  {| value := value c; font := f; fill := fill c |}.
Definition with_fill (color : string) (c : cell) : cell :=
  {| value := value c; font := font c; fill := Some color |}.

Record worksheet : Type := {
  cells : nat -> nat -> cell;
  row_extent : nat;   (** highest row holding a cell, 0 on an empty sheet *)
  col_extent : nat;   (** highest column holding a cell, 0 on an empty sheet *)
  current_row : nat   (** the row the last [append] wrote *)
}.

(** [ws.max_row] and [ws.max_column] *)
Definition max_row (ws : worksheet) : nat := Nat.max 1 (row_extent ws).
Definition max_column (ws : worksheet) : nat := Nat.max 1 (col_extent ws).

Definition empty_worksheet : worksheet :=
  {| cells := fun _ _ => default_cell;
     row_extent := 0; col_extent := 0; current_row := 0 |}.

Definition in_range (lo hi n : nat) : bool := ((lo <=? n) && (n <=? hi))%nat.

(** Characters openpyxl refuses in a cell: 0-8, 11-12 and 14-31. *)
Definition illegal_character (c : ascii) : bool :=
  let n := nat_of_ascii c in
  ((n <=? 8) || in_range 11 12 n || in_range 14 31 n)%nat.

Fixpoint has_illegal_character (s : string) : bool :=
  match s with
  | "" => false
  | String c s' => illegal_character c || has_illegal_character s'
  end.

Definition max_cell_length : nat := N.to_nat 32767.

Arguments max_cell_length : simpl never.

(** The value a cell keeps when it is assigned [v]: text is cut at 32767
    characters and then checked; lists and dicts cannot be stored. *)
Definition bind_value (v : json) : result json :=
  match v with
  | JStr s =>
      let s' := PyStr.take max_cell_length s in
      if has_illegal_character s' then Raise (IllegalCharacterError s')
      else Ok (JStr s')
  | JList _ | JDict _ => Raise (CannotConvert v)
  | _ => Ok v
  end.

(** [ws.cell(r, c).value = v], written [ws['B7'] = v] in the source *)
Definition ws_assign (ws : worksheet) (r c : nat) (v : json)
  : result worksheet :=
  v' <- bind_value v ;;
  Ok {| cells := fun r' c' =>
                   if ((r' =? r) && (c' =? c))%nat
                   then with_value v' (cells ws r c)
                   else cells ws r' c';
        row_extent := Nat.max (row_extent ws) r;
        col_extent := Nat.max (col_extent ws) c;
        current_row := current_row ws |}.

(** [ws.append(values)]: fresh cells on the row after the current one. *)
Definition ws_append (ws : worksheet) (values : list json)
  : result worksheet :=
  bound <- mapM bind_value values ;;
  let r := S (current_row ws) in
  Ok {| cells := fun r' c' =>
                   if (r' =? r)%nat && in_range 1 (length bound) c'
                   then with_value (nth (c' - 1) bound JNull) default_cell
                   else cells ws r' c';
        row_extent := match bound with
                      | [] => row_extent ws
                      | _ :: _ => Nat.max (row_extent ws) r
                      end;
        col_extent := Nat.max (col_extent ws) (length bound);
        current_row := r |}.

(** A loop over [ws.iter_rows(min_row, max_row, min_col, max_col)] whose
    body updates the visited cell. *)
Definition ws_update_region (ws : worksheet)
    (min_row max_row min_col max_col : nat)
    (body : nat -> nat -> cell -> cell) : worksheet :=
  let visited r c := in_range min_row max_row r && in_range min_col max_col c in
  let nonempty := ((min_row <=? max_row) && (min_col <=? max_col))%nat in
  {| cells := fun r c => if visited r c then body r c (cells ws r c)
                         else cells ws r c;
     row_extent := if nonempty then Nat.max (row_extent ws) max_row
                   else row_extent ws;
     col_extent := if nonempty then Nat.max (col_extent ws) max_col
                   else col_extent ws;
     current_row := current_row ws |}.

(** [ws.insert_rows(idx, amount)] *)
Definition ws_insert_rows (ws : worksheet) (idx amount : nat) : worksheet :=
  {| cells := fun r c =>
                if (r <? idx)%nat then cells ws r c
                else if (r <? idx + amount)%nat then default_cell
                else cells ws (r - amount) c;
     row_extent := if (idx <=? row_extent ws)%nat then row_extent ws + amount
                   else row_extent ws;
     col_extent := col_extent ws;
     current_row := Nat.max 1 (if (idx <=? row_extent ws)%nat
                               then row_extent ws + amount
                               else row_extent ws) |}.

(** ** Report Renderer (source lines 90-327) *)

(** The part of a path after its last [/]: [os.path.basename]. *)
Fixpoint basename (path : string) : string :=
  match path with
  | "" => ""
  | String c rest =>
      if PyStr.has_char "/" rest then basename rest
      else if Ascii.eqb c "/" then rest
      else path
  end.

(** Characters openpyxl refuses in a sheet title. *)
Definition invalid_title_characters : list ascii :=
  ["092"; "*"; "?"; ":"; "/"; "["; "]"]%char.

(** [create_workbook_and_worksheet]: the new sheet, unless its title
    [os.path.basename(output_file).strip()] is refused. *)
Definition create_workbook_and_worksheet (output_file : string)
  : result worksheet :=
  let sheetname := basename output_file in
  if existsb (fun c => PyStr.has_char c (PyStr.strip sheetname))
             invalid_title_characters
  then Raise InvalidSheetTitle
  else Ok empty_worksheet.

Definition headers : list string :=
  ["Test_Id"; "Test_Text"; "State"; "Capture_Output";
   "Category_Classification"; "Exception_Process"; "Remediation";
   "Best_Practice_Link"]%list.

(** [[test.get(header, '') for header in headers]] *)
Definition row_data (test : row) : list json :=
  map (fun header => dict_get test header (JStr "")) headers.

Fixpoint append_all (ws : worksheet) (rows : list (list json))
  : result worksheet :=
  match rows with
  | [] => Ok ws
  | r :: rows' => ws' <- ws_append ws r ;; append_all ws' rows'
  end.

Definition add_test_results_to_worksheet (ws : worksheet)
    (sorted_tests : list row) : result worksheet :=
  ws <- ws_append ws (map JStr headers) ;;
  append_all ws (map row_data sorted_tests).

Module Style.
Definition bold_font : Font :=
  {| font_name := None; font_bold := true; font_color := None |}.
Definition arial_font : Font :=
  {| font_name := Some "Arial"; font_bold := false; font_color := None |}.
Definition header_font : Font := bold_font.
Definition blue_bold_font : Font :=
  {| font_name := Some "Arial"; font_bold := false;
     font_color := Some "0000FF" |}.
Definition red_fill := "FF0000".
Definition dark_red_fill := "8B0000".
Definition orange_fill := "FFE599".
Definition blue_fill := "AED6F1".
Definition green_fill := "90EE90".
Definition yellow_fill := "FFFFCC".
Definition light_green_fill := "90EE90".
Definition total_fill := "00FFFF".
End Style.

(** The loop of [apply_basic_styling] (source lines 139-154). *)
Definition apply_basic_styling (ws : worksheet) : worksheet :=
  ws_update_region ws 1 (max_row ws) 1 (max_column ws)
    (fun r c cl =>
       let cl := with_font Style.arial_font cl in
       if (r =? 1)%nat then
         with_fill Style.blue_fill (with_font Style.header_font cl)
       else if (c =? 3)%nat then
         if py_eq (value cl) (JStr "failed") then with_fill Style.red_fill cl
         else if py_eq (value cl) (JStr "error")
              then with_fill Style.dark_red_fill cl
         else if py_eq (value cl) (JStr "skipped")
              then with_fill Style.orange_fill cl
         else if py_eq (value cl) (JStr "passed")
              then with_fill Style.green_fill cl
         else cl
       else cl).

(** [set_column_formatting] sets widths and alignments only. *)
Definition set_column_formatting (ws : worksheet) : worksheet := ws.

Definition summary_fill : list (string * string) :=
  [("Summary", Style.blue_fill);
   ("Total", Style.total_fill);
   ("Failed", Style.red_fill);
   ("Error", Style.dark_red_fill);
   ("Skipped", Style.orange_fill);
   ("Passed", Style.green_fill);
   ("Job-Id", Style.yellow_fill)]%list.

Definition job_url_base : string := "https://www.distributed-ci.io/jobs/".

Fixpoint assign_all (ws : worksheet) (l : list (nat * nat * json))
  : result worksheet :=
  match l with
  | [] => Ok ws
  | (r, c, v) :: l' => ws' <- ws_assign ws r c v ;; assign_all ws' l'
  end.

Definition int_of_len (n : nat) : json := JInt (Z.of_nat n).

(** [add_summary_section] (source lines 192-231) *)
Definition add_summary_section (ws : worksheet) (sorted_tests : list row)
    (failed_tests error_tests skipped_tests passed_tests : nat)
    (dci_jobid : string) : result worksheet :=
  let ws := ws_insert_rows ws 1 9 in
  ws <- assign_all ws
          [ (1, 1, JStr "Summary"); (2, 1, JStr "Total");
            (3, 1, JStr "Failed"); (4, 1, JStr "Error");
            (5, 1, JStr "Skipped"); (6, 1, JStr "Passed");
            (2, 2, int_of_len (length sorted_tests));
            (3, 2, int_of_len failed_tests);
            (4, 2, int_of_len error_tests);
            (5, 2, int_of_len skipped_tests);
            (6, 2, int_of_len passed_tests);
            (7, 1, JStr "Job-Id");
            (7, 2, JStr (job_url_base ++ dci_jobid));
            (8, 1, JStr ""); (9, 1, JStr "") ]%list ;;
  Ok (ws_update_region ws 1 8 1 (max_column ws)
        (fun _ _ cl =>
           let cl := with_font Style.bold_font cl in
           match value cl with
           | JStr s => match assoc s summary_fill with
                       | Some color => with_fill color cl
                       | None => cl
                       end
           | _ => cl
           end)).

(** The assignments of [add_version_information] up to the first one that
    raises: the [except] clause keeps what was written before it. *)
Fixpoint assign_until_error (ws : worksheet) (l : list (nat * nat * json))
  : worksheet :=
  match l with
  | [] => ws
  | (r, c, v) :: l' =>
      match ws_assign ws r c v with
      | Ok ws' => assign_until_error ws' l'
      | Raise _ => ws
      end
  end.

(** [add_version_information] (source lines 233-264) *)
Definition add_version_information (ws : worksheet) (data : json)
  : worksheet :=
  match (claim <- py_get data "claim" (JDict []) ;;
         versions <- py_get claim "versions" (JDict []) ;;
         k8s_value <- py_get versions "k8s" (JStr "N/A") ;;
         oc_client_value <- py_get versions "ocClient" (JStr "N/A") ;;
         ocp_value <- py_get versions "ocp" (JStr "N/A") ;;
         cert_value <- py_get versions "certSuite" (JStr "N/A") ;;
         claim_format <- py_get versions "claimFormat" (JStr "N/A") ;;
         cert_git_commit <- py_get versions "certSuiteGitCommit" (JStr "N/A") ;;
         Ok [ (1, 3, JStr "Component"); (1, 4, JStr "Version");
              (2, 3, JStr "K8S"); (3, 3, JStr "ocClient");
              (4, 3, JStr "OCP"); (5, 3, JStr "CERTSUIT");
              (6, 3, JStr "claimF"); (7, 3, JStr "certGitCom");
              (2, 4, k8s_value); (3, 4, oc_client_value);
              (4, 4, ocp_value); (5, 4, cert_value);
              (6, 4, claim_format); (7, 4, cert_git_commit) ]%list) with
  | Ok assignments => assign_until_error ws assignments
  | Raise _ => ws
  end.

Definition keywords : list string :=
  ["Extended:"; "FarEdge:"; "NonTelco:"; "Telco:"]%list.

(** Source lines 268-314 of [apply_final_formatting]: the loops that set
    alignments and borders visit their cells (rows 1 and 9, columns C and
    A, the cells C10 and below, columns B and D), and the version block
    gets its fills. *)
Definition version_block_fills (ws : worksheet) : worksheet :=
  let visit := fun (_ _ : nat) (cl : cell) => cl in
  let ws := ws_update_region ws 1 1 1 (max_column ws) visit in
  let ws := ws_update_region ws 9 9 1 (max_column ws) visit in
  let ws := ws_update_region ws 1 (max_row ws) 3 3
              (fun r _ cl =>
                 if in_range 2 7 r then with_fill Style.yellow_fill cl
                 else cl) in
  let ws := ws_update_region ws 1 (max_row ws) 1 1 visit in
  let ws := ws_update_region ws 10 (max_row ws) 3 3 visit in
  let ws := ws_update_region ws 1 1 3 4
              (fun _ _ cl => with_fill Style.light_green_fill cl) in
  let ws := ws_update_region ws 1 (max_row ws) 2 2 visit in
  ws_update_region ws 1 (max_row ws) 4 4 visit.

(** Source lines 316-323: the font of the cells that hold a keyword. *)
Definition keyword_fonts (ws : worksheet) : worksheet :=
  ws_update_region ws 2 (max_row ws) 1 6
    (fun _ _ cl =>
       match value cl with
       | JStr s =>
           if PyStr.contains_any keywords s
           then with_font Style.blue_bold_font cl
           else cl
       | _ => cl
       end).

(** [apply_final_formatting] (source lines 266-327) *)
Definition apply_final_formatting (ws : worksheet) : worksheet :=
  keyword_fonts (version_block_fills ws).

(** Source lines 349-368: from the extracted rows to the finished sheet. *)
Definition render (output_file : string) (x : extraction)
    (dci_jobid : string) (data : json) : result worksheet :=
  ws <- create_workbook_and_worksheet output_file ;;
  ws <- add_test_results_to_worksheet ws (sorted_tests x) ;;
  let ws := apply_basic_styling ws in
  let ws := set_column_formatting ws in
  ws <- add_summary_section ws (sorted_tests x) (total_failed x)
          (total_error x) (total_skipped x) (total_passed x) dci_jobid ;;
  let ws := add_version_information ws data in
  Ok (apply_final_formatting ws).

(** ** The run: [generate_cert_test_excel_report] and [__main__] *)

(** What is found at the input path. *)
Inductive file_state : Type :=
| NoFile
| NotJson
| Json (data : json).

(** [key in obj] *)
Definition py_contains (key : string) (obj : json) : result bool :=
  match obj with
  | JDict d => Ok (dict_has d key)
  | JList l => Ok (existsb (py_eq (JStr key)) l)
  | JStr s => Ok (PyStr.contains key s)
  | _ => Raise (TypeError_in (type_name obj))
  end.

(** The body of the [try] of [generate_cert_test_excel_report];
    [writable] tells whether [wb.save(output_file)] succeeds. *)
Definition generate_body (input : file_state) (output_file dci_jobid : string)
    (writable : bool) : result worksheet :=
  match input with
  | NoFile => Raise InputNotFound
  | NotJson => Raise JSONDecodeError
  | Json data =>
      has_claim <- py_contains "claim" data ;;
      if negb has_claim then Raise MissingClaimSection
      else
        claim <- py_get data "claim" (JDict []) ;;
        has_results <- py_contains "results" claim ;;
        if negb has_results then Raise MissingResultsSection
        else
          x <- snd (extract_test_results data) ;;
          ws <- render output_file x dci_jobid data ;;
          if writable then Ok ws else Raise SaveError
  end.

(** How a run ends: the exit status of the process and the report it
    wrote, if any. *)
Record outcome : Type := {
  exit_status : Z;
  report : option worksheet
}.

(** Every [except] clause of [generate_cert_test_excel_report] ends in
    [sys.exit(1)]; a normal return lets [__main__] end with status 0. *)
Definition generate_cert_test_excel_report (input : file_state)
    (output_file dci_jobid : string) (writable : bool) : outcome :=
  match generate_body input output_file dci_jobid writable with
  | Ok ws => {| exit_status := 0; report := Some ws |}
  | Raise _ => {| exit_status := 1; report := None |}
  end.

(** The parsed command line. *)
Record arguments : Type := {
  input_file : string;
  job_id : option string;
  output_file : string
}.

(** What a run finds around it.  [download input_file job] is the state
    of the input path after [download_dci_cert_claim_json] returned, or
    [None] when that call ended the process with status 1. *)
Record world : Type := {
  isfile : string -> bool;
  read_input : string -> file_state;
  download : string -> string -> option file_state;
  can_save : string -> bool
}.

(** The [__main__] block after [parser.parse_args()] (source lines
    529-548). *)
Definition main (w : world) (args : arguments) : outcome :=
  if negb (isfile w "dcirc.sh") then
    {| exit_status := 0; report := None |}
  else
    match job_id args with
    | Some job =>
        match download w (input_file args) job with
        | None => {| exit_status := 1; report := None |}
        | Some input =>
            generate_cert_test_excel_report input (output_file args) job
              (can_save w (output_file args))
        end
    | None =>
        generate_cert_test_excel_report (read_input w (input_file args))
          (output_file args) "12345" (can_save w (output_file args))
    end.

(** ** Predicates the properties are stated with *)

(** The text of a key that is a [str]. *)
Definition key_str (v : json) : string :=
  match v with
  | JStr s => s
  | _ => ""
  end.

Definition str_key {A : Type} (p : json * A) : Prop :=
  exists s, fst p = JStr s.

(** Python's [<=] on two [str] keys. *)
Definition key_le {A : Type} (p q : json * A) : Prop :=
  String.leb (key_str (fst p)) (key_str (fst q)) = true.

(** [r['State'] == state] on a row. *)
Definition state_is (state : string) (r : row) : bool :=
  match assoc "State" r with
  | Some v => py_eq v (JStr state)
  | None => false
  end.

(** The identifier of a row, when it is a [str]. *)
Definition row_id (r : row) : string := key_str (dict_get r "Test_Id" JNull).

Definition has_str_id (r : row) : Prop :=
  exists s, assoc "Test_Id" r = Some (JStr s).

(** Python's [<=] on the identifiers of two rows. *)
Definition id_le (r1 r2 : row) : Prop :=
  String.leb (row_id r1) (row_id r2) = true.

(** [b] holds the rows of [results] in state [state], ascending by
    identifier. *)
Definition is_bucket (state : string) (results b : list row) : Prop :=
  Permutation b (filter (state_is state) results) /\ Sorted id_le b.

Definition recognized_states : list string :=
  ["failed"; "error"; "skipped"; "passed"]%list.

Definition recognized (r : row) : Prop :=
  exists state, In state recognized_states /\ assoc "State" r = Some (JStr state).

(** A row built by [normalize] has these two keys. *)
Definition keyed (r : row) : Prop :=
  exists test_id state,
    assoc "Test_Id" r = Some test_id /\ assoc "State" r = Some state.

(** Whether a list of assignments writes the cell at row [r], column
    [c]. *)
Definition assigns (r c : nat) (l : list (nat * nat * json)) : bool :=
  existsb (fun a => (fst (fst a) =? r)%nat && (snd (fst a) =? c)%nat) l.

(** ** Inputs the properties are tried on *)

(** The end-to-end scenario of the specification: one [failed] entry
    with id [B], one [passed] with id [A], one [skipped] with id [A]. *)
Definition scenario_entry (id state : string) : json :=
  JDict [("testID", JDict [("id", JStr id)]); ("state", JStr state)]%list.

Definition scenario_claim : json :=
  JDict [("claim",
          JDict [("results",
                  JDict [("t1", scenario_entry "B" "failed");
                         ("t2", scenario_entry "A" "passed");
                         ("t3", scenario_entry "A" "skipped")]%list)]%list)]%list.

(** The identifier and the state of each row, in order. *)
Definition ids_and_states (rows : list row) : list (json * json) :=
  map (fun r => (dict_get r "Test_Id" JNull, dict_get r "State" JNull)) rows.

(** A claim with a malformed entry between two good ones. *)
Definition malformed_claim : json :=
  JDict [("claim",
          JDict [("results",
                  JDict [("t1", scenario_entry "B" "failed");
                         ("t2", JStr "not an object");
                         ("t3", scenario_entry "A" "passed")]%list)]%list)]%list.

(** A claim whose only entry names a keyword in its classification and
    in its remediation text. *)
Definition keyword_claim : json :=
  JDict [("claim",
          JDict [("results",
                  JDict [("t1",
                          JDict [("testID", JDict [("id", JStr "A")]%list);
                                 ("state", JStr "failed");
                                 ("categoryClassification",
                                  JDict [("Telco", JStr "Mandatory")]%list);
                                 ("catalogInfo",
                                  JDict [("remediation",
                                          JStr "Telco: see the guide")]%list)
                                ]%list)]%list)]%list)]%list.

Definition keyword_extraction : extraction :=
  Eval vm_compute in
    match snd (extract_test_results keyword_claim) with
    | Ok x => x
    | Raise _ =>
        {| sorted_tests := []; total_failed := 0; total_error := 0;
           total_skipped := 0; total_passed := 0 |}
    end.

(** A run in which every file is in place and nothing is downloaded. *)
Definition offline_world (data : json) : world :=
  {| isfile := fun _ => true;
     read_input := fun _ => Json data;
     download := fun _ _ => None;
     can_save := fun _ => true |}.

Definition offline_arguments : arguments :=
  {| input_file := "claim.json"; job_id := None;
     output_file := "result.xlsx" |}.

(** The same run without [dcirc.sh]. *)
Definition no_dcirc_world (data : json) : world :=
  {| isfile := fun _ => false;
     read_input := fun _ => Json data;
     download := fun _ _ => None;
     can_save := fun _ => true |}.

(** A claim whose results mapping is empty. *)
Definition empty_claim : json :=
  JDict [("claim", JDict [("results", JDict [])]%list)]%list.

(** The row of a passed entry. *)
Definition passed_row : row :=
  Eval vm_compute in
    match normalize (scenario_entry "A" "passed") with
    | Ok r => r
    | Raise _ => []
    end.

(** What the extractor returns on the scenario. *)
Definition scenario_extraction : extraction :=
  Eval vm_compute in
    match snd (extract_test_results scenario_claim) with
    | Ok x => x
    | Raise _ =>
        {| sorted_tests := []; total_failed := 0; total_error := 0;
           total_skipped := 0; total_passed := 0 |}
    end.

(** ** Predicates of the further properties *)

(** Whether the state of a row is one of the four that have a bucket. *)
Definition recognized_state (r : row) : bool :=
  existsb (fun state => state_is state r) recognized_states.

(** Whether the identifier of a row is the string [k]. *)
Definition id_is (k : string) (r : row) : bool := (row_id r =? k).

(** Whether key [k] of an entry is missing or holds an object. *)
Definition absent_or_dict (d : dict) (k : string) : bool :=
  match assoc k d with
  | None => true
  | Some (JDict _) => true
  | Some _ => false
  end.

(** Whether a captured output is a string, or a value that counts as
    false. *)
Definition str_or_falsy (v : json) : bool :=
  match v with
  | JStr _ => true
  | _ => negb (truthy v)
  end.

(** The entries the loop of [extract_test_results] keeps. *)
Definition well_formed_entry (test : json) : bool :=
  match test with
  | JDict d =>
      absent_or_dict d "testID"
      && absent_or_dict d "catalogInfo"
      && absent_or_dict d "categoryClassification"
      && str_or_falsy (dict_get d "capturedTestOutput" (JStr ""))
  | _ => false
  end.

(** Rows of one state with a repeated identifier, and their bucket. *)
Definition duplicate_id_rows : list row :=
  [ [("Test_Id", JStr "A"); ("Test_Text", JStr "first"); ("State", JStr "failed")];
    [("Test_Id", JStr "0"); ("Test_Text", JStr "other"); ("State", JStr "failed")];
    [("Test_Id", JStr "A"); ("Test_Text", JStr "second"); ("State", JStr "failed")]
  ]%list.

Definition duplicate_id_bucket : list row :=
  Eval vm_compute in
    match bucket "failed" duplicate_id_rows with
    | Ok b => b
    | Raise _ => []
    end.

(** The fill [apply_basic_styling] gives a cell of the State column. *)
Definition state_fill (v : json) : option string :=
  if py_eq v (JStr "failed") then Some Style.red_fill
  else if py_eq v (JStr "error") then Some Style.dark_red_fill
  else if py_eq v (JStr "skipped") then Some Style.orange_fill
  else if py_eq v (JStr "passed") then Some Style.green_fill
  else None.

(** Whether a cell value is a string that holds a keyword. *)
Definition holds_keyword (v : json) : bool :=
  match v with
  | JStr s => PyStr.contains_any keywords s
  | _ => false
  end.

(** The value the last assignment of a list gives the cell at row [r],
    column [c]. *)
Fixpoint last_assigned (r c : nat) (l : list (nat * nat * json))
  : option json :=
  match l with
  | [] => None
  | a :: l' =>
      match last_assigned r c l' with
      | Some v => Some v
      | None =>
          if ((fst (fst a) =? r) && (snd (fst a) =? c))%nat
          then Some (snd a) else None
      end
  end.

(** A sheet that differs from another only within its rows. *)
Definition same_beyond (ws ws' : worksheet) : Prop :=
  row_extent ws' = row_extent ws
  /\ forall r c, row_extent ws < r -> cells ws' r c = cells ws r c.

(** A value a cell stores as it is. *)
Definition storable (v : json) : Prop := bind_value v = Ok v.

(** [data.get('claim', {}).get('versions', {})] *)
Definition versions_of (data : json) : result json :=
  claim <- py_get data "claim" (JDict []) ;;
  py_get claim "versions" (JDict []).

(** The assignments of [add_summary_section] (source lines 198-214). *)
Definition summary_assignments (sorted_tests : list row)
    (failed_tests error_tests skipped_tests passed_tests : nat)
    (dci_jobid : string) : list (nat * nat * json) :=
  [ (1, 1, JStr "Summary"); (2, 1, JStr "Total");
    (3, 1, JStr "Failed"); (4, 1, JStr "Error");
    (5, 1, JStr "Skipped"); (6, 1, JStr "Passed");
    (2, 2, int_of_len (length sorted_tests));
    (3, 2, int_of_len failed_tests);
    (4, 2, int_of_len error_tests);
    (5, 2, int_of_len skipped_tests);
    (6, 2, int_of_len passed_tests);
    (7, 1, JStr "Job-Id");
    (7, 2, JStr (job_url_base ++ dci_jobid));
    (8, 1, JStr ""); (9, 1, JStr "") ]%list.

(** The keys of the versions mapping, in the order of rows 2 to 7. *)
Definition version_keys : list string :=
  ["k8s"; "ocClient"; "ocp"; "certSuite"; "claimFormat";
   "certSuiteGitCommit"]%list.

(** The assignments of [add_version_information] (source lines 247-261)
    for a versions mapping [vs]. *)
Definition version_assignments (vs : dict) : list (nat * nat * json) :=
  [ (1, 3, JStr "Component"); (1, 4, JStr "Version");
    (2, 3, JStr "K8S"); (3, 3, JStr "ocClient");
    (4, 3, JStr "OCP"); (5, 3, JStr "CERTSUIT");
    (6, 3, JStr "claimF"); (7, 3, JStr "certGitCom");
    (2, 4, dict_get vs "k8s" (JStr "N/A"));
    (3, 4, dict_get vs "ocClient" (JStr "N/A"));
    (4, 4, dict_get vs "ocp" (JStr "N/A"));
    (5, 4, dict_get vs "certSuite" (JStr "N/A"));
    (6, 4, dict_get vs "claimFormat" (JStr "N/A"));
    (7, 4, dict_get vs "certSuiteGitCommit" (JStr "N/A")) ]%list.

(** A claim whose versions section is a list. *)
Definition bad_versions_claim : json :=
  JDict [("claim",
          JDict [("versions", JList [JStr "4.14"]);
                 ("results",
                  JDict [("t1", scenario_entry "A" "passed")]%list)]%list)]%list.

Definition bad_versions_extraction : extraction :=
  Eval vm_compute in
    match snd (extract_test_results bad_versions_claim) with
    | Ok x => x
    | Raise _ =>
        {| sorted_tests := []; total_failed := 0; total_error := 0;
           total_skipped := 0; total_passed := 0 |}
    end.

(** ** Text helpers (source lines 12-29) *)

(** [if line]: a string is true when it is not empty. *)
Definition nonempty (line : string) : bool := negb (String.eqb line "").

(** [trim_empty_lines] (source lines 12-16) *)
Definition trim_empty_lines (text : string) : string :=
  let lines := PyStr.split PyStr.nl text in
  let trimmed_lines := filter nonempty lines in
  PyStr.join lf trimmed_lines.

(** ** DCI configuration (source lines 387-450)

    The pattern of [read_dcirc_env_variables] is translated by hand: the
    word export, one or more white space characters, a name (group 1) of
    one or more characters of A-Z and the underscore, the equals sign, and
    then either a double quote, any number of characters other than the
    double quote (group 2) and a double quote, or else one or more
    characters that are not white space (group 3).  Every repetition in it
    is followed by a character outside the repeated class (or by the end of the pattern), so giving back part of
    a greedy repetition can never make a later piece match: the longest
    repetition is the only one the matcher has to try. *)

Module Re.

Definition quote : ascii := "034"%char.

(** [[A-Z_]] *)
Definition name_char (c : ascii) : bool :=
  let n := nat_of_ascii c in
  (((65 <=? n) && (n <=? 90)) || (n =? 95))%nat.

(** A character other than the double quote. *)
Definition not_quote (c : ascii) : bool := negb (Ascii.eqb c quote).

(** A character that is not white space. *)
Definition not_space (c : ascii) : bool := negb (PyStr.isspace c).

(** A literal piece of the pattern: what follows it in [s]. *)
Fixpoint literal (pat s : string) {struct pat} : option string :=
  match pat, s with
  | "", _ => Some s
  | String a pat', String b s' =>
      if Ascii.eqb a b then literal pat' s' else None
  | String _ _, "" => None
  end.

(** A greedy [p*]: the longest run of [p] characters and what follows. *)
Fixpoint star (p : ascii -> bool) (s : string) : string * string :=
  match s with
  | "" => ("", "")
  | String c s' =>
      if p c then let (run, rest) := star p s' in (String c run, rest)
      else ("", s)
  end.

(** A greedy [p+] *)
Definition plus (p : ascii -> bool) (s : string) : option (string * string) :=
  match star p s with
  | ("", _) => None
  | (run, rest) => Some (run, rest)
  end.

(** The quoted alternative of the value, with group 2. *)
Definition quoted (s : string) : option (string * string) :=
  match s with
  | String c s1 =>
      if Ascii.eqb c quote then
        match star not_quote s1 with
        | (group2, String _ rest) => Some (group2, rest)
        | (_, "") => None
        end
      else None
  | "" => None
  end.

(** [re.match(pattern, s)]: the variable name (group 1), the value (group
    2 when the quoted alternative matched, group 3 otherwise) and what
    follows the match. *)
Definition match_export (s : string) : option (string * string * string) :=
  match literal "export" s with
  | None => None
  | Some s1 =>
      match plus PyStr.isspace s1 with
      | None => None
      | Some (_, s2) =>
          match plus name_char s2 with
          | None => None
          | Some (var_name, s3) =>
              match literal "=" s3 with
              | None => None
              | Some s4 =>
                  match quoted s4 with
                  | Some (group2, rest) => Some (var_name, group2, rest)
                  | None =>
                      match plus not_space s4 with
                      | Some (group3, rest) => Some (var_name, group3, rest)
                      | None => None
                      end
                  end
              end
          end
      end
  end.

(** The matches of [re.finditer(pattern, s)], from left to right: after a
    match the search goes on behind it, otherwise one character further.
    A match is never empty, so one unit of fuel per character is enough. *)
Fixpoint finditer_from (fuel : nat) (s : string) : list (string * string) :=
  match fuel with
  | O => []
  | S fuel' =>
      match match_export s with
      | Some (var_name, var_value, rest) =>
          (var_name, var_value) :: finditer_from fuel' rest
      | None =>
          match s with
          | "" => []
          | String _ s' => finditer_from fuel' s'
          end
      end
  end.

Definition finditer (s : string) : list (string * string) :=
  finditer_from (S (String.length s)) s.

End Re.

(** A text file as [os.path.exists] and [open(path, 'r')] see it; the
    content is its decoded text, one character per code point. *)
Inductive text_file : Type :=
| Absent
| Unreadable      (** it exists, but opening or decoding it raises *)
| Text (content : string).

(** A [dict] from [str] to [str], in insertion order. *)
Definition variables : Type := list (string * string).

(** [d[k] = v] *)
Fixpoint var_set (d : variables) (k v : string) : variables :=
  match d with
  | [] => [(k, v)]
  | (k', v') :: d' =>
      if k' =? k then (k, v) :: d' else (k', v') :: var_set d' k v
  end.

Inductive dci_error : Type :=
| DcircNotFound
    (** [FileNotFoundError(f"DCI configuration file not found: ...")] *)
| DcircReadError
    (** [ValueError(f"Error reading DCI configuration file ...")] *)
| MissingVariables (missing_vars : list string).
    (** [ValueError("Cannot find required DCI environment variables. ...
        1. Export the variables: {', '.join(missing_vars)} ...")] *)

Inductive attempt (A : Type) : Type :=
| Done (a : A)
| Failed (e : dci_error).

Arguments Done {A} a.
Arguments Failed {A} e.

(** [read_dcirc_env_variables] (source lines 387-411) on the state of
    [dcirc.sh], whose content is the text as [f.read()] returns it. *)
Definition read_dcirc_env_variables (dcirc : text_file)
  : attempt variables :=
  match dcirc with
  | Absent => Failed DcircNotFound
  | Unreadable => Failed DcircReadError
  | Text content =>
      Done (fold_left (fun env_vars m => var_set env_vars (fst m) (snd m))
              (Re.finditer content) [])
  end.

Definition required_vars : list string :=
  ["DCI_CLIENT_ID"; "DCI_API_SECRET"; "DCI_CS_URL"]%list.

(** [os.environ.get(var)] when it is true: set and not empty. *)
Definition environ_value (environ : string -> option string) (var : string)
  : option string :=
  match environ var with
  | Some (String c v) => Some (String c v)
  | _ => None
  end.

(** Source lines 420-425: the variables found in the environment and the
    list of the others. *)
Fixpoint from_environment (environ : string -> option string)
    (vars : list string) (env_vars : variables) (missing_vars : list string)
  : variables * list string :=
  match vars with
  | [] => (env_vars, missing_vars)
  | var :: vars' =>
      match environ_value environ var with
      | Some value =>
          from_environment environ vars' (var_set env_vars var value)
            missing_vars
      | None =>
          from_environment environ vars' env_vars (missing_vars ++ [var])%list
      end
  end.

(** Source lines 436-441: [None] when a variable is not in [dcirc.sh]. *)
Fixpoint from_dcirc (dcirc_vars : variables) (missing_vars : list string)
    (env_vars : variables) : option variables :=
  match missing_vars with
  | [] => Some env_vars
  | var :: vars' =>
      match assoc var dcirc_vars with
      | Some value => from_dcirc dcirc_vars vars' (var_set env_vars var value)
      | None => None
      end
  end.

(** [get_dci_environment] (source lines 413-450); the messages it prints
    are not represented. *)
Definition get_dci_environment (environ : string -> option string)
    (dcirc : text_file) : attempt variables :=
  let (env_vars, missing_vars) :=
    from_environment environ required_vars [] [] in
  match missing_vars with
  | [] => Done env_vars
  | _ :: _ =>
      match read_dcirc_env_variables dcirc with
      | Failed _ => Failed (MissingVariables missing_vars)
      | Done dcirc_vars =>
          match from_dcirc dcirc_vars missing_vars env_vars with
          | Some env_vars' => Done env_vars'
          | None => Failed (MissingVariables missing_vars)
          end
      end
  end.

(** A line of [dcirc.sh] that exports [name], with the value between
    double quotes or bare. *)
Definition export_line (quoted : bool) (name value : string) : string :=
  if quoted
  then "export " ++ name ++ "=" ++ String Re.quote (value ++ String Re.quote "")
  else "export " ++ name ++ "=" ++ value.

(** Every character of [s] satisfies [p]. *)
Fixpoint all_chars (p : ascii -> bool) (s : string) : bool :=
  match s with
  | "" => true
  | String c s' => p c && all_chars p s'
  end.

(** A name the pattern can read: one or more of [A-Z_]. *)
Definition valid_name (name : string) : bool :=
  nonempty name && all_chars Re.name_char name.

(** A value the pattern reads back: without a double quote when written
    between quotes; not empty, without white space and not starting with a
    double quote when written bare. *)
Definition valid_value (quoted : bool) (value : string) : bool :=
  if quoted then all_chars Re.not_quote value
  else nonempty value && all_chars Re.not_space value
       && negb (PyStr.startswith value (String Re.quote "")).

(** A greedy run of [p] characters ends before [s]. *)
Definition stops (p : ascii -> bool) (s : string) : bool :=
  match s with
  | "" => true
  | String c _ => negb (p c)
  end.

(** An export statement as written in [dcirc.sh]: with quotes or bare, the
    name, the value. *)
Definition statement : Type := bool * string * string.

Definition statement_line (st : statement) : string :=
  export_line (fst (fst st)) (snd (fst st)) (snd st).

Definition statement_binding (st : statement) : string * string :=
  (snd (fst st), snd st).

Definition valid_statement (st : statement) : bool :=
  valid_name (snd (fst st)) && valid_value (fst (fst st)) (snd st).

(** The text between [export] and what follows the match, for a value
    read from between quotes or bare. *)
Definition matched_text (quoted : bool) (sp name value : string) : string :=
  "export" ++ sp ++ name ++ "="
  ++ (if quoted then String Re.quote (value ++ String Re.quote "")
      else value).

(** [var] is not set, or set to the empty string, in the environment. *)
Definition unset (environ : string -> option string) (var : string) : bool :=
  match environ_value environ var with
  | Some _ => false
  | None => true
  end.

(** The variables [dcirc.sh] defines, when it can be read. *)
Definition dcirc_value (dcirc : text_file) (var : string) : option string :=
  match read_dcirc_env_variables dcirc with
  | Done dcirc_vars => assoc var dcirc_vars
  | Failed _ => None
  end.

(** An environment that sets the server only, and a [dcirc.sh] that
    exports the client id and the secret, or the client id only. *)
Definition server_only_environ (var : string) : option string :=
  if var =? "DCI_CS_URL" then Some "https://api.distributed-ci.io"
  else if var =? "DCI_API_SECRET" then Some ""
  else None.

Definition credentials_dcirc : text_file :=
  Text (PyStr.join lf
          (map statement_line
             [(true, "DCI_CLIENT_ID", "remoteci/abc");
              (false, "DCI_API_SECRET", "s3cr3t");
              (true, "DCI_CS_URL", "https://other.example")]%list)).

Definition client_only_dcirc : text_file :=
  Text (statement_line (true, "DCI_CLIENT_ID", "remoteci/abc")).

(** ** Download from the DCI control server (source lines 452-498) *)

(** [s.split()]: the runs of characters that are not white space. *)
Fixpoint split_whitespace (s : string) : list string :=
  match s with
  | "" => []
  | String c s' =>
      if PyStr.isspace c then split_whitespace s'
      else
        match s' with
        | "" => [String c ""]
        | String d _ =>
            if PyStr.isspace d then String c "" :: split_whitespace s'
            else match split_whitespace s' with
                 | w :: ws => String c w :: ws
                 | [] => [String c ""]
                 end
        end
  end.

(** [os.environ.copy()] after [update(env_vars)] *)
Definition updated_environ (environ : string -> option string)
    (env_vars : variables) (var : string) : option string :=
  match assoc var env_vars with
  | Some v => Some v
  | None => environ var
  end.

(** A finished subprocess: its return code, and its standard output
    decoded as UTF-8 ([None] when the bytes cannot be decoded). *)
Record completed : Type := {
  returncode : Z;
  stdout : option string
}.

(** Running a command line in an environment; [None] when starting the
    process raises, as when [dcictl] is not installed. *)
Definition subprocess : Type :=
  (string -> option string) -> list string -> option completed.

(** Source line 475 *)
Definition is_claim_file_line (line : string) : bool :=
  PyStr.contains "claim.json" line && PyStr.contains "text/plain" line.

(** [line.split()[1]]: [None] stands for the [IndexError]. *)
Definition file_id (line : string) : option string :=
  nth_error (split_whitespace line) 1.

(** Source line 481 *)
Fixpoint file_ids_of (claim_file_lines : list string) : option (list string) :=
  match claim_file_lines with
  | [] => Some []
  | line :: lines =>
      match file_id line, file_ids_of lines with
      | Some id, Some ids => Some (id :: ids)
      | _, _ => None
      end
  end.

(** What a call did: the command lines it handed to [subprocess], each
    with its environment, and the status of [sys.exit] when the call
    ended the process ([None] when it returned). *)
Record download_run : Type := {
  commands : list ((string -> option string) * list string);
  exit_code : option Z
}.

Definition file_list_command (job_id : string) : list string :=
  ["dcictl"; "file-list"; job_id; "--limit"; "200"]%list.

Definition job_download_file_command (job_id file_ids input_claim : string)
  : list string :=
  ["dcictl"; "job-download-file"; job_id; "--file-id"; file_ids;
   "--target"; input_claim]%list.

(** [download_dci_cert_claim_json] (source lines 452-498).  Every
    exception is caught and ends the process with status 1, so a failure
    to decode the error output of a failed command changes nothing. *)
Definition download_dci_cert_claim_json
    (environ : string -> option string) (dcirc : text_file)
    (run : subprocess) (input_claim job_id : string) : download_run :=
  match get_dci_environment environ dcirc with
  | Failed _ => {| commands := []; exit_code := Some 1%Z |}
  | Done env_vars =>
      let env := updated_environ environ env_vars in
      let cmd := file_list_command job_id in
      match run env cmd with
      | None => {| commands := [(env, cmd)]; exit_code := Some 1%Z |}
      | Some process =>
          if negb (returncode process =? 0)%Z then
            {| commands := [(env, cmd)]; exit_code := Some 1%Z |}
          else
            match stdout process with
            | None => {| commands := [(env, cmd)]; exit_code := Some 1%Z |}
            | Some out =>
                let output_lines := PyStr.split PyStr.nl out in
                let claim_file_lines :=
                  filter is_claim_file_line output_lines in
                match claim_file_lines with
                | [] => {| commands := [(env, cmd)]; exit_code := Some 1%Z |}
                | _ :: _ =>
                    match file_ids_of claim_file_lines with
                    | None =>
                        {| commands := [(env, cmd)]; exit_code := Some 1%Z |}
                    | Some file_ids =>
                        let cmd2 :=
                          job_download_file_command job_id
                            (PyStr.join "," file_ids) input_claim in
                        match run env cmd2 with
                        | None =>
                            {| commands := [(env, cmd); (env, cmd2)];
                               exit_code := Some 1%Z |}
                        | Some result =>
                            if (returncode result =? 0)%Z then
                              {| commands := [(env, cmd); (env, cmd2)];
                                 exit_code := None |}
                            else
                              {| commands := [(env, cmd); (env, cmd2)];
                                 exit_code := Some 1%Z |}
                        end
                    end
                end
            end
      end
  end.

(** A listing with two claim files among other files, and a [dcictl]
    that prints it and downloads what it is asked for. *)
Definition scenario_listing : string :=
  PyStr.join lf
    ["| id | name | mime |";
     "| f1 | claim.json | text/plain |";
     "| f2 | junit.xml | application/xml |";
     "| f3 | old/claim.json | text/plain |"]%list.

Definition scenario_dcictl : subprocess :=
  fun _ cmd =>
    match nth_error cmd 1 with
    | Some verb =>
        if verb =? "file-list"
        then Some {| returncode := 0; stdout := Some scenario_listing |}
        else Some {| returncode := 0; stdout := Some "" |}
    | None => None
    end.

(** ** Replacing text in a file (source lines 18-29) *)

(** [s.replace(old, new)] for an empty [old]: [new] before every
    character and at the end. *)
Fixpoint replace_empty (s new : string) : string :=
  match s with
  | "" => new
  | String c s' => new ++ String c (replace_empty s' new)
  end.

(** [s.replace(old, new)] for a non-empty [old]: the occurrences are
    replaced from left to right and do not overlap.  An occurrence is not
    empty, so one unit of fuel per character is enough. *)
Fixpoint replace_from (fuel : nat) (s old new : string) : string :=
  match fuel with
  | O => s
  | S fuel' =>
      match Re.literal old s with
      | Some rest => new ++ replace_from fuel' rest old new
      | None =>
          match s with
          | "" => ""
          | String c s' => String c (replace_from fuel' s' old new)
          end
      end
  end.

(** [s.replace(old, new)] *)
Definition replace (s old new : string) : string :=
  match old with
  | "" => replace_empty s new
  | String _ _ => replace_from (String.length s) s old new
  end.

(** Reading in text mode translates the line endings CR LF and CR to
    LF. *)
Fixpoint universal_newlines (raw : string) : string :=
  match raw with
  | "" => ""
  | String c raw' =>
      if Ascii.eqb c "013"%char then
        match raw' with
        | String d raw'' =>
            if Ascii.eqb d "010"%char
            then String PyStr.nl (universal_newlines raw'')
            else String PyStr.nl (universal_newlines raw')
        | "" => String PyStr.nl ""
        end
      else String c (universal_newlines raw')
  end.

(** The files a call can touch: under each path the text as it was
    written ([Unreadable] when opening or decoding raises), and whether
    the path can be opened for writing.  Two paths name two files; a
    written LF stays an LF, as on POSIX. *)
Record file_system : Type := {
  file : string -> text_file;
  writable : string -> bool
}.

(** [open(path, 'r').read()] *)
Definition read_text (fs : file_system) (path : string) : option string :=
  match file fs path with
  | Text raw => Some (universal_newlines raw)
  | _ => None
  end.

(** [open(path, 'w').write(data)] *)
Definition write_text (fs : file_system) (path data : string)
  : option file_system :=
  if writable fs path
  then Some {| file := fun p => if p =? path then Text data else file fs p;
               writable := writable fs |}
  else None.

(** [replace_text_in_file] (source lines 18-29); [None] when it raises. *)
Definition replace_text_in_file (fs : file_system)
    (input_file search_text replace_text output_file : string)
  : option file_system :=
  match read_text fs input_file with
  | None => None
  | Some filedata =>
      let newdata := replace filedata search_text replace_text in
      write_text fs output_file newdata
  end.

(** A directory with one configuration file. *)
Definition scenario_files : file_system :=
  {| file := fun p => if p =? "dcirc.sh.in"
                      then Text "export DCI_CS_URL=@URL@"
                      else Absent;
     writable := fun _ => true |}.

(** A command line whose output name holds a bracket. *)
Definition bracket_arguments : arguments :=
  {| input_file := "claim.json"; job_id := None;
     output_file := "out/result[1].xlsx" |}.

(** A claim whose only test captured an ANSI colour sequence. *)
Definition escape_claim : json :=
  JDict [("claim",
          JDict [("results",
                  JDict [("t1",
                          JDict [("testID", JDict [("id", JStr "A")]%list);
                                 ("state", JStr "failed");
                                 ("capturedTestOutput",
                                  JStr (String "027"%char "[31mFAIL"))]%list)
                        ]%list)]%list)]%list.

Definition escape_extraction : extraction :=
  Eval vm_compute in
    match snd (extract_test_results escape_claim) with
    | Ok x => x
    | Raise _ =>
        {| sorted_tests := []; total_failed := 0; total_error := 0;
           total_skipped := 0; total_passed := 0 |}
    end.

Definition escape_row : row :=
  Eval vm_compute in hd [] (sorted_tests escape_extraction).

(** * Properties *)

(** ** Strings: splitting, joining, substrings *)

Section StringFacts.

Import PyStr.

Lemma append_nil_r (s : string) : s ++ "" = s.
Proof. induction s as [|c s IH]; simpl; [reflexivity | now rewrite IH]. Qed.

Lemma append_assoc (a b c : string) : (a ++ b) ++ c = a ++ b ++ c.
Proof. induction a as [|x a IH]; simpl; [reflexivity | now rewrite IH]. Qed.

Lemma split_not_nil (sep : ascii) (s : string) : split sep s <> [].
Proof.
  destruct s as [|c s]; simpl; [discriminate|].
  destruct (Ascii.eqb c sep); [discriminate|].
  destruct (split sep s); discriminate.
Qed.

Lemma join_cons (sep x : string) (y : string) (l : list string) :
  join sep (x :: y :: l) = x ++ sep ++ join sep (y :: l).
Proof. reflexivity. Qed.

Lemma join_cons_char (sep : string) (c : ascii) (l : string)
    (ls : list string) :
  join sep (String c l :: ls) = String c (join sep (l :: ls)).
Proof. destruct ls; reflexivity. Qed.

(** Joining the pieces of a split gives the string back. *)
Lemma join_split (sep : ascii) (s : string) :
  join (String sep "") (split sep s) = s.
Proof.
  induction s as [|c s IH]; [reflexivity|].
  simpl split. destruct (Ascii.eqb c sep) eqn:E.
  - apply Ascii.eqb_eq in E. subst c.
    destruct (split sep s) as [|l ls] eqn:Es.
    + now apply split_not_nil in Es.
    + rewrite join_cons, IH. reflexivity.
  - destruct (split sep s) as [|l ls] eqn:Es.
    + now apply split_not_nil in Es.
    + now rewrite join_cons_char, IH.
Qed.

(** No piece of a split holds the separator. *)
Lemma split_no_sep (sep : ascii) (s : string) :
  Forall (fun l => has_char sep l = false) (split sep s).
Proof.
  induction s as [|c s IH]; simpl.
  - constructor; [reflexivity | constructor].
  - destruct (Ascii.eqb c sep) eqn:E.
    + constructor; [reflexivity | exact IH].
    + destruct (split sep s) as [|l ls]; inversion IH; subst;
        constructor; simpl; auto.
      * rewrite Ascii.eqb_sym, E. reflexivity.
      * rewrite Ascii.eqb_sym, E. assumption.
Qed.

Lemma split_single (sep : ascii) (x : string) :
  has_char sep x = false -> split sep x = [x].
Proof.
  induction x as [|c x IH]; simpl; [reflexivity|].
  intros H. apply orb_false_iff in H. destruct H as [Hc Hx].
  rewrite Ascii.eqb_sym, Hc, (IH Hx). reflexivity.
Qed.

Lemma split_app_sep (sep : ascii) (x rest : string) :
  has_char sep x = false ->
  split sep (x ++ String sep rest) = x :: split sep rest.
Proof.
  induction x as [|c x IH]; simpl.
  - intros _. now rewrite Ascii.eqb_refl.
  - intros H. apply orb_false_iff in H. destruct H as [Hc Hx].
    rewrite Ascii.eqb_sym, Hc, (IH Hx). reflexivity.
Qed.

(** Splitting a join of separator-free pieces gives the pieces back. *)
Lemma split_join (sep : ascii) (ls : list string) :
  ls <> [] ->
  Forall (fun l => has_char sep l = false) ls ->
  split sep (join (String sep "") ls) = ls.
Proof.
  induction ls as [|x ls IH]; [congruence|].
  intros _ H. inversion H as [|? ? Hx Hls]; subst.
  destruct ls as [|y ls].
  - simpl. now apply split_single.
  - rewrite join_cons.
    change (String sep "" ++ join (String sep "") (y :: ls))
      with (String sep (join (String sep "") (y :: ls))).
    rewrite (split_app_sep _ _ _ Hx).
    f_equal. apply IH; [discriminate | assumption].
Qed.

Lemma startswith_app (s pat : string) :
  startswith s pat = true <-> exists q, s = pat ++ q.
Proof.
  revert s. induction pat as [|a pat IH]; intros s; simpl.
  - split; [intros _; now exists s | reflexivity].
  - destruct s as [|b s].
    + split; [discriminate | intros [q Hq]; discriminate].
    + rewrite andb_true_iff, Ascii.eqb_eq, IH. split.
      * intros [-> [q ->]]. now exists q.
      * intros [q Hq]. injection Hq as -> ->. split; [reflexivity | now exists q].
Qed.

(** [pat in s] holds exactly when [s] is [p ++ pat ++ q]. *)
Lemma contains_app (pat s : string) :
  contains pat s = true <-> exists p q, s = p ++ pat ++ q.
Proof.
  induction s as [|c s IH]; simpl.
  - rewrite orb_false_r, startswith_app. split.
    + intros [q Hq]. now exists "", q.
    + intros [p [q H]]. destruct p; simpl in H; [now exists q | discriminate].
  - rewrite orb_true_iff, startswith_app, IH. split.
    + intros [[q Hq] | [p [q Hq]]].
      * now exists "", q.
      * exists (String c p), q. simpl. now rewrite Hq.
    + intros [p [q H]]. destruct p as [|d p]; simpl in H.
      * left. now exists q.
      * right. injection H as _ H. now exists p, q.
Qed.

Lemma contains_inside (pat p s q : string) :
  contains pat s = true -> contains pat (p ++ s ++ q) = true.
Proof.
  rewrite !contains_app. intros [p' [q' ->]].
  exists (p ++ p'), (q' ++ q). now rewrite !append_assoc.
Qed.

(** Every joined piece is a part of the join. *)
Lemma join_inside (sep : string) (ls : list string) (line : string) :
  In line ls -> exists p q, join sep ls = p ++ line ++ q.
Proof.
  induction ls as [|x ls IH]; [intros []|].
  destruct ls as [|y ls].
  - intros [<- | []]. exists "", "". simpl. now rewrite append_nil_r.
  - rewrite join_cons. intros [<- | H].
    + now exists "", (sep ++ join sep (y :: ls)).
    + destruct (IH H) as [p [q ->]].
      exists (x ++ sep ++ p), q. now rewrite !append_assoc.
Qed.

(** Every piece of a split is a part of the string. *)
Lemma split_inside (sep : ascii) (s line : string) :
  In line (split sep s) -> exists p q, s = p ++ line ++ q.
Proof.
  intros H. destruct (join_inside (String sep "") _ _ H) as [p [q E]].
  rewrite join_split in E. now exists p, q.
Qed.

Lemma lstrip_inside (s : string) : exists p, s = p ++ lstrip s.
Proof.
  induction s as [|c s [p IH]]; simpl.
  - now exists "".
  - destruct (isspace c).
    + exists (String c p). simpl. now rewrite <- IH.
    + now exists "".
Qed.

Lemma rstrip_inside (s : string) : exists q, s = rstrip s ++ q.
Proof.
  induction s as [|c s [q IH]]; simpl.
  - now exists "".
  - destruct (rstrip s) as [|d r] eqn:E.
    + destruct (isspace c).
      * now exists (String c s).
      * exists s. reflexivity.
    + exists q. simpl in *. now rewrite <- IH.
Qed.

(** [s.strip()] is a part of [s]. *)
Lemma strip_inside (s : string) : exists p q, s = p ++ strip s ++ q.
Proof.
  unfold strip. destruct (lstrip_inside s) as [p Hp].
  destruct (rstrip_inside (lstrip s)) as [q Hq].
  exists p, q. now rewrite <- Hq.
Qed.

Lemma startswith_before (x y pat : string) (c : ascii) :
  has_char c pat = false ->
  startswith (x ++ String c y) pat = true -> startswith x pat = true.
Proof.
  revert x. induction pat as [|a pat IH]; intros x Hc; [reflexivity|].
  simpl in Hc. apply orb_false_iff in Hc. destruct Hc as [Hca Hcp].
  destruct x as [|b x]; simpl.
  - rewrite Ascii.eqb_sym, Hca. discriminate.
  - rewrite !andb_true_iff. intros [Hab H]. split; [assumption|].
    now apply IH.
Qed.

(** A pattern without [c] lies on one side of an occurrence of [c]. *)
Lemma contains_across (pat x y : string) (c : ascii) :
  has_char c pat = false ->
  contains pat (x ++ String c y) = true ->
  contains pat x = true \/ contains pat y = true.
Proof.
  intros Hc. induction x as [|b x IH]; simpl.
  - rewrite orb_true_iff. intros [H | H]; [|now right].
    left. rewrite orb_false_r.
    now apply (startswith_before "" y pat c).
  - rewrite !orb_true_iff. intros [H | H].
    + left. left. now apply (startswith_before (String b x) y pat c).
    + destruct (IH H); auto.
Qed.

(** A pattern without the separator found in a join is in one piece. *)
Lemma contains_join (pat : string) (sep : ascii) (ls : list string) :
  has_char sep pat = false ->
  contains pat (join (String sep "") ls) = true ->
  ls = [] \/ exists l, In l ls /\ contains pat l = true.
Proof.
  intros Hc. induction ls as [|x ls IH]; [now left|].
  intros H. right. destruct ls as [|y ls].
  - exists x. split; [now left | exact H].
  - rewrite join_cons in H.
    change (String sep "" ++ join (String sep "") (y :: ls))
      with (String sep (join (String sep "") (y :: ls))) in H.
    destruct (contains_across _ _ _ _ Hc H) as [Hx | Hr].
    + exists x. split; [now left | exact Hx].
    + destruct (IH Hr) as [E | [l [Hl Hp]]]; [discriminate|].
      exists l. split; [now right | exact Hp].
Qed.

Lemma filter_all {A : Type} (f : A -> bool) (l : list A) :
  Forall (fun x => f x = true) l -> filter f l = l.
Proof.
  induction 1 as [|x l Hx _ IH]; simpl; [reflexivity|].
  now rewrite Hx, IH.
Qed.

End StringFacts.

(** ** The captured-output line filter *)

Section LineFilter.

Import PyStr.

Lemma keeps_line_true (l : string) :
  keeps_line l = true <-> contains "INFO" l = false.
Proof. unfold keeps_line. now rewrite negb_true_iff. Qed.

(** The filter is the specification's filter applied to the stripped
    input; the test on the empty string changes nothing. *)
Lemma filtered_output_str_strip (x : string) :
  filtered_output_str x = spec_line_filter (strip x).
Proof. destruct x; reflexivity. Qed.

Lemma kept_lines_no_newline (x : string) :
  Forall (fun l => has_char nl l = false)
         (filter keeps_line (split nl x)).
Proof.
  apply Forall_forall. intros l Hl. apply filter_In in Hl.
  destruct Hl as [Hl _].
  exact (proj1 (Forall_forall _ _) (split_no_sep nl x) l Hl).
Qed.

(** The output of the filter holds no [INFO] at all. *)
Lemma filtered_output_str_no_info (x : string) :
  contains "INFO" (filtered_output_str x) = false.
Proof.
  rewrite filtered_output_str_strip. unfold spec_line_filter, lf.
  destruct (contains "INFO" _) eqn:E; [|reflexivity].
  destruct (contains_join "INFO" nl _ eq_refl E) as [N | [l [Hl Hc]]].
  - rewrite N in E. discriminate.
  - apply filter_In in Hl. destruct Hl as [_ Hk].
    apply keeps_line_true in Hk. congruence.
Qed.

(** A string without [INFO] passes the specification's filter
    unchanged. *)
Lemma spec_line_filter_id (y : string) :
  contains "INFO" y = false -> spec_line_filter y = y.
Proof.
  intros H. unfold spec_line_filter, lf.
  rewrite filter_all; [apply join_split|].
  apply Forall_forall. intros l Hl. apply keeps_line_true.
  destruct (contains "INFO" l) eqn:E; [|reflexivity].
  destruct (split_inside _ _ _ Hl) as [p [q Hy]].
  rewrite Hy, (contains_inside _ p l q E) in H. discriminate.
Qed.

(** Filtering a second time only strips the first output. *)
Lemma filtered_output_str_twice (x : string) :
  filtered_output_str (filtered_output_str x)
  = strip (filtered_output_str x).
Proof.
  rewrite (filtered_output_str_strip (filtered_output_str x)).
  apply spec_line_filter_id.
  destruct (contains "INFO" (strip _)) eqn:E; [|reflexivity].
  destruct (strip_inside (filtered_output_str x)) as [p [q Hy]].
  assert (H := filtered_output_str_no_info x).
  rewrite Hy, (contains_inside _ p _ q E) in H. discriminate.
Qed.

End LineFilter.

(** C4, as stated, fails: the filter does not return the lines of the input
    itself.  On [" a"] the only line of the input is [" a"], it holds no
    [INFO], and the filter returns ["a"]. *)
Lemma line_filter_strips_input :
  PyStr.split PyStr.nl " a" = [" a"]%list
  /\ keeps_line " a" = true
  /\ spec_line_filter " a" = " a"
  /\ filtered_output_str " a" = "a".
Proof. repeat split; reflexivity. Qed.

(** C4 (amended): for every input string the filter returns the lines of
    the input with its leading and trailing whitespace removed that do not
    contain [INFO], in order, rejoined with newlines.  When a line is kept
    the lines of the output are exactly the kept lines, and otherwise the
    output is empty; the empty input gives the empty output and
    ["line1\nINFO noisy\nline2"] gives ["line1\nline2"]. *)
Theorem line_filter_correct :
  forall x : string,
    filtered_output_str x
      = PyStr.join lf (filter keeps_line (PyStr.split PyStr.nl (PyStr.strip x)))
    /\ (PyStr.split PyStr.nl (filtered_output_str x)
          = filter keeps_line (PyStr.split PyStr.nl (PyStr.strip x))
        \/ (filter keeps_line (PyStr.split PyStr.nl (PyStr.strip x)) = []
            /\ filtered_output_str x = ""))
    /\ Forall (fun l => PyStr.contains "INFO" l = false)
              (PyStr.split PyStr.nl (filtered_output_str x))
    /\ filtered_output_str "" = ""
    /\ filtered_output_str ("line1" ++ lf ++ "INFO noisy" ++ lf ++ "line2")
       = "line1" ++ lf ++ "line2".
Proof.
  intros x.
  assert (E : filtered_output_str x
              = PyStr.join lf (filter keeps_line
                                 (PyStr.split PyStr.nl (PyStr.strip x))))
    by apply filtered_output_str_strip.
  split; [exact E|]. split; [|split; [|split; reflexivity]].
  - destruct (filter keeps_line (PyStr.split PyStr.nl (PyStr.strip x)))
      as [|l ls] eqn:K.
    + right. split; [reflexivity | now rewrite E].
    + left. rewrite E. unfold lf. apply split_join; [discriminate|].
      rewrite <- K. apply kept_lines_no_newline.
  - apply Forall_forall. intros l Hl.
    destruct (PyStr.contains "INFO" l) eqn:C; [|reflexivity].
    destruct (split_inside _ _ _ Hl) as [p [q Hy]].
    assert (H := filtered_output_str_no_info x).
    rewrite Hy, (contains_inside _ p l q C) in H. discriminate.
Qed.

(** C5, as stated, fails: the output for ["INFO\n a"] is [" a"], which
    holds no [INFO], and filtering it again gives ["a"]. *)
Lemma line_filter_not_idempotent :
  filtered_output_str ("INFO" ++ lf ++ " a") = " a"
  /\ PyStr.contains "INFO" (filtered_output_str ("INFO" ++ lf ++ " a")) = false
  /\ filtered_output_str (filtered_output_str ("INFO" ++ lf ++ " a")) = "a".
Proof. repeat split; reflexivity. Qed.

(** C5 (amended): the filter is idempotent on outputs that hold no [INFO]
    and have no leading or trailing whitespace: for such an output,
    filtering it again returns it unchanged. *)
Theorem line_filter_idempotent :
  forall x : string,
    PyStr.contains "INFO" (filtered_output_str x) = false ->
    PyStr.strip (filtered_output_str x) = filtered_output_str x ->
    filtered_output_str (filtered_output_str x) = filtered_output_str x.
Proof.
  intros x _ Hs. now rewrite filtered_output_str_twice.
Qed.

Lemma line_filter_idempotent_witness :
  filtered_output_str
    (filtered_output_str ("line1" ++ lf ++ "INFO noisy" ++ lf ++ "line2"))
  = filtered_output_str ("line1" ++ lf ++ "INFO noisy" ++ lf ++ "line2").
Proof.
  apply (line_filter_idempotent
           ("line1" ++ lf ++ "INFO noisy" ++ lf ++ "line2")); reflexivity.
Defined.

(** ** The error monad *)

Lemma bind_ok {A B : Type} (r : result A) (k : A -> result B) (b : B) :
  bind r k = Ok b -> exists a, r = Ok a /\ k a = Ok b.
Proof. destruct r as [a|e]; simpl; [now exists a | discriminate]. Qed.

Ltac inv_bind H :=
  let a := fresh "a" in
  let E := fresh "E" in
  apply bind_ok in H; destruct H as [a [E H]]; cbv beta in H.

Lemma mapM_length {A B : Type} (f : A -> result B) (l : list A)
    (l' : list B) :
  mapM f l = Ok l' -> length l' = length l.
Proof.
  revert l'. induction l as [|x l IH]; simpl; intros l' H.
  - now injection H as <-.
  - inv_bind H. inv_bind H. injection H as <-. simpl. f_equal. now apply IH.
Qed.

Lemma mapM_total {A B : Type} (f : A -> result B) (g : A -> B)
    (l : list A) :
  Forall (fun x => f x = Ok (g x)) l -> mapM f l = Ok (map g l).
Proof.
  induction 1 as [|x l Hx _ IH]; simpl; [reflexivity|].
  now rewrite Hx, IH.
Qed.

Lemma mapM_nth {A B : Type} (f : A -> result B) (l : list A)
    (l' : list B) (i : nat) (x : A) (d : B) :
  mapM f l = Ok l' -> nth_error l i = Some x -> f x = Ok (nth i l' d).
Proof.
  revert l' i. induction l as [|y l IH]; intros l' i H Hi.
  - destruct i; discriminate.
  - simpl in H. inv_bind H. inv_bind H. injection H as <-.
    destruct i as [|i]; simpl in *.
    + now injection Hi as <-.
    + now apply IH.
Qed.

(** A comprehension whose test agrees with [f] wherever it returns is
    [filter f]. *)
Lemma filterM_ok {A : Type} (p : A -> result bool) (f : A -> bool)
    (l sel : list A) :
  (forall x b, p x = Ok b -> f x = b) ->
  filterM p l = Ok sel -> sel = filter f l.
Proof.
  intros Hp. revert sel. induction l as [|x l IH]; simpl; intros sel H.
  - now injection H as <-.
  - inv_bind H. inv_bind H. injection H as <-.
    rewrite (Hp _ _ E), (IH _ E0). reflexivity.
Qed.

Lemma filterM_total {A : Type} (p : A -> result bool) (f : A -> bool)
    (l : list A) :
  Forall (fun x => p x = Ok (f x)) l -> filterM p l = Ok (filter f l).
Proof.
  induction 1 as [|x l Hx _ IH]; simpl; [reflexivity|].
  rewrite Hx, IH. simpl. reflexivity.
Qed.

(** ** [sorted] *)

Section Sorting.

Context {A : Type}.

Lemma insert_by_key_perm (x : json * A) (l r : list (json * A)) :
  insert_by_key x l = Ok r -> Permutation (x :: l) r.
Proof.
  revert r. induction l as [|y l IH]; simpl; intros r H.
  - injection H as <-. apply Permutation_refl.
  - inv_bind H. destruct a.
    + inv_bind H. injection H as <-.
      eapply perm_trans; [apply perm_swap|].
      apply perm_skip. now apply IH.
    + injection H as <-. apply Permutation_refl.
Qed.

Lemma sort_by_key_perm (l r : list (json * A)) :
  sort_by_key l = Ok r -> Permutation l r.
Proof.
  revert r. induction l as [|x l IH]; simpl; intros r H.
  - injection H as <-. apply perm_nil.
  - inv_bind H. apply insert_by_key_perm in H.
    eapply perm_trans; [apply perm_skip, IH; eassumption | exact H].
Qed.

Lemma map_snd_combine {B : Type} (ks : list B) (l : list A) :
  length ks = length l -> map snd (combine ks l) = l.
Proof.
  revert l. induction ks as [|k ks IH]; intros [|x l]; simpl;
    try discriminate; try reflexivity.
  intros H. f_equal. apply IH. now injection H.
Qed.

(** Whenever [sorted] returns, it returns a rearrangement of its
    argument. *)
Lemma py_sorted_perm (key : A -> result json) (l r : list A) :
  py_sorted key l = Ok r -> Permutation l r.
Proof.
  unfold py_sorted. intros H. inv_bind H. inv_bind H. injection H as <-.
  apply sort_by_key_perm in E0.
  rewrite <- (map_snd_combine a l) at 1 by now apply mapM_length in E.
  now apply Permutation_map.
Qed.

(** *** Keys that are strings *)

Lemma ltb_leb (a b : string) : String.ltb a b = true -> String.leb a b = true.
Proof.
  unfold String.ltb, String.leb. now destruct (String.compare a b).
Qed.

Lemma ltb_false_leb (a b : string) :
  String.ltb a b = false -> String.leb b a = true.
Proof.
  unfold String.ltb, String.leb. rewrite (String.compare_antisym b a).
  now destruct (String.compare a b).
Qed.

Lemma leb_empty (s : string) : String.leb "" s = true.
Proof. now destruct s. Qed.

Lemma insert_by_key_str (x : json * A) (l : list (json * A)) :
  str_key x -> Forall str_key l ->
  exists r, insert_by_key x l = Ok r /\ Forall str_key r.
Proof.
  intros [kx Hx]. induction 1 as [|y l [ky Hy] Hl [r [IH IHf]]]; simpl.
  - exists [x]. split; [reflexivity|]. constructor; [now exists kx | constructor].
  - rewrite Hy, Hx. simpl. destruct (String.ltb ky kx).
    + rewrite IH. simpl. exists (y :: r). split; [reflexivity|].
      constructor; [now exists ky | exact IHf].
    + exists (x :: y :: l). split; [reflexivity|].
      repeat constructor; [now exists kx | now exists ky | exact Hl].
Qed.

Lemma insert_by_key_hd (x y : json * A) (l r : list (json * A)) :
  insert_by_key x l = Ok r ->
  HdRel key_le y l -> key_le y x -> HdRel key_le y r.
Proof.
  destruct l as [|z l]; simpl; intros H Hl Hx.
  - injection H as <-. now constructor.
  - inv_bind H. destruct a.
    + inv_bind H. injection H as <-. constructor. now inversion Hl.
    + injection H as <-. now constructor.
Qed.

Lemma insert_by_key_sorted (x : json * A) (l r : list (json * A)) :
  str_key x -> Forall str_key l ->
  insert_by_key x l = Ok r ->
  Sorted key_le l -> Sorted key_le r.
Proof.
  intros [kx Hx] Hf. revert r.
  induction Hf as [|y l [ky Hy] Hl IH]; simpl; intros r H Hs.
  - injection H as <-. repeat constructor.
  - rewrite Hy, Hx in H. simpl in H.
    destruct (String.ltb ky kx) eqn:Hlt.
    + inv_bind H. injection H as <-. inversion Hs; subst.
      constructor; [now apply IH|].
      eapply insert_by_key_hd; [eassumption | assumption |].
      unfold key_le. rewrite Hy, Hx. simpl. now apply ltb_leb.
    + injection H as <-. constructor; [assumption|].
      constructor. unfold key_le. rewrite Hy, Hx. simpl.
      now apply ltb_false_leb.
Qed.

(** On string keys the sort returns, and what it returns is in
    order. *)
Lemma sort_by_key_str (l : list (json * A)) :
  Forall str_key l ->
  exists r, sort_by_key l = Ok r /\ Forall str_key r /\ Sorted key_le r.
Proof.
  induction 1 as [|x l Hx Hl [s [Hs [Hf Ho]]]]; simpl.
  - exists []. repeat split; constructor.
  - rewrite Hs. simpl.
    destruct (insert_by_key_str x s Hx Hf) as [r [Hr Hrf]].
    exists r. repeat split; try assumption.
    exact (insert_by_key_sorted x s r Hx Hf Hr Ho).
Qed.

End Sorting.

(** ** The extractor *)

Lemma py_eq_str (v : json) (s : string) :
  py_eq v (JStr s) = true <-> v = JStr s.
Proof.
  destruct v; simpl; try (split; [discriminate | intros H; discriminate H]).
  rewrite String.eqb_eq. split; [now intros -> | now intros [= ->]].
Qed.

(** What [normalize] puts in a row. *)
Lemma normalize_row (test : json) (r : row) :
  normalize test = Ok r ->
  exists test_id test_text state classification exception_process
         remediation st,
    get_nested test "testID" "id" = Ok test_id
    /\ py_get test "state" (JStr "") = Ok state
    /\ py_get test "state" JNull = Ok st
    /\ let base :=
         [ ("Test_Id", test_id); ("Test_Text", test_text); ("State", state);
           ("Category_Classification", JStr classification);
           ("Exception_Process", exception_process);
           ("Remediation", remediation) ]%list in
       (st = JStr "passed" /\ r = base)
       \/ (st <> JStr "passed"
           /\ exists captured filtered best,
                py_get test "capturedTestOutput" (JStr "") = Ok captured
                /\ filter_captured captured = Ok filtered
                /\ get_nested test "catalogInfo" "bestPracticeReference" = Ok best
                /\ r = (base ++ [("Capture_Output", JStr filtered);
                                 ("Best_Practice_Link", best)])%list).
Proof.
  unfold normalize. intros H. do 9 inv_bind H.
  exists a, a0, a1, a2, a3, a4, a7. repeat split; try assumption.
  destruct (py_eq a7 (JStr "passed")) eqn:P; simpl in H.
  - left. apply py_eq_str in P. split; [assumption | now injection H as <-].
  - right. split.
    + intros C. apply py_eq_str in C. congruence.
    + inv_bind H. injection H as <-. exists a5, a6, a8. now repeat split.
Qed.

Lemma normalize_keyed (test : json) (r : row) :
  normalize test = Ok r -> keyed r.
Proof.
  intros H. destruct (normalize_row _ _ H)
    as (tid & tt & state & cc & ep & rem & st & _ & _ & _ & Hr).
  exists tid, state.
  destruct Hr as [[_ ->] | [_ (c & f & b & _ & _ & _ & ->)]]; now split.
Qed.

Lemma collect_results_app (a b : list (string * json)) :
  collect_results (a ++ b)%list
  = ((fst (collect_results a) ++ fst (collect_results b))%list,
     (snd (collect_results a) ++ snd (collect_results b))%list).
Proof.
  induction a as [|[k t] a IH]; simpl.
  - now destruct (collect_results b).
  - rewrite IH. destruct (collect_results a) as [ra wa].
    destruct (collect_results b) as [rb wb]. simpl.
    now destruct (normalize t).
Qed.

Lemma collect_results_keyed (items : list (string * json)) :
  Forall keyed (fst (collect_results items)).
Proof.
  induction items as [|[k t] items IH]; simpl; [constructor|].
  destruct (collect_results items) as [rs ws]. simpl in IH.
  destruct (normalize t) eqn:E; simpl; [|assumption].
  constructor; [now apply (normalize_keyed t) | assumption].
Qed.

(** Every collected row is the normal form of an entry. *)
Lemma collect_results_In (items : list (string * json)) (r : row) :
  In r (fst (collect_results items)) ->
  exists key test, In (key, test) items /\ normalize test = Ok r.
Proof.
  induction items as [|[k t] items IH]; simpl; [intros []|].
  destruct (collect_results items) as [rs ws]. simpl in IH.
  destruct (normalize t) eqn:E; simpl.
  - intros [<- | H].
    + exists k, t. split; [now left | assumption].
    + destruct (IH H) as (k' & t' & Hin & Hn). exists k', t'. auto.
  - intros H. destruct (IH H) as (k' & t' & Hin & Hn). exists k', t'. auto.
Qed.

Lemma state_test (state : string) (r : row) (b : bool) :
  (v <- dict_getitem r "State" ;; Ok (py_eq v (JStr state))) = Ok b ->
  state_is state r = b.
Proof.
  unfold dict_getitem, state_is. destruct (assoc "State" r); simpl.
  - now intros [= <-].
  - discriminate.
Qed.

(** Whenever a bucket is returned, it holds the rows of its state. *)
Lemma bucket_perm (state : string) (results b : list row) :
  bucket state results = Ok b ->
  Permutation b (filter (state_is state) results).
Proof.
  unfold bucket. intros H. inv_bind H.
  apply (filterM_ok _ (state_is state)) in E; [|apply state_test].
  subst a. apply Permutation_sym. now apply py_sorted_perm in H.
Qed.

Lemma sorted_rows (s : list (json * row)) :
  Forall (fun p => fst p = JStr (row_id (snd p))) s ->
  Sorted key_le s -> Sorted id_le (map snd s).
Proof.
  intros Hf Hs. induction Hs as [|p s Hs IH Hd]; simpl; [constructor|].
  inversion Hf as [|? ? Hp Hf']; subst.
  constructor; [now apply IH|].
  destruct Hd as [|q s Hq]; simpl; constructor.
  inversion Hf' as [|? ? Hq' _]; subst.
  unfold key_le in Hq. rewrite Hp, Hq' in Hq. exact Hq.
Qed.

Lemma combine_keys (l : list row) :
  Forall (fun p : json * row => fst p = JStr (row_id (snd p)))
         (combine (map (fun r => JStr (row_id r)) l) l).
Proof. induction l; simpl; constructor; auto. Qed.

(** On rows whose identifiers are strings a bucket is always returned,
    and it is in order. *)
Lemma bucket_sorted (state : string) (results : list row) :
  Forall keyed results -> Forall has_str_id results ->
  exists b, bucket state results = Ok b /\ is_bucket state results b.
Proof.
  intros Hk Hi. unfold bucket.
  rewrite (filterM_total _ (state_is state)).
  2:{ eapply Forall_impl; [|exact Hk]. intros r (tid & st & _ & Hs).
      unfold dict_getitem, state_is. now rewrite Hs. }
  simpl. set (sel := filter (state_is state) results).
  assert (Hsel : Forall has_str_id sel).
  { apply Forall_forall. intros r Hr. apply filter_In in Hr.
    exact (proj1 (Forall_forall _ _) Hi r (proj1 Hr)). }
  unfold py_sorted.
  rewrite (mapM_total _ (fun r => JStr (row_id r))).
  2:{ eapply Forall_impl; [|exact Hsel]. intros r [s Hs].
      unfold dict_getitem, row_id, dict_get. now rewrite Hs. }
  simpl.
  assert (Hinv := combine_keys sel).
  destruct (sort_by_key_str (combine (map (fun r => JStr (row_id r)) sel) sel))
    as (srt & Hsrt & _ & Ho).
  { eapply Forall_impl; [|exact Hinv]. intros p Hp. now exists (row_id (snd p)). }
  exists (map snd srt). split.
  { assert (G : forall X : result (list (json * row)),
               X = Ok srt -> (s <- X ;; Ok (map snd s)) = Ok (map snd srt))
      by (intros ? ->; reflexivity).
    apply G. exact Hsrt. }
  assert (Hperm := sort_by_key_perm _ _ Hsrt).
  split.
  - apply Permutation_sym.
    assert (Hm := Permutation_map snd Hperm).
    rewrite map_snd_combine in Hm by now rewrite length_map.
    exact Hm.
  - apply sorted_rows; [|exact Ho].
    apply Forall_forall. intros p Hp.
    apply (proj1 (Forall_forall _ _) Hinv).
    eapply Permutation_in; [apply Permutation_sym; exact Hperm | exact Hp].
Qed.

Lemma bucket_recognized (state : string) (results b : list row) :
  In state recognized_states ->
  bucket state results = Ok b -> Forall recognized b.
Proof.
  intros Hin H. apply bucket_perm in H. apply Forall_forall. intros r Hr.
  apply (Permutation_in _ H) in Hr. apply filter_In in Hr.
  destruct Hr as [_ Hs]. unfold state_is in Hs.
  destruct (assoc "State" r) as [v|] eqn:E; [|discriminate].
  apply py_eq_str in Hs. subst v. now exists state.
Qed.

(** With a non-empty results mapping the extractor is the loop followed
    by the classification. *)
Lemma extract_test_results_items (data : json) (items : list (string * json)) :
  claim_results_of data = Ok (JDict items) -> items <> [] ->
  extract_test_results data
  = (snd (collect_results items),
     reraise (classify (fst (collect_results items)))).
Proof.
  intros H Hne. unfold extract_test_results, extract_body. rewrite H.
  destruct items as [|i items]; [congruence|]. simpl truthy. simpl negb.
  cbv iota. simpl py_items. cbv iota.
  now destruct (collect_results (i :: items)).
Qed.

Lemma classify_sorted (results : list row) :
  Forall keyed results -> Forall has_str_id results ->
  exists failed error skipped passed,
    classify results
    = Ok {| sorted_tests := (failed ++ error ++ skipped ++ passed)%list;
            total_failed := length failed;
            total_error := length error;
            total_skipped := length skipped;
            total_passed := length passed |}
    /\ is_bucket "failed" results failed
    /\ is_bucket "error" results error
    /\ is_bucket "skipped" results skipped
    /\ is_bucket "passed" results passed.
Proof.
  intros Hk Hi.
  destruct (bucket_sorted "failed" results Hk Hi) as (f & Hf & Bf).
  destruct (bucket_sorted "error" results Hk Hi) as (e & He & Be).
  destruct (bucket_sorted "skipped" results Hk Hi) as (s & Hs & Bs).
  destruct (bucket_sorted "passed" results Hk Hi) as (p & Hp & Bp).
  exists f, e, s, p. unfold classify. rewrite Hf, He, Hs, Hp. simpl.
  split; [reflexivity | tauto].
Qed.

Lemma classify_buckets (results : list row) (x : extraction) :
  classify results = Ok x ->
  exists failed error skipped passed,
    bucket "failed" results = Ok failed
    /\ bucket "error" results = Ok error
    /\ bucket "skipped" results = Ok skipped
    /\ bucket "passed" results = Ok passed
    /\ x = {| sorted_tests := (failed ++ error ++ skipped ++ passed)%list;
              total_failed := length failed;
              total_error := length error;
              total_skipped := length skipped;
              total_passed := length passed |}.
Proof.
  unfold classify. intros H. do 4 inv_bind H. injection H as <-.
  exists a, a0, a1, a2. now repeat split.
Qed.

(** C1: for a claim with a non-empty results mapping whose processed
    entries have string identifiers, the extractor returns, and the rows
    it returns are the four buckets in the order failed, error, skipped,
    passed; each bucket holds the rows whose state is exactly that string,
    ascending by identifier in the lexicographic order of strings, in which
    the empty identifier comes first.  On the scenario of the
    specification the order is B (failed), A (skipped), A (passed), with
    the counts 1, 0, 1, 1. *)
Theorem extract_bucket_order :
  (forall (data : json) (items : list (string * json)),
      claim_results_of data = Ok (JDict items) ->
      items <> [] ->
      Forall has_str_id (fst (collect_results items)) ->
      exists failed error skipped passed,
        snd (extract_test_results data)
        = Ok {| sorted_tests := (failed ++ error ++ skipped ++ passed)%list;
                total_failed := length failed;
                total_error := length error;
                total_skipped := length skipped;
                total_passed := length passed |}
        /\ is_bucket "failed" (fst (collect_results items)) failed
        /\ is_bucket "error" (fst (collect_results items)) error
        /\ is_bucket "skipped" (fst (collect_results items)) skipped
        /\ is_bucket "passed" (fst (collect_results items)) passed)
  /\ (forall s : string, String.leb "" s = true)
  /\ (exists x,
        snd (extract_test_results scenario_claim) = Ok x
        /\ ids_and_states (sorted_tests x)
           = [ (JStr "B", JStr "failed"); (JStr "A", JStr "skipped");
               (JStr "A", JStr "passed") ]%list
        /\ (total_failed x, total_error x, total_skipped x, total_passed x)
           = (1, 0, 1, 1)
        /\ length (sorted_tests x) = 3).
Proof.
  split; [|split].
  - intros data items H Hne Hid.
    rewrite (extract_test_results_items _ _ H Hne). simpl snd.
    destruct (classify_sorted _ (collect_results_keyed items) Hid)
      as (f & e & s & p & Hc & B).
    exists f, e, s, p. rewrite Hc. split; [reflexivity | exact B].
  - apply leb_empty.
  - eexists. split; [vm_compute; reflexivity|]. now vm_compute.
Qed.

Lemma extract_bucket_order_witness :
  exists failed error skipped passed,
    snd (extract_test_results scenario_claim)
    = Ok {| sorted_tests := (failed ++ error ++ skipped ++ passed)%list;
            total_failed := length failed;
            total_error := length error;
            total_skipped := length skipped;
            total_passed := length passed |}
    /\ is_bucket "failed"
         (fst (collect_results
                 [("t1", scenario_entry "B" "failed");
                  ("t2", scenario_entry "A" "passed");
                  ("t3", scenario_entry "A" "skipped")]%list)) failed
    /\ is_bucket "error"
         (fst (collect_results
                 [("t1", scenario_entry "B" "failed");
                  ("t2", scenario_entry "A" "passed");
                  ("t3", scenario_entry "A" "skipped")]%list)) error
    /\ is_bucket "skipped"
         (fst (collect_results
                 [("t1", scenario_entry "B" "failed");
                  ("t2", scenario_entry "A" "passed");
                  ("t3", scenario_entry "A" "skipped")]%list)) skipped
    /\ is_bucket "passed"
         (fst (collect_results
                 [("t1", scenario_entry "B" "failed");
                  ("t2", scenario_entry "A" "passed");
                  ("t3", scenario_entry "A" "skipped")]%list)) passed.
Proof.
  apply (proj1 extract_bucket_order scenario_claim).
  - reflexivity.
  - discriminate.
  - vm_compute. repeat constructor; eexists; reflexivity.
Defined.

(** C7: an entry of a non-empty results mapping whose normalization
    raises is skipped with a warning that names it, and extraction goes
    on: the other entries are normalized, bucketed and counted exactly as
    if the malformed entry were absent. *)
Theorem malformed_entry_skipped :
  forall (data : json) (before after : list (string * json))
         (key : string) (bad : json) (e : exn),
    claim_results_of data = Ok (JDict (before ++ (key, bad) :: after)%list) ->
    normalize bad = Raise e ->
    fst (collect_results (before ++ (key, bad) :: after)%list)
    = fst (collect_results (before ++ after)%list)
    /\ fst (extract_test_results data)
       = (snd (collect_results before)
            ++ Warning key e :: snd (collect_results after))%list
    /\ snd (extract_test_results data)
       = reraise (classify (fst (collect_results (before ++ after)%list)))
    /\ (forall data' : json,
          claim_results_of data' = Ok (JDict (before ++ after)%list) ->
          (before ++ after)%list <> [] ->
          snd (extract_test_results data') = snd (extract_test_results data)
          /\ fst (extract_test_results data')
             = (snd (collect_results before) ++ snd (collect_results after))%list).
Proof.
  intros data before after key bad e H Hbad.
  assert (Hc : collect_results ((key, bad) :: after)
               = (fst (collect_results after),
                  Warning key e :: snd (collect_results after))).
  { simpl. rewrite Hbad. now destruct (collect_results after). }
  assert (Hrows : fst (collect_results (before ++ (key, bad) :: after)%list)
                  = fst (collect_results (before ++ after)%list)).
  { rewrite !collect_results_app, Hc. reflexivity. }
  rewrite (extract_test_results_items _ _ H)
    by (destruct before; discriminate).
  simpl fst at 2. simpl snd at 1. rewrite Hrows.
  repeat split.
  - rewrite collect_results_app, Hc. reflexivity.
  - rewrite (extract_test_results_items _ _ H0 H1). reflexivity.
  - rewrite (extract_test_results_items _ _ H0 H1), collect_results_app.
    reflexivity.
Qed.

Lemma malformed_entry_skipped_witness :
  fst (collect_results
         ([("t1", scenario_entry "B" "failed")]
            ++ ("t2", JStr "not an object")
            :: [("t3", scenario_entry "A" "passed")])%list)
  = fst (collect_results
           ([("t1", scenario_entry "B" "failed")]
              ++ [("t3", scenario_entry "A" "passed")])%list)
  /\ fst (extract_test_results malformed_claim)
     = (snd (collect_results [("t1", scenario_entry "B" "failed")]%list)
          ++ Warning "t2" (AttributeError "str" "get")
          :: snd (collect_results [("t3", scenario_entry "A" "passed")]%list))%list
  /\ snd (extract_test_results malformed_claim)
     = reraise (classify
                  (fst (collect_results
                          ([("t1", scenario_entry "B" "failed")]
                             ++ [("t3", scenario_entry "A" "passed")])%list)))
  /\ (forall data' : json,
        claim_results_of data'
        = Ok (JDict ([("t1", scenario_entry "B" "failed")]
                       ++ [("t3", scenario_entry "A" "passed")])%list) ->
        ([("t1", scenario_entry "B" "failed")]
           ++ [("t3", scenario_entry "A" "passed")])%list <> [] ->
        snd (extract_test_results data')
        = snd (extract_test_results malformed_claim)
        /\ fst (extract_test_results data')
           = (snd (collect_results [("t1", scenario_entry "B" "failed")]%list)
                ++ snd (collect_results
                          [("t3", scenario_entry "A" "passed")]%list))%list).
Proof.
  apply (malformed_entry_skipped malformed_claim
           [("t1", scenario_entry "B" "failed")]%list
           [("t3", scenario_entry "A" "passed")]%list
           "t2" (JStr "not an object") (AttributeError "str" "get"));
    reflexivity.
Defined.

(** ** The worksheet *)

Lemma in_range_true (lo hi n : nat) :
  in_range lo hi n = true <-> lo <= n <= hi.
Proof.
  unfold in_range. rewrite andb_true_iff, !Nat.leb_le. reflexivity.
Qed.

Lemma in_range_false (lo hi n : nat) :
  in_range lo hi n = false <-> n < lo \/ hi < n.
Proof.
  unfold in_range. rewrite andb_false_iff, !Nat.leb_gt. reflexivity.
Qed.

Lemma bind_value_str (s : string) (v : json) :
  bind_value (JStr s) = Ok v -> exists s', v = JStr s'.
Proof.
  unfold bind_value. destruct (has_illegal_character _); [discriminate|].
  intros [= <-]. eauto.
Qed.

Lemma bind_value_empty : bind_value (JStr "") = Ok (JStr "").
Proof. reflexivity. Qed.

Lemma ws_update_region_value (ws : worksheet) (r1 r2 c1 c2 : nat)
    (body : nat -> nat -> cell -> cell) (r c : nat) :
  (forall r c cl, value (body r c cl) = value cl) ->
  value (cells (ws_update_region ws r1 r2 c1 c2 body) r c)
  = value (cells ws r c).
Proof.
  intros H. simpl. now destruct (in_range r1 r2 r && in_range c1 c2 c).
Qed.

Lemma ws_update_region_font (ws : worksheet) (r1 r2 c1 c2 : nat)
    (body : nat -> nat -> cell -> cell) (r c : nat) :
  (forall r c cl, font (body r c cl) = font cl) ->
  font (cells (ws_update_region ws r1 r2 c1 c2 body) r c)
  = font (cells ws r c).
Proof.
  intros H. simpl. now destruct (in_range r1 r2 r && in_range c1 c2 c).
Qed.

Lemma ws_update_region_outside (ws : worksheet) (r1 r2 c1 c2 : nat)
    (body : nat -> nat -> cell -> cell) (r c : nat) :
  in_range r1 r2 r && in_range c1 c2 c = false ->
  cells (ws_update_region ws r1 r2 c1 c2 body) r c = cells ws r c.
Proof. intros H. simpl. now rewrite H. Qed.

Lemma ws_update_region_rows (ws : worksheet) (r1 r2 c1 c2 : nat)
    (body : nat -> nat -> cell -> cell) :
  row_extent ws <= row_extent (ws_update_region ws r1 r2 c1 c2 body).
Proof. simpl. destruct (_ && _); lia. Qed.

Lemma ws_update_region_cols (ws : worksheet) (r1 r2 c1 c2 : nat)
    (body : nat -> nat -> cell -> cell) :
  col_extent ws <= col_extent (ws_update_region ws r1 r2 c1 c2 body).
Proof. simpl. destruct (_ && _); lia. Qed.

(** *** Assignments *)

Lemma ws_assign_spec (ws ws' : worksheet) (r c : nat) (v : json) :
  ws_assign ws r c v = Ok ws' ->
  bind_value v = Ok (value (cells ws' r c))
  /\ font (cells ws' r c) = font (cells ws r c)
  /\ (forall r' c', (r' =? r)%nat && (c' =? c)%nat = false ->
                    cells ws' r' c' = cells ws r' c')
  /\ row_extent ws <= row_extent ws'
  /\ col_extent ws <= col_extent ws'.
Proof.
  unfold ws_assign. intros H. inv_bind H. injection H as <-. simpl.
  rewrite !Nat.eqb_refl. simpl. repeat split; try lia; try assumption.
  intros r' c' Hn. now rewrite Hn.
Qed.

Lemma assign_all_frame (l : list (nat * nat * json)) (ws ws' : worksheet)
    (r c : nat) :
  assign_all ws l = Ok ws' -> assigns r c l = false ->
  cells ws' r c = cells ws r c.
Proof.
  revert ws. induction l as [|[[r0 c0] v] l IH]; simpl; intros ws H Hn.
  - now injection H as <-.
  - inv_bind H. apply orb_false_iff in Hn. destruct Hn as [Hn Hl].
    rewrite (IH _ H Hl).
    apply (ws_assign_spec _ _ _ _ _ E).
    rewrite (Nat.eqb_sym r r0), (Nat.eqb_sym c c0). exact Hn.
Qed.

Lemma assign_all_extent (l : list (nat * nat * json)) (ws ws' : worksheet) :
  assign_all ws l = Ok ws' ->
  row_extent ws <= row_extent ws' /\ col_extent ws <= col_extent ws'.
Proof.
  revert ws. induction l as [|[[r0 c0] v] l IH]; simpl; intros ws H.
  - injection H as <-. lia.
  - inv_bind H. destruct (IH _ H).
    destruct (ws_assign_spec _ _ _ _ _ E) as (_ & _ & _ & ? & ?). lia.
Qed.

(** The value of a cell after a run of assignments is the one bound by
    the last assignment to it. *)
Lemma assign_all_value (l1 l2 : list (nat * nat * json))
    (ws ws' : worksheet) (r c : nat) (v : json) :
  assign_all ws (l1 ++ (r, c, v) :: l2)%list = Ok ws' ->
  assigns r c l2 = false ->
  bind_value v = Ok (value (cells ws' r c)).
Proof.
  revert ws. induction l1 as [|[[r0 c0] v0] l1 IH]; simpl; intros ws H Hn.
  - inv_bind H. rewrite (assign_all_frame _ _ _ _ _ H Hn).
    now apply (ws_assign_spec _ _ _ _ _ E).
  - inv_bind H. now apply (IH a).
Qed.

Lemma assign_all_font (l : list (nat * nat * json)) (ws ws' : worksheet)
    (r c : nat) :
  assign_all ws l = Ok ws' -> font (cells ws' r c) = font (cells ws r c).
Proof.
  revert ws. induction l as [|[[r0 c0] v] l IH]; simpl; intros ws H.
  - now injection H as <-.
  - inv_bind H. rewrite (IH _ H).
    destruct (ws_assign_spec _ _ _ _ _ E) as (_ & Hf & Ho & _).
    destruct ((r =? r0)%nat && (c =? c0)%nat) eqn:D.
    + apply andb_true_iff in D. destruct D as [D1 D2].
      apply Nat.eqb_eq in D1, D2. now subst.
    + now rewrite (Ho _ _ D).
Qed.

Lemma assign_until_error_frame (l : list (nat * nat * json))
    (ws : worksheet) (r c : nat) :
  assigns r c l = false ->
  cells (assign_until_error ws l) r c = cells ws r c.
Proof.
  revert ws. induction l as [|[[r0 c0] v] l IH]; simpl; intros ws Hn;
    [reflexivity|].
  apply orb_false_iff in Hn. destruct Hn as [Hn Hl].
  destruct (ws_assign ws r0 c0 v) eqn:E; [|reflexivity].
  rewrite (IH _ Hl). apply (ws_assign_spec _ _ _ _ _ E).
  rewrite (Nat.eqb_sym r r0), (Nat.eqb_sym c c0). exact Hn.
Qed.

Lemma assign_until_error_extent (l : list (nat * nat * json))
    (ws : worksheet) :
  row_extent ws <= row_extent (assign_until_error ws l)
  /\ col_extent ws <= col_extent (assign_until_error ws l).
Proof.
  revert ws. induction l as [|[[r0 c0] v] l IH]; simpl; intros ws; [lia|].
  destruct (ws_assign ws r0 c0 v) eqn:E; [|lia].
  destruct (IH a).
  destruct (ws_assign_spec _ _ _ _ _ E) as (_ & _ & _ & ? & ?). lia.
Qed.

(** *** Appended rows *)

Lemma ws_append_spec (ws ws' : worksheet) (vals : list json) :
  ws_append ws vals = Ok ws' ->
  exists bound,
    mapM bind_value vals = Ok bound
    /\ current_row ws' = S (current_row ws)
    /\ (forall r c, r <> S (current_row ws) -> cells ws' r c = cells ws r c)
    /\ (forall c, 1 <= c <= length vals ->
                  cells ws' (S (current_row ws)) c
                  = with_value (nth (c - 1) bound JNull) default_cell)
    /\ (vals <> [] -> S (current_row ws) <= row_extent ws')
    /\ row_extent ws <= row_extent ws'
    /\ length vals <= col_extent ws'
    /\ col_extent ws <= col_extent ws'.
Proof.
  unfold ws_append. intros H. inv_bind H. injection H as <-.
  assert (Hlen := mapM_length _ _ _ E).
  exists a. simpl. repeat split; try assumption.
  - intros r c Hr. apply Nat.eqb_neq in Hr. now rewrite Hr.
  - intros c Hc. rewrite Nat.eqb_refl. simpl.
    now rewrite (proj2 (in_range_true 1 (length a) c)) by lia.
  - intros Hne. destruct a; [destruct vals; [congruence | discriminate]|]. lia.
  - destruct a; lia.
  - lia.
  - lia.
Qed.

Lemma append_all_spec (rows : list (list json)) (ws ws' : worksheet) :
  append_all ws rows = Ok ws' ->
  (forall r c, r <= current_row ws -> cells ws' r c = cells ws r c)
  /\ (forall i vals,
         nth_error rows i = Some vals ->
         exists bound,
           mapM bind_value vals = Ok bound
           /\ forall c, 1 <= c <= length vals ->
                        cells ws' (current_row ws + 1 + i) c
                        = with_value (nth (c - 1) bound JNull) default_cell)
  /\ current_row ws' = current_row ws + length rows
  /\ row_extent ws <= row_extent ws'
  /\ col_extent ws <= col_extent ws'
  /\ (Forall (fun vals => vals <> []) rows ->
      current_row ws <= row_extent ws -> current_row ws' <= row_extent ws').
Proof.
  revert ws. induction rows as [|vals rows IH]; simpl; intros ws H.
  - injection H as <-. repeat split; try lia.
    intros [|i] vals; discriminate.
  - inv_bind H.
    destruct (ws_append_spec _ _ _ E)
      as (bound & Hb & Hcur & Hother & Hrow & Hne & Hre & _ & Hce).
    destruct (IH _ H) as (Hkeep & Hnth & Hcur' & Hre' & Hce' & Hinv).
    rewrite Hcur in *. repeat split; try lia.
    + intros r c Hr. rewrite Hkeep by lia. apply Hother. lia.
    + intros [|i] vals' Hi; simpl in Hi.
      * injection Hi as <-. exists bound. split; [assumption|].
        intros c Hc. replace (current_row ws + 1 + 0) with (S (current_row ws))
          by lia.
        rewrite Hkeep by lia. now apply Hrow.
      * destruct (Hnth _ _ Hi) as (bound' & Hb' & Hc').
        exists bound'. split; [assumption|]. intros c Hc.
        replace (current_row ws + 1 + S i) with (S (current_row ws) + 1 + i)
          by lia.
        now apply Hc'.
    + intros Hf Hle. inversion Hf; subst. apply Hinv; [assumption|].
      now apply Hne.
Qed.

Lemma row_data_length (r : row) : length (row_data r) = 8.
Proof. reflexivity. Qed.

(** The table as [add_test_results_to_worksheet] writes it on a new
    sheet: the headers on row 1, the i-th row on row 2 + i. *)
Lemma table_cells (rows : list row) (ws : worksheet) :
  add_test_results_to_worksheet empty_worksheet rows = Ok ws ->
  (forall i r,
      nth_error rows i = Some r ->
      exists bound,
        mapM bind_value (row_data r) = Ok bound
        /\ forall c, 1 <= c <= 8 ->
                     cells ws (2 + i) c
                     = with_value (nth (c - 1) bound JNull) default_cell)
  /\ 1 + length rows <= row_extent ws
  /\ 8 <= col_extent ws.
Proof.
  unfold add_test_results_to_worksheet. intros H. inv_bind H.
  destruct (ws_append_spec _ _ _ E)
    as (hb & _ & Hcur & _ & _ & Hne & _ & Hce & _).
  simpl in Hcur, Hce.
  destruct (append_all_spec _ _ _ H) as (_ & Hnth & Hcur' & _ & Hce' & Hinv).
  rewrite Hcur in *. rewrite length_map in Hcur'. repeat split.
  - intros i r Hi.
    destruct (Hnth i (row_data r)) as (bound & Hb & Hc).
    { rewrite nth_error_map, Hi. reflexivity. }
    exists bound. split; [assumption|]. intros c Hc'.
    replace (2 + i) with (1 + 1 + i) by lia. apply Hc.
    now rewrite row_data_length.
  - rewrite <- Hcur'. apply Hinv.
    + apply Forall_forall. intros vals Hv. apply in_map_iff in Hv.
      destruct Hv as (r & <- & _). discriminate.
    + apply Hne. discriminate.
  - lia.
Qed.

(** *** The styling passes *)

Lemma apply_basic_styling_value (ws : worksheet) (r c : nat) :
  value (cells (apply_basic_styling ws) r c) = value (cells ws r c).
Proof.
  unfold apply_basic_styling. apply ws_update_region_value.
  intros r' c' cl. simpl.
  destruct (r' =? 1)%nat; [reflexivity|].
  destruct (c' =? 3)%nat; [|reflexivity].
  repeat (match goal with |- context [if ?b then _ else _] => destruct b end;
          try reflexivity).
Qed.

Lemma apply_basic_styling_font (ws : worksheet) (r c : nat) :
  2 <= r <= row_extent ws -> 1 <= c <= col_extent ws ->
  font (cells (apply_basic_styling ws) r c) = Style.arial_font.
Proof.
  intros Hr Hc. unfold apply_basic_styling, ws_update_region, max_row,
    max_column. cbn [cells].
  rewrite (proj2 (in_range_true 1 _ r)) by lia.
  rewrite (proj2 (in_range_true 1 _ c)) by lia.
  cbn [andb]. destruct (r =? 1)%nat eqn:E; [apply Nat.eqb_eq in E; lia|].
  destruct (c =? 3)%nat; [|reflexivity].
  repeat (match goal with |- context [if ?b then _ else _] => destruct b end;
          try reflexivity).
Qed.

Lemma apply_basic_styling_extent (ws : worksheet) :
  row_extent ws <= row_extent (apply_basic_styling ws)
  /\ col_extent ws <= col_extent (apply_basic_styling ws).
Proof.
  split; [apply ws_update_region_rows | apply ws_update_region_cols].
Qed.

Lemma assigns_false (r c : nat) (l : list (nat * nat * json)) :
  Forall (fun a => fst (fst a) <> r \/ snd (fst a) <> c) l ->
  assigns r c l = false.
Proof.
  induction 1 as [|a l Ha _ IH]; simpl; [reflexivity|].
  rewrite IH, orb_false_r. apply andb_false_iff.
  destruct Ha as [Ha | Ha]; [left | right]; now apply Nat.eqb_neq.
Qed.

Ltac not_assigned :=
  apply assigns_false;
  repeat (apply Forall_cons; [cbn [fst snd]; lia|]);
  apply Forall_nil.

(** *** The summary block *)

Lemma add_summary_section_spec (ws ws' : worksheet) (rows : list row)
    (f e s p : nat) (job : string) :
  add_summary_section ws rows f e s p job = Ok ws' ->
  (forall r c, 10 <= r -> cells ws' r c = cells ws (r - 9) c)
  /\ value (cells ws' 2 2) = int_of_len (length rows)
  /\ bind_value (JStr (job_url_base ++ job)) = Ok (value (cells ws' 7 2))
  /\ (1 <= row_extent ws -> row_extent ws + 9 <= row_extent ws')
  /\ col_extent ws <= col_extent ws'.
Proof.
  unfold add_summary_section. intros H. inv_bind H. injection H as <-.
  assert (Hval : forall (r c : nat) (cl : cell),
             value (let cl0 := with_font Style.bold_font cl in
                    match value cl0 with
                    | JStr s0 =>
                        match assoc s0 summary_fill with
                        | Some color => with_fill color cl0
                        | None => cl0
                        end
                    | _ => cl0
                    end) = value cl).
  { intros r c cl. cbv zeta. cbn [value with_font].
    destruct (value cl) as [| | |str| |] eqn:V; try exact V.
    destruct (assoc str summary_fill); exact V. }
  repeat split.
  - intros r c Hr. rewrite ws_update_region_outside.
    2:{ apply andb_false_iff. left. apply in_range_false. lia. }
    rewrite (assign_all_frame _ _ _ r c E) by not_assigned.
    cbn [cells ws_insert_rows].
    destruct (Nat.ltb_spec r 1); [lia|].
    destruct (Nat.ltb_spec r (1 + 9)); [lia | reflexivity].
  - rewrite ws_update_region_value by exact Hval.
    assert (Hb := assign_all_value
                    [ (1, 1, JStr "Summary"); (2, 1, JStr "Total");
                      (3, 1, JStr "Failed"); (4, 1, JStr "Error");
                      (5, 1, JStr "Skipped"); (6, 1, JStr "Passed") ]%list
                    _ _ _ 2 2 _ E).
    cbv beta in Hb. specialize (Hb eq_refl).
    unfold int_of_len, bind_value in Hb. now injection Hb as <-.
  - rewrite ws_update_region_value by exact Hval.
    assert (Hb := assign_all_value
                    [ (1, 1, JStr "Summary"); (2, 1, JStr "Total");
                      (3, 1, JStr "Failed"); (4, 1, JStr "Error");
                      (5, 1, JStr "Skipped"); (6, 1, JStr "Passed");
                      (2, 2, int_of_len (length rows));
                      (3, 2, int_of_len f); (4, 2, int_of_len e);
                      (5, 2, int_of_len s); (6, 2, int_of_len p);
                      (7, 1, JStr "Job-Id") ]%list
                    _ _ _ 7 2 _ E).
    exact (Hb eq_refl).
  - intros Hne.
    eapply Nat.le_trans; [|apply ws_update_region_rows].
    eapply Nat.le_trans; [|apply (assign_all_extent _ _ _ E)].
    cbn [row_extent ws_insert_rows].
    destruct (Nat.leb_spec 1 (row_extent ws)); lia.
  - eapply Nat.le_trans; [|apply ws_update_region_cols].
    eapply Nat.le_trans; [|apply (assign_all_extent _ _ _ E)].
    cbn [col_extent ws_insert_rows]. lia.
Qed.

(** *** The version block *)

Lemma add_version_information_frame (ws : worksheet) (data : json)
    (r c : nat) :
  7 < r \/ c < 3 \/ 4 < c ->
  cells (add_version_information ws data) r c = cells ws r c.
Proof.
  intros Hrc. unfold add_version_information.
  destruct (bind _ _) as [assignments|] eqn:E; [|reflexivity].
  do 8 inv_bind E. injection E as <-.
  apply assign_until_error_frame. not_assigned.
Qed.

Lemma add_version_information_extent (ws : worksheet) (data : json) :
  row_extent ws <= row_extent (add_version_information ws data)
  /\ col_extent ws <= col_extent (add_version_information ws data).
Proof.
  unfold add_version_information.
  destruct (bind _ _) as [assignments|] eqn:E; [|lia].
  apply assign_until_error_extent.
Qed.

(** *** The final formatting *)

Lemma version_block_fills_value (ws : worksheet) (r c : nat) :
  value (cells (version_block_fills ws) r c) = value (cells ws r c).
Proof.
  unfold version_block_fills. cbv zeta.
  repeat (rewrite ws_update_region_value;
          [| intros ? ? ?; try destruct (in_range _ _ _); reflexivity]).
  reflexivity.
Qed.

Lemma version_block_fills_font (ws : worksheet) (r c : nat) :
  font (cells (version_block_fills ws) r c) = font (cells ws r c).
Proof.
  unfold version_block_fills. cbv zeta.
  repeat (rewrite ws_update_region_font;
          [| intros ? ? ?; try destruct (in_range _ _ _); reflexivity]).
  reflexivity.
Qed.

Lemma version_block_fills_rows (ws : worksheet) :
  row_extent ws <= row_extent (version_block_fills ws).
Proof.
  unfold version_block_fills. cbv zeta.
  repeat (eapply Nat.le_trans; [|apply ws_update_region_rows]).
  apply Nat.le_refl.
Qed.

Lemma keyword_fonts_value (ws : worksheet) (r c : nat) :
  value (cells (keyword_fonts ws) r c) = value (cells ws r c).
Proof.
  unfold keyword_fonts. apply ws_update_region_value.
  intros _ _ cl. destruct (value cl) as [| | |str| |] eqn:E; try exact E.
  destruct (PyStr.contains_any keywords str); exact E.
Qed.

(** A cell of the first six columns, from row 2 to the last row, whose
    text holds a keyword gets the keyword font. *)
Lemma keyword_fonts_hit (ws : worksheet) (r c : nat) (s : string) :
  2 <= r <= row_extent ws -> 1 <= c <= 6 ->
  value (cells ws r c) = JStr s ->
  PyStr.contains_any keywords s = true ->
  font (cells (keyword_fonts ws) r c) = Style.blue_bold_font.
Proof.
  intros Hr Hc Hv Hk. unfold keyword_fonts, ws_update_region, max_row.
  cbn [cells].
  rewrite (proj2 (in_range_true 2 _ r)) by lia.
  rewrite (proj2 (in_range_true 1 6 c)) by lia.
  cbn [andb]. now rewrite Hv, Hk.
Qed.

(** The cells of the columns after the sixth keep their font. *)
Lemma keyword_fonts_miss (ws : worksheet) (r c : nat) :
  6 < c -> font (cells (keyword_fonts ws) r c) = font (cells ws r c).
Proof.
  intros Hc. unfold keyword_fonts. rewrite ws_update_region_outside;
    [reflexivity|].
  apply andb_false_iff. right. apply in_range_false. lia.
Qed.

(** ** The rendered report *)

Lemma nth_error_headers (j : nat) (h : string) :
  nth_error headers j = Some h -> j < 8.
Proof.
  intros H. assert (L : j < length headers)
    by (apply nth_error_Some; congruence).
  exact L.
Qed.

Lemma render_cells (out job : string) (x : extraction) (data : json)
    (ws : worksheet) :
  render out x job data = Ok ws ->
  (forall i r j h,
      nth_error (sorted_tests x) i = Some r ->
      nth_error headers j = Some h ->
      bind_value (dict_get r h (JStr "")) = Ok (value (cells ws (11 + i) (1 + j))))
  /\ (forall r c,
         11 <= r <= 10 + length (sorted_tests x) -> 7 <= c <= 8 ->
         font (cells ws r c) = Style.arial_font)
  /\ (forall r c s,
         11 <= r <= 10 + length (sorted_tests x) -> 1 <= c <= 6 ->
         value (cells ws r c) = JStr s ->
         PyStr.contains_any keywords s = true ->
         font (cells ws r c) = Style.blue_bold_font)
  /\ value (cells ws 2 2) = int_of_len (length (sorted_tests x))
  /\ bind_value (JStr (job_url_base ++ job)) = Ok (value (cells ws 7 2)).
Proof.
  unfold render, set_column_formatting. intros H.
  inv_bind H. inv_bind H. cbv zeta in H. inv_bind H. injection H as <-.
  assert (a = empty_worksheet) as ->.
  { revert E. unfold create_workbook_and_worksheet.
    destruct (existsb _ _); [discriminate | now intros [= <-]]. }
  destruct (table_cells _ _ E0) as (Hcells & Hrows & Hcols).
  destruct (apply_basic_styling_extent a0) as (Hr1 & Hc1).
  destruct (add_summary_section_spec _ _ _ _ _ _ _ _ E1)
    as (Hshift & Hb2 & Hb7 & Hr2 & Hc2).
  destruct (add_version_information_extent a1 data) as (Hr3 & Hc3).
  assert (Hr4 := version_block_fills_rows (add_version_information a1 data)).
  unfold apply_final_formatting. repeat split.
  - intros i r j h Hi Hj. assert (Hj8 := nth_error_headers _ _ Hj).
    rewrite keyword_fonts_value, version_block_fills_value.
    rewrite add_version_information_frame by lia.
    rewrite Hshift by lia. rewrite apply_basic_styling_value.
    replace (11 + i - 9) with (2 + i) by lia.
    destruct (Hcells _ _ Hi) as (bound & Hb & Hc).
    rewrite Hc by lia. cbn [value with_value].
    replace (1 + j - 1) with j by lia.
    apply (mapM_nth _ _ _ _ _ _ Hb).
    unfold row_data. now rewrite nth_error_map, Hj.
  - intros r c Hr Hc.
    rewrite keyword_fonts_miss by lia. rewrite version_block_fills_font.
    rewrite add_version_information_frame by lia.
    rewrite Hshift by lia. apply apply_basic_styling_font; lia.
  - intros r c s Hr Hc Hv Hk.
    rewrite keyword_fonts_value in Hv.
    apply (keyword_fonts_hit _ _ _ s); try assumption. lia.
  - rewrite keyword_fonts_value, version_block_fills_value.
    rewrite add_version_information_frame by lia. exact Hb2.
  - rewrite keyword_fonts_value, version_block_fills_value.
    rewrite add_version_information_frame by lia. exact Hb7.
Qed.

(** A field that a row does not have is rendered as the empty string. *)
Lemma absent_field_cell (out job : string) (x : extraction) (data : json)
    (ws : worksheet) (i j : nat) (r : row) (h : string) :
  render out x job data = Ok ws ->
  nth_error (sorted_tests x) i = Some r ->
  nth_error headers j = Some h ->
  assoc h r = None ->
  value (cells ws (11 + i) (1 + j)) = JStr "".
Proof.
  intros H Hi Hj Ha.
  destruct (render_cells _ _ _ _ _ H) as (Hc & _).
  specialize (Hc _ _ _ _ Hi Hj). unfold dict_get in Hc. rewrite Ha in Hc.
  rewrite bind_value_empty in Hc. injection Hc as Hc. symmetry. exact Hc.
Qed.

(** C2: the row of a processed entry has the fields [Capture_Output]
    (the filtered output) and [Best_Practice_Link] exactly when the state
    of the entry is not the string [passed]; the row of a passed entry
    does not have them at all.  The renderer writes the empty string for
    every field a row does not have, so in the rendered report the
    [Capture_Output] and [Best_Practice_Link] cells of a passed row are
    empty. *)
Theorem passed_rows_omit_output :
  forall (test : json) (r : row),
    normalize test = Ok r ->
    exists st,
      py_get test "state" JNull = Ok st
      /\ (dict_has r "Capture_Output" = true <-> st <> JStr "passed")
      /\ (dict_has r "Best_Practice_Link" = true <-> st <> JStr "passed")
      /\ (st <> JStr "passed" ->
          exists captured filtered best,
            py_get test "capturedTestOutput" (JStr "") = Ok captured
            /\ filter_captured captured = Ok filtered
            /\ get_nested test "catalogInfo" "bestPracticeReference" = Ok best
            /\ assoc "Capture_Output" r = Some (JStr filtered)
            /\ assoc "Best_Practice_Link" r = Some best)
      /\ (st = JStr "passed" ->
          forall (out job : string) (x : extraction) (data : json)
                 (ws : worksheet) (i : nat),
            render out x job data = Ok ws ->
            nth_error (sorted_tests x) i = Some r ->
            value (cells ws (11 + i) 4) = JStr ""
            /\ value (cells ws (11 + i) 8) = JStr "")
      /\ (forall (out job : string) (x : extraction) (data : json)
                 (ws : worksheet) (i j : nat) (r' : row) (h : string),
            render out x job data = Ok ws ->
            nth_error (sorted_tests x) i = Some r' ->
            nth_error headers j = Some h ->
            dict_has r' h = false ->
            value (cells ws (11 + i) (1 + j)) = JStr "").
Proof.
  intros test r H.
  destruct (normalize_row _ _ H)
    as (tid & tt & state & cc & ep & rem & st & _ & _ & Hst & Hr).
  exists st. split; [exact Hst|]. cbv zeta in Hr.
  assert (Habsent :
            forall (out job : string) (x : extraction) (data : json)
                   (ws : worksheet) (i j : nat) (r' : row) (h : string),
              render out x job data = Ok ws ->
              nth_error (sorted_tests x) i = Some r' ->
              nth_error headers j = Some h ->
              dict_has r' h = false ->
              value (cells ws (11 + i) (1 + j)) = JStr "").
  { intros out job x data ws i j r' h Hrender Hi Hj Hh.
    apply (absent_field_cell out job x data ws i j r' h); try assumption.
    unfold dict_has in Hh. now destruct (assoc h r'). }
  destruct Hr as [[Hp ->] | [Hnp (c & f & b & Hc & Hf & Hb & ->)]].
  - repeat split; try (intros; congruence); try discriminate.
    + eapply (Habsent out job x data ws i 3);
        [eassumption | eassumption | reflexivity | reflexivity].
    + eapply (Habsent out job x data ws i 7);
        [eassumption | eassumption | reflexivity | reflexivity].
    + exact Habsent.
  - repeat split; try (intros; congruence); try assumption.
    intros _. exists c, f, b. now repeat split.
Qed.

Lemma passed_rows_omit_output_witness :
  exists st,
    py_get (scenario_entry "A" "passed") "state" JNull = Ok st
    /\ (dict_has passed_row "Capture_Output" = true <-> st <> JStr "passed")
    /\ (dict_has passed_row "Best_Practice_Link" = true <-> st <> JStr "passed")
    /\ (st <> JStr "passed" ->
        exists captured filtered best,
          py_get (scenario_entry "A" "passed") "capturedTestOutput" (JStr "")
          = Ok captured
          /\ filter_captured captured = Ok filtered
          /\ get_nested (scenario_entry "A" "passed") "catalogInfo"
               "bestPracticeReference" = Ok best
          /\ assoc "Capture_Output" passed_row = Some (JStr filtered)
          /\ assoc "Best_Practice_Link" passed_row = Some best)
    /\ (st = JStr "passed" ->
        forall (out job : string) (x : extraction) (data : json)
               (ws : worksheet) (i : nat),
          render out x job data = Ok ws ->
          nth_error (sorted_tests x) i = Some passed_row ->
          value (cells ws (11 + i) 4) = JStr ""
          /\ value (cells ws (11 + i) 8) = JStr "")
    /\ (forall (out job : string) (x : extraction) (data : json)
               (ws : worksheet) (i j : nat) (r' : row) (h : string),
          render out x job data = Ok ws ->
          nth_error (sorted_tests x) i = Some r' ->
          nth_error headers j = Some h ->
          dict_has r' h = false ->
          value (cells ws (11 + i) (1 + j)) = JStr "").
Proof.
  apply (passed_rows_omit_output (scenario_entry "A" "passed") passed_row).
  reflexivity.
Defined.

(** ** Counts *)

Lemma extract_test_results_ok (data : json) (x : extraction) :
  snd (extract_test_results data) = Ok x ->
  exists items,
    claim_results_of data = Ok (JDict items)
    /\ items <> []
    /\ classify (fst (collect_results items)) = Ok x.
Proof.
  unfold extract_test_results, extract_body.
  destruct (claim_results_of data) as [v|] eqn:E; [|discriminate].
  destruct (negb (truthy v)) eqn:T; [discriminate|].
  destruct v as [| | | | |items]; try discriminate.
  simpl py_items. cbv iota.
  destruct (collect_results items) as [results warnings] eqn:C. simpl.
  destruct (classify results) eqn:K; [|discriminate].
  intros [= <-]. exists items. repeat split.
  - intros ->. discriminate.
  - rewrite C. assumption.
Qed.

(** C3: whenever the extractor returns, the number of rows is the sum of
    the four counts; every returned row has one of the four recognized
    states, so an entry with any other state is in no bucket and not among
    the rows; and the Total cell (B2) of the rendered report holds the
    number of rows. *)
Theorem row_count_is_sum :
  forall (data : json) (x : extraction),
    snd (extract_test_results data) = Ok x ->
    length (sorted_tests x)
    = total_failed x + total_error x + total_skipped x + total_passed x
    /\ Forall recognized (sorted_tests x)
    /\ (forall r, In r (sorted_tests x) ->
                  exists items key test,
                    claim_results_of data = Ok (JDict items)
                    /\ In (key, test) items /\ normalize test = Ok r)
    /\ (forall (out job : string) (ws : worksheet),
          render out x job data = Ok ws ->
          value (cells ws 2 2) = JInt (Z.of_nat (length (sorted_tests x)))).
Proof.
  intros data x H.
  destruct (extract_test_results_ok _ _ H) as (items & Hd & Hne & Hc).
  destruct (classify_buckets _ _ Hc) as (f & e & s & p & Hf & He & Hs & Hp & ->).
  cbn [sorted_tests total_failed total_error total_skipped total_passed].
  repeat split.
  - rewrite !length_app. lia.
  - repeat (apply Forall_app; split);
      eapply bucket_recognized; try eassumption; simpl; tauto.
  - intros r Hr. exists items.
    assert (Hin : In r (fst (collect_results items))).
    { repeat (apply in_app_or in Hr; destruct Hr as [Hr | Hr]);
        [ apply bucket_perm in Hf; apply (Permutation_in _ Hf) in Hr
        | apply bucket_perm in He; apply (Permutation_in _ He) in Hr
        | apply bucket_perm in Hs; apply (Permutation_in _ Hs) in Hr
        | apply bucket_perm in Hp; apply (Permutation_in _ Hp) in Hr ];
        apply filter_In in Hr; tauto. }
    destruct (collect_results_In _ _ Hin) as (k & t & Hk & Hn).
    exists k, t. now repeat split.
  - intros out job ws Hrender.
    destruct (render_cells _ _ _ _ _ Hrender) as (_ & _ & _ & Hb2 & _).
    exact Hb2.
Qed.

Lemma row_count_is_sum_witness :
  length (sorted_tests scenario_extraction)
  = total_failed scenario_extraction + total_error scenario_extraction
    + total_skipped scenario_extraction + total_passed scenario_extraction
  /\ Forall recognized (sorted_tests scenario_extraction)
  /\ (forall r, In r (sorted_tests scenario_extraction) ->
                exists items key test,
                  claim_results_of scenario_claim = Ok (JDict items)
                  /\ In (key, test) items /\ normalize test = Ok r)
  /\ (forall (out job : string) (ws : worksheet),
        render out scenario_extraction job scenario_claim = Ok ws ->
        value (cells ws 2 2)
        = JInt (Z.of_nat (length (sorted_tests scenario_extraction)))).
Proof.
  apply (row_count_is_sum scenario_claim scenario_extraction). reflexivity.
Defined.

(** ** Missing results *)

Lemma generate_body_ok (input : file_state) (out job : string)
    (writable : bool) (ws : worksheet) :
  generate_body input out job writable = Ok ws ->
  exists data x,
    input = Json data
    /\ snd (extract_test_results data) = Ok x
    /\ render out x job data = Ok ws.
Proof.
  unfold generate_body. destruct input as [| |data]; try discriminate.
  intros H. inv_bind H. destruct (negb a); [discriminate|].
  inv_bind H. inv_bind H. destruct (negb a1); [discriminate|].
  inv_bind H. inv_bind H. destruct writable; [|discriminate].
  injection H as <-. now exists data, a2.
Qed.

Lemma claim_results_absent (d c : dict) :
  assoc "claim" d = Some (JDict c) -> assoc "results" c = None ->
  claim_results_of (JDict d) = Ok (JDict []).
Proof.
  intros Hc Hr. unfold claim_results_of, py_get, dict_get.
  rewrite Hc. simpl. now rewrite Hr.
Qed.

Lemma claim_results_empty (d c : dict) :
  assoc "claim" d = Some (JDict c) -> assoc "results" c = Some (JDict []) ->
  claim_results_of (JDict d) = Ok (JDict []).
Proof.
  intros Hc Hr. unfold claim_results_of, py_get, dict_get.
  rewrite Hc. simpl. now rewrite Hr.
Qed.

(** C6: when the results mapping of a claim is empty or absent, the
    extractor raises (the [ValueError] of line 38, re-raised by line 88)
    and returns no rows, and the run ends with status 1 and no report. *)
Theorem missing_results_is_fatal :
  forall (data v : json),
    claim_results_of data = Ok v ->
    truthy v = false ->
    extract_test_results data = ([], Raise (ExtractError NoTestResults))
    /\ (forall (out job : string) (writable : bool),
          generate_cert_test_excel_report (Json data) out job writable
          = {| exit_status := 1; report := None |})
    /\ (forall (w : world) (args : arguments),
          isfile w "dcirc.sh" = true ->
          job_id args = None ->
          read_input w (input_file args) = Json data ->
          main w args = {| exit_status := 1; report := None |}).
Proof.
  intros data v Hv Ht.
  assert (He : extract_test_results data
               = ([], Raise (ExtractError NoTestResults))).
  { unfold extract_test_results, extract_body. now rewrite Hv, Ht. }
  assert (Hg : forall (out job : string) (writable : bool),
             generate_cert_test_excel_report (Json data) out job writable
             = {| exit_status := 1; report := None |}).
  { intros out job writable. unfold generate_cert_test_excel_report.
    destruct (generate_body _ _ _ _) eqn:G; [|reflexivity].
    destruct (generate_body_ok _ _ _ _ _ G) as (d & x & [= <-] & Hx & _).
    rewrite He in Hx. discriminate. }
  repeat split; try assumption.
  intros w args Hf Hj Hr. unfold main. rewrite Hf, Hj, Hr. apply Hg.
Qed.

Lemma missing_results_is_fatal_witness :
  extract_test_results empty_claim = ([], Raise (ExtractError NoTestResults))
  /\ (forall (out job : string) (writable : bool),
        generate_cert_test_excel_report (Json empty_claim) out job writable
        = {| exit_status := 1; report := None |})
  /\ (forall (w : world) (args : arguments),
        isfile w "dcirc.sh" = true ->
        job_id args = None ->
        read_input w (input_file args) = Json empty_claim ->
        main w args = {| exit_status := 1; report := None |}).
Proof.
  apply (missing_results_is_fatal empty_claim (JDict [])); reflexivity.
Defined.

(** ** Keyword font *)

(** C8, as stated, fails: the Remediation cell (column G) of the first
    table row holds the keyword [Telco:] and keeps the plain table font. *)
Lemma remediation_keyword_not_blue :
  match report (main (offline_world keyword_claim) offline_arguments) with
  | Some ws =>
      value (cells ws 11 7) = JStr "Telco: see the guide"
      /\ PyStr.contains_any keywords "Telco: see the guide" = true
      /\ font (cells ws 11 7) = Style.arial_font
      /\ font_color (font (cells ws 11 7)) = None
      /\ font_color Style.blue_bold_font = Some "0000FF"
  | None => False
  end.
Proof. vm_compute. repeat split. Qed.

(** C8 (amended): in the rendered report, every cell of the row table
    (row 11 to the last row) in one of the first six columns (Test_Id to
    Exception_Process) whose string value contains one of the substrings
    [Extended:], [FarEdge:], [NonTelco:], [Telco:] has the classification
    font; the cells of the last two columns (Remediation and
    Best_Practice_Link) keep the plain table font whatever they hold. *)
Theorem keyword_cells_blue :
  forall (out job : string) (x : extraction) (data : json) (ws : worksheet),
    render out x job data = Ok ws ->
    (forall (r c : nat) (s : string),
        11 <= r <= 10 + length (sorted_tests x) ->
        1 <= c <= 6 ->
        value (cells ws r c) = JStr s ->
        PyStr.contains_any keywords s = true ->
        font (cells ws r c) = Style.blue_bold_font)
    /\ (forall r c : nat,
           11 <= r <= 10 + length (sorted_tests x) ->
           7 <= c <= 8 ->
           font (cells ws r c) = Style.arial_font).
Proof.
  intros out job x data ws H.
  destruct (render_cells _ _ _ _ _ H) as (_ & Hplain & Hblue & _).
  split; assumption.
Qed.

Lemma keyword_cells_blue_witness :
  exists ws,
    render "result.xlsx" keyword_extraction "12345" keyword_claim = Ok ws
    /\ font (cells ws 11 5) = Style.blue_bold_font
    /\ (forall (r c : nat) (s : string),
           11 <= r <= 10 + length (sorted_tests keyword_extraction) ->
           1 <= c <= 6 ->
           value (cells ws r c) = JStr s ->
           PyStr.contains_any keywords s = true ->
           font (cells ws r c) = Style.blue_bold_font)
    /\ (forall r c : nat,
           11 <= r <= 10 + length (sorted_tests keyword_extraction) ->
           7 <= c <= 8 ->
           font (cells ws r c) = Style.arial_font).
Proof.
  destruct (render "result.xlsx" keyword_extraction "12345" keyword_claim)
    as [ws|e] eqn:R.
  - exists ws. split; [reflexivity|].
    assert (T : match render "result.xlsx" keyword_extraction "12345"
                        keyword_claim with
                | Ok ws' => value (cells ws' 11 5)
                | Raise _ => JNull
                end = JStr "Telco: Mandatory") by (vm_compute; reflexivity).
    rewrite R in T.
    destruct (keyword_cells_blue "result.xlsx" "12345" keyword_extraction
                keyword_claim ws R) as [Hblue Hplain].
    split; [|split; assumption].
    apply (Hblue 11 5 "Telco: Mandatory"); [simpl; lia | lia | exact T
                                           | reflexivity].
  - exfalso.
    assert (T : match render "result.xlsx" keyword_extraction "12345"
                        keyword_claim with
                | Ok _ => true
                | Raise _ => false
                end = true) by (vm_compute; reflexivity).
    rewrite R in T. discriminate T.
Defined.

(** ** The run *)

(** C9: in an offline run (no job reference on the command line) that
    writes a report, cell B7 holds the address formed with the default
    reference [12345]. *)
Theorem offline_job_url :
  forall (w : world) (args : arguments) (ws : worksheet),
    job_id args = None ->
    report (main w args) = Some ws ->
    value (cells ws 7 2) = JStr "https://www.distributed-ci.io/jobs/12345".
Proof.
  intros w args ws Hj. unfold main. rewrite Hj.
  destruct (negb (isfile w "dcirc.sh")); [discriminate|].
  unfold generate_cert_test_excel_report.
  destruct (generate_body _ _ _ _) as [ws'|] eqn:G; [|discriminate].
  cbn [report]. intros [= ->].
  destruct (generate_body_ok _ _ _ _ _ G) as (data & x & _ & _ & Hr).
  destruct (render_cells _ _ _ _ _ Hr) as (_ & _ & _ & _ & Hb7).
  assert (Hv : bind_value (JStr (job_url_base ++ "12345"))
               = Ok (JStr "https://www.distributed-ci.io/jobs/12345"))
    by (vm_compute; reflexivity).
  rewrite Hv in Hb7. injection Hb7 as Hb7. symmetry. exact Hb7.
Qed.

Lemma offline_job_url_witness :
  exists ws,
    report (main (offline_world scenario_claim) offline_arguments) = Some ws
    /\ value (cells ws 7 2) = JStr "https://www.distributed-ci.io/jobs/12345".
Proof.
  destruct (report (main (offline_world scenario_claim) offline_arguments))
    as [ws|] eqn:R.
  - exists ws. split; [reflexivity|].
    apply (offline_job_url (offline_world scenario_claim) offline_arguments ws);
      [reflexivity | exact R].
  - exfalso.
    assert (T : match report (main (offline_world scenario_claim)
                                offline_arguments) with
                | Some _ => true
                | None => false
                end = true) by (vm_compute; reflexivity).
    rewrite R in T. discriminate T.
Defined.

(** C10: when [dcirc.sh] is not a file of the working directory, the run
    ends with status 0 and writes no report, whatever the command line
    asks for (offline runs included) and whatever the input holds: the
    check comes before the input is read. *)
Theorem missing_dcirc_exits_zero :
  forall (w : world) (args : arguments),
    isfile w "dcirc.sh" = false ->
    main w args = {| exit_status := 0; report := None |}.
Proof.
  intros w args H. unfold main. now rewrite H.
Qed.

Lemma missing_dcirc_exits_zero_witness :
  main (no_dcirc_world scenario_claim) offline_arguments
  = {| exit_status := 0; report := None |}.
Proof.
  apply (missing_dcirc_exits_zero (no_dcirc_world scenario_claim)
           offline_arguments).
  reflexivity.
Defined.

(** * Further properties *)

(** ** The loop of the extractor *)


Lemma get_nested_cases (d : dict) (section field : string) :
  (absent_or_dict d section = true
   /\ exists v, get_nested (JDict d) section field = Ok v)
  \/ (absent_or_dict d section = false
      /\ exists e, get_nested (JDict d) section field = Raise e).
Proof.
  unfold absent_or_dict, get_nested, py_get, dict_get.
  destruct (assoc section d) as [[| | | | |o]|]; cbn [bind];
    try (right; split; [reflexivity | eexists; reflexivity]);
    left; split; try reflexivity; eexists; reflexivity.
Qed.

Lemma category_classification_cases (d : dict) :
  (absent_or_dict d "categoryClassification" = true
   /\ exists s, category_classification (JDict d) = Ok s)
  \/ (absent_or_dict d "categoryClassification" = false
      /\ exists e, category_classification (JDict d) = Raise e).
Proof.
  unfold absent_or_dict, category_classification, py_get, dict_get.
  destruct (assoc "categoryClassification" d) as [[| | | | |o]|];
    cbn [bind py_items type_name];
    try (right; split; [reflexivity | eexists; reflexivity]);
    left; split; try reflexivity; eexists; reflexivity.
Qed.

Lemma filter_captured_cases (v : json) :
  (str_or_falsy v = true /\ exists s, filter_captured v = Ok s)
  \/ (str_or_falsy v = false /\ exists e, filter_captured v = Raise e).
Proof.
  unfold str_or_falsy, filter_captured.
  destruct v; try (left; split; [reflexivity | eexists; reflexivity]);
    destruct (truthy _);
    try (left; split; [reflexivity | eexists; reflexivity]);
    right; split; try reflexivity; eexists; reflexivity.
Qed.

(** X2: an entry is kept exactly when it is an object whose [testID],
    [catalogInfo] and [categoryClassification], if present, are objects
    and whose [capturedTestOutput] is a string or counts as false; every
    other entry raises inside the loop and is skipped.  Missing fields
    never make an entry raise. *)
Theorem normalize_succeeds_iff :
  forall test : json,
    (exists r, normalize test = Ok r) <-> well_formed_entry test = true.
Proof.
  intros test. destruct test as [| | | | |d];
    try (split; [intros [r H]; discriminate H | discriminate]).
  unfold normalize, well_formed_entry.
  change (py_get (JDict d) "state" (JStr ""))
    with (Ok (A:=json) (dict_get d "state" (JStr ""))).
  change (py_get (JDict d) "state" JNull)
    with (Ok (A:=json) (dict_get d "state" JNull)).
  change (py_get (JDict d) "capturedTestOutput" (JStr ""))
    with (Ok (A:=json) (dict_get d "capturedTestOutput" (JStr ""))).
  destruct (get_nested_cases d "testID" "id") as [(B1 & v1 & E1) | (B1 & e1 & E1)];
    rewrite B1, E1; cbn [bind andb];
    [|split; [intros [r H]; discriminate H | discriminate]].
  destruct (get_nested_cases d "catalogInfo" "description")
    as [(B2 & v2 & E2) | (B2 & e2 & E2)];
    rewrite B2, E2; cbn [bind andb];
    [|split; [intros [r H]; discriminate H | discriminate]].
  destruct (category_classification_cases d) as [(B3 & v3 & E3) | (B3 & e3 & E3)];
    rewrite B3, E3; cbn [bind andb];
    [|split; [intros [r H]; discriminate H | discriminate]].
  destruct (get_nested_cases d "catalogInfo" "exceptionProcess")
    as [(B4 & v4 & E4) | (B4 & e4 & E4)]; [|congruence].
  destruct (get_nested_cases d "catalogInfo" "remediation")
    as [(B5 & v5 & E5) | (B5 & e5 & E5)]; [|congruence].
  destruct (get_nested_cases d "catalogInfo" "bestPracticeReference")
    as [(B6 & v6 & E6) | (B6 & e6 & E6)]; [|congruence].
  rewrite E4, E5. cbn [bind].
  destruct (filter_captured_cases (dict_get d "capturedTestOutput" (JStr "")))
    as [(B7 & v7 & E7) | (B7 & e7 & E7)];
    rewrite B7, E7; cbn [bind];
    [|split; [intros [r H]; discriminate H | discriminate]].
  split; [reflexivity | intros _].
  destruct (negb _); [rewrite E6; cbn [bind]|]; eexists; reflexivity.
Qed.

(** ** The buckets *)

Lemma state_is_exclusive (a b : string) (r : row) :
  state_is a r = true -> state_is b r = true -> a = b.
Proof.
  unfold state_is. destruct (assoc "State" r) as [v|]; [|discriminate].
  rewrite !py_eq_str. intros -> [= ->]. reflexivity.
Qed.

Lemma recognized_count (results : list row) :
  length (filter (state_is "failed") results)
  + length (filter (state_is "error") results)
  + length (filter (state_is "skipped") results)
  + length (filter (state_is "passed") results)
  = length (filter recognized_state results).
Proof.
  induction results as [|r results IH]; [reflexivity|].
  cbn [filter]. unfold recognized_state at 1. cbn [existsb recognized_states].
  destruct (state_is "failed" r) eqn:F, (state_is "error" r) eqn:E,
    (state_is "skipped" r) eqn:S, (state_is "passed" r) eqn:P;
    cbn [orb length];
    try lia;
    exfalso;
    try (discriminate (state_is_exclusive _ _ _ F E));
    try (discriminate (state_is_exclusive _ _ _ F S));
    try (discriminate (state_is_exclusive _ _ _ F P));
    try (discriminate (state_is_exclusive _ _ _ E S));
    try (discriminate (state_is_exclusive _ _ _ E P));
    try (discriminate (state_is_exclusive _ _ _ S P)).
Qed.

(** X3: the rows the extractor returns are exactly the rows of the loop
    whose state is one of failed, error, skipped, passed; a row in any
    other state (a missing state included) is dropped without a warning,
    and the number of returned rows is the number of rows in a recognized
    state. *)
Theorem unrecognized_states_dropped :
  forall (data : json) (items : list (string * json)) (x : extraction),
    claim_results_of data = Ok (JDict items) ->
    snd (extract_test_results data) = Ok x ->
    (forall r, In r (sorted_tests x)
               <-> In r (fst (collect_results items))
                   /\ recognized_state r = true)
    /\ length (sorted_tests x)
       = length (filter recognized_state (fst (collect_results items))).
Proof.
  intros data items x Hd H.
  destruct (extract_test_results_ok _ _ H) as (items' & Hd' & _ & Hc).
  rewrite Hd in Hd'. injection Hd' as <-.
  destruct (classify_buckets _ _ Hc) as (f & e & s & p & Hf & He & Hs & Hp & ->).
  apply bucket_perm in Hf, He, Hs, Hp.
  cbn [sorted_tests]. split.
  - intros r. rewrite !in_app_iff.
    assert (Hin : forall st b,
               Permutation b (filter (state_is st) (fst (collect_results items))) ->
               In r b <-> In r (fst (collect_results items))
                          /\ state_is st r = true).
    { intros st b Hb. rewrite <- filter_In. split.
      - apply Permutation_in. exact Hb.
      - apply Permutation_in. apply Permutation_sym. exact Hb. }
    rewrite (Hin _ _ Hf), (Hin _ _ He), (Hin _ _ Hs), (Hin _ _ Hp).
    unfold recognized_state. cbn [existsb recognized_states].
    rewrite !orb_true_iff. intuition discriminate.
  - rewrite !length_app.
    rewrite (Permutation_length Hf), (Permutation_length He),
      (Permutation_length Hs), (Permutation_length Hp).
    rewrite <- recognized_count. lia.
Qed.

Lemma unrecognized_states_dropped_witness :
  (forall r, In r (sorted_tests scenario_extraction)
             <-> In r (fst (collect_results
                              [("t1", scenario_entry "B" "failed");
                               ("t2", scenario_entry "A" "passed");
                               ("t3", scenario_entry "A" "skipped")]%list))
                 /\ recognized_state r = true)
  /\ length (sorted_tests scenario_extraction)
     = length (filter recognized_state
                 (fst (collect_results
                         [("t1", scenario_entry "B" "failed");
                          ("t2", scenario_entry "A" "passed");
                          ("t3", scenario_entry "A" "skipped")]%list))).
Proof.
  apply (unrecognized_states_dropped scenario_claim); reflexivity.
Defined.

Lemma ltb_irrefl (k : string) : String.ltb k k = false.
Proof.
  unfold String.ltb. destruct (String.compare k k) eqn:E; try reflexivity.
  assert (A := String.compare_antisym k k). rewrite E in A. discriminate A.
Qed.

Lemma insert_by_key_stable (k : string) (x : json * row)
    (s r : list (json * row)) :
  fst x = JStr (row_id (snd x)) ->
  Forall (fun p => fst p = JStr (row_id (snd p))) s ->
  insert_by_key x s = Ok r ->
  filter (fun p => id_is k (snd p)) r
  = if id_is k (snd x) then x :: filter (fun p => id_is k (snd p)) s
    else filter (fun p => id_is k (snd p)) s.
Proof.
  intros Hx Hs. revert r.
  induction Hs as [|y s Hy Hs IH]; simpl; intros r H.
  - injection H as <-. simpl. now destruct (id_is k (snd x)).
  - rewrite Hy, Hx in H. simpl in H.
    destruct (String.ltb (row_id (snd y)) (row_id (snd x))) eqn:L.
    + inv_bind H. injection H as <-. simpl. rewrite (IH _ E).
      destruct (id_is k (snd x)) eqn:Kx; [|reflexivity].
      destruct (id_is k (snd y)) eqn:Ky; [|reflexivity].
      unfold id_is in Kx, Ky. apply String.eqb_eq in Kx, Ky.
      rewrite Kx, Ky, ltb_irrefl in L. discriminate L.
    + injection H as <-. simpl. now destruct (id_is k (snd x)).
Qed.

Lemma sort_by_key_stable (k : string) (l s : list (json * row)) :
  Forall (fun p => fst p = JStr (row_id (snd p))) l ->
  sort_by_key l = Ok s ->
  filter (fun p => id_is k (snd p)) s = filter (fun p => id_is k (snd p)) l
  /\ Forall (fun p => fst p = JStr (row_id (snd p))) s.
Proof.
  intros Hl. revert s. induction Hl as [|x l Hx Hl IH]; simpl; intros s H.
  - injection H as <-. split; [reflexivity | constructor].
  - inv_bind H. destruct (IH _ E) as [IHf IHi].
    split.
    + rewrite (insert_by_key_stable k x a s Hx IHi H), IHf. reflexivity.
    + apply Forall_forall. intros p Hp.
      apply (Permutation_in _ (Permutation_sym (insert_by_key_perm _ _ _ H)))
        in Hp.
      destruct Hp as [<- | Hp]; [assumption|].
      exact (proj1 (Forall_forall _ _) IHi p Hp).
Qed.

(** X4: the sort inside a bucket is stable: rows of one state that have
    the same identifier come out in the order the results mapping lists
    them. *)
Theorem equal_ids_keep_order :
  forall (state : string) (results b : list row),
    Forall has_str_id results ->
    bucket state results = Ok b ->
    forall k : string,
      filter (id_is k) b = filter (id_is k) (filter (state_is state) results).
Proof.
  intros state results b Hid H k. unfold bucket in H. inv_bind H.
  apply (filterM_ok _ (state_is state)) in E; [|apply state_test]. subst a.
  set (sel := filter (state_is state) results) in *.
  assert (Hsel : Forall has_str_id sel).
  { apply Forall_forall. intros r Hr. apply filter_In in Hr.
    exact (proj1 (Forall_forall _ _) Hid r (proj1 Hr)). }
  unfold py_sorted in H.
  rewrite (mapM_total _ (fun r => JStr (row_id r))) in H.
  2:{ eapply Forall_impl; [|exact Hsel]. intros r [s Hs].
      unfold dict_getitem, row_id, dict_get. now rewrite Hs. }
  cbn [bind] in H. inv_bind H. injection H as <-.
  destruct (sort_by_key_stable k _ _ (combine_keys sel) E) as [Hst _].
  rewrite filter_map_swap.
  etransitivity; [apply (f_equal (map snd)); exact Hst|].
  rewrite <- (filter_map_swap (id_is k) snd).
  rewrite map_snd_combine by now rewrite length_map. reflexivity.
Qed.

Lemma equal_ids_keep_order_witness :
  filter (id_is "A") duplicate_id_bucket
  = filter (id_is "A") (filter (state_is "failed") duplicate_id_rows).
Proof.
  apply (equal_ids_keep_order "failed" duplicate_id_rows duplicate_id_bucket).
  - repeat constructor; eexists; reflexivity.
  - reflexivity.
Defined.

(** ** The layout of the rendered report *)

Lemma ws_append_extent (ws ws' : worksheet) (vals : list json) :
  ws_append ws vals = Ok ws' -> vals <> [] ->
  row_extent ws' = Nat.max (row_extent ws) (S (current_row ws))
  /\ col_extent ws' = Nat.max (col_extent ws) (length vals)
  /\ (forall r c, length vals < c -> cells ws' r c = cells ws r c).
Proof.
  unfold ws_append. intros H Hne. inv_bind H. injection H as <-.
  assert (Hlen := mapM_length _ _ _ E). cbn [row_extent col_extent cells].
  rewrite Hlen. repeat split.
  - destruct a; [destruct vals; [congruence | discriminate] | reflexivity].
  - intros r c Hc.
    rewrite (proj2 (in_range_false 1 (length vals) c)) by lia.
    now rewrite andb_false_r.
Qed.

Lemma append_all_extent (m : nat) (rows : list (list json))
    (ws ws' : worksheet) :
  append_all ws rows = Ok ws' ->
  Forall (fun vals => length vals = m) rows -> 0 < m ->
  row_extent ws = current_row ws -> col_extent ws = m ->
  row_extent ws' = current_row ws + length rows
  /\ col_extent ws' = m
  /\ (forall r c, current_row ws + length rows < r ->
                  cells ws' r c = cells ws r c).
Proof.
  revert ws. induction rows as [|vals rows IH]; simpl; intros ws H Hf Hm Hr Hc.
  - injection H as <-. repeat split; try lia; reflexivity.
  - inv_bind H.
    assert (Hv : length vals = m) by now inversion Hf.
    assert (Hf' : Forall (fun vals => length vals = m) rows)
      by now inversion Hf.
    assert (Hne : vals <> []) by (destruct vals; [simpl in Hv; lia | discriminate]).
    destruct (ws_append_extent _ _ _ E Hne) as (Hr' & Hc' & _).
    destruct (ws_append_spec _ _ _ E) as (_ & _ & Hcur & Hother & _).
    destruct (IH a H Hf' Hm) as (Hr2 & Hc2 & Hk); try lia.
    repeat split; try lia.
    intros r c Hrc. rewrite Hk by lia. apply Hother. lia.
Qed.

Lemma headers_bound :
  mapM bind_value (map JStr headers) = Ok (map JStr headers).
Proof. vm_compute. reflexivity. Qed.

(** The sheet after [add_test_results_to_worksheet]: its extent, its
    header row and what lies under the table. *)
Lemma table_extent (rows : list row) (ws : worksheet) :
  add_test_results_to_worksheet empty_worksheet rows = Ok ws ->
  row_extent ws = 1 + length rows
  /\ col_extent ws = 8
  /\ (forall c, 1 <= c <= 8 ->
                cells ws 1 c
                = with_value (nth (c - 1) (map JStr headers) JNull) default_cell)
  /\ (forall r c, 1 + length rows < r -> cells ws r c = default_cell).
Proof.
  unfold add_test_results_to_worksheet. intros H. inv_bind H.
  assert (Hne : map JStr headers <> []) by discriminate.
  destruct (ws_append_extent _ _ _ E Hne) as (Hr & Hc & _).
  destruct (ws_append_spec _ _ _ E)
    as (bound & Hb & Hcur & Hother & Hrow & _).
  rewrite headers_bound in Hb. injection Hb as <-.
  cbn in Hr, Hc, Hcur.
  destruct (append_all_spec _ _ _ H) as (Hkeep & _).
  destruct (append_all_extent 8 _ _ _ H) as (Hr2 & Hc2 & Hk); try lia.
  { apply Forall_forall. intros vals Hv. apply in_map_iff in Hv.
    now destruct Hv as (r & <- & _). }
  rewrite Hcur, length_map in *.
  repeat split; try lia.
  - intros c Hc'. rewrite Hkeep by lia. now apply Hrow.
  - intros r c Hrc. rewrite Hk by lia. rewrite Hother by (cbn; lia).
    reflexivity.
Qed.

Lemma ws_update_region_same (ws : worksheet) (r1 r2 c1 c2 : nat)
    (body : nat -> nat -> cell -> cell) (r c : nat) :
  (in_range r1 r2 r && in_range c1 c2 c = true ->
   body r c (cells ws r c) = cells ws r c) ->
  cells (ws_update_region ws r1 r2 c1 c2 body) r c = cells ws r c.
Proof.
  intros H. cbn [cells ws_update_region].
  destruct (in_range r1 r2 r && in_range c1 c2 c); auto.
Qed.

Lemma same_beyond_refl (ws : worksheet) : same_beyond ws ws.
Proof. split; reflexivity. Qed.

Lemma same_beyond_trans (a b c : worksheet) :
  same_beyond a b -> same_beyond b c -> same_beyond a c.
Proof.
  intros [Hab Ha] [Hbc Hb]. split; [congruence|].
  intros r col Hr. rewrite Hb by lia. now apply Ha.
Qed.

(** A loop over rows that end within the sheet leaves its extent and
    what lies under it alone. *)
Lemma same_beyond_region (ws : worksheet) (r1 r2 c1 c2 : nat)
    (body : nat -> nat -> cell -> cell) :
  1 <= row_extent ws -> r2 <= row_extent ws ->
  same_beyond ws (ws_update_region ws r1 r2 c1 c2 body).
Proof.
  intros H1 H2. split.
  - cbn [row_extent ws_update_region]. destruct (_ && _); lia.
  - intros r c Hr. apply ws_update_region_outside.
    rewrite (proj2 (in_range_false r1 r2 r)) by lia. reflexivity.
Qed.

Lemma max_row_extent (ws : worksheet) :
  1 <= row_extent ws -> max_row ws = row_extent ws.
Proof. unfold max_row. lia. Qed.

Lemma apply_basic_styling_beyond (ws : worksheet) :
  1 <= row_extent ws -> same_beyond ws (apply_basic_styling ws).
Proof.
  intros H. unfold apply_basic_styling. apply same_beyond_region; [assumption|].
  rewrite max_row_extent by assumption. lia.
Qed.

Lemma version_block_fills_beyond (ws : worksheet) :
  9 <= row_extent ws -> same_beyond ws (version_block_fills ws).
Proof.
  intros H. unfold version_block_fills. cbv zeta.
  set (w1 := ws_update_region ws 1 1 _ _ _).
  assert (S1 : same_beyond ws w1) by (apply same_beyond_region; lia).
  set (w2 := ws_update_region w1 9 9 _ _ _).
  assert (S2 : same_beyond ws w2).
  { apply (same_beyond_trans _ w1); [assumption|].
    apply same_beyond_region; destruct S1; lia. }
  set (w3 := ws_update_region w2 1 _ 3 3 _).
  assert (S3 : same_beyond ws w3).
  { apply (same_beyond_trans _ w2); [assumption|].
    destruct S2 as [E2 _].
    apply same_beyond_region; rewrite ?max_row_extent; lia. }
  set (w4 := ws_update_region w3 1 _ 1 1 _).
  assert (S4 : same_beyond ws w4).
  { apply (same_beyond_trans _ w3); [assumption|].
    destruct S3 as [E3 _].
    apply same_beyond_region; rewrite ?max_row_extent; lia. }
  set (w5 := ws_update_region w4 10 _ 3 3 _).
  assert (S5 : same_beyond ws w5).
  { apply (same_beyond_trans _ w4); [assumption|].
    destruct S4 as [E4 _].
    apply same_beyond_region; rewrite ?max_row_extent; lia. }
  set (w6 := ws_update_region w5 1 1 3 4 _).
  assert (S6 : same_beyond ws w6).
  { apply (same_beyond_trans _ w5); [assumption|].
    destruct S5 as [E5 _]. apply same_beyond_region; lia. }
  set (w7 := ws_update_region w6 1 _ 2 2 _).
  assert (S7 : same_beyond ws w7).
  { apply (same_beyond_trans _ w6); [assumption|].
    destruct S6 as [E6 _].
    apply same_beyond_region; rewrite ?max_row_extent; lia. }
  apply (same_beyond_trans _ w7); [assumption|].
  destruct S7 as [E7 _].
  apply same_beyond_region; rewrite ?max_row_extent; lia.
Qed.

Lemma keyword_fonts_beyond (ws : worksheet) :
  1 <= row_extent ws -> same_beyond ws (keyword_fonts ws).
Proof.
  intros H. unfold keyword_fonts. apply same_beyond_region; [assumption|].
  rewrite max_row_extent by assumption. lia.
Qed.

Lemma ws_assign_beyond (ws ws' : worksheet) (r c : nat) (v : json) :
  ws_assign ws r c v = Ok ws' -> r <= row_extent ws -> same_beyond ws ws'.
Proof.
  unfold ws_assign. intros H Hr. inv_bind H. injection H as <-. split.
  - cbn [row_extent]. lia.
  - intros r' c' Hr'. cbn [cells].
    destruct (Nat.eqb_spec r' r); [lia | reflexivity].
Qed.

Lemma assign_all_beyond (l : list (nat * nat * json)) (ws ws' : worksheet) :
  Forall (fun a => fst (fst a) <= row_extent ws) l ->
  assign_all ws l = Ok ws' -> same_beyond ws ws'.
Proof.
  revert ws. induction l as [|[[r c] v] l IH]; simpl; intros ws Hf H.
  - injection H as <-. apply same_beyond_refl.
  - inv_bind H. inversion Hf as [|? ? Hr Hf']; subst. cbn [fst] in Hr.
    assert (Sa := ws_assign_beyond _ _ _ _ _ E Hr).
    apply (same_beyond_trans _ a); [assumption|].
    apply IH; [|assumption]. destruct Sa as [Ea _]. now rewrite Ea.
Qed.

Lemma assign_until_error_beyond (l : list (nat * nat * json))
    (ws : worksheet) :
  Forall (fun a => fst (fst a) <= row_extent ws) l ->
  same_beyond ws (assign_until_error ws l).
Proof.
  revert ws. induction l as [|[[r c] v] l IH]; simpl; intros ws Hf.
  - apply same_beyond_refl.
  - destruct (ws_assign ws r c v) as [a|] eqn:E; [|apply same_beyond_refl].
    inversion Hf as [|? ? Hr Hf']; subst. cbn [fst] in Hr.
    assert (Sa := ws_assign_beyond _ _ _ _ _ E Hr).
    apply (same_beyond_trans _ a); [assumption|].
    apply IH. destruct Sa as [Ea _]. now rewrite Ea.
Qed.

Ltac rows_within :=
  repeat (apply Forall_cons; [cbn [fst snd]; lia|]); apply Forall_nil.

Lemma add_summary_section_extent (ws ws' : worksheet) (rows : list row)
    (f e s p : nat) (job : string) :
  add_summary_section ws rows f e s p job = Ok ws' ->
  1 <= row_extent ws -> row_extent ws' = row_extent ws + 9.
Proof.
  unfold add_summary_section. intros H Hne. inv_bind H. injection H as <-.
  assert (Hi : row_extent (ws_insert_rows ws 1 9) = row_extent ws + 9).
  { cbn [row_extent ws_insert_rows].
    destruct (Nat.leb_spec 1 (row_extent ws)); lia. }
  assert (Sa : same_beyond (ws_insert_rows ws 1 9) a).
  { eapply assign_all_beyond; [|exact E]. rewrite Hi. rows_within. }
  destruct Sa as [Ea _].
  match goal with
  | |- row_extent (ws_update_region ?W ?r1 ?r2 ?c1 ?c2 ?body) = _ =>
      destruct (same_beyond_region W r1 r2 c1 c2 body) as [Er _];
        [lia | lia | rewrite Er]
  end.
  rewrite Ea, Hi. reflexivity.
Qed.

Lemma add_version_information_beyond (ws : worksheet) (data : json) :
  7 <= row_extent ws -> same_beyond ws (add_version_information ws data).
Proof.
  intros H. unfold add_version_information.
  destruct (bind _ _) as [assignments|] eqn:E; [|apply same_beyond_refl].
  do 8 inv_bind E. injection E as <-.
  apply assign_until_error_beyond. rows_within.
Qed.

Lemma version_block_fills_cells (ws : worksheet) (r c : nat) :
  8 <= r -> cells (version_block_fills ws) r c = cells ws r c.
Proof.
  intros Hr. unfold version_block_fills. cbv zeta.
  repeat (rewrite ws_update_region_same;
          [| intros Hin; try reflexivity;
             apply andb_true_iff in Hin; destruct Hin as [Hin _];
             apply in_range_true in Hin;
             try rewrite (proj2 (in_range_false 2 7 r)) by lia;
             try reflexivity; lia ]).
  reflexivity.
Qed.

Lemma keyword_fonts_plain (ws : worksheet) (r c : nat) :
  holds_keyword (value (cells ws r c)) = false ->
  cells (keyword_fonts ws) r c = cells ws r c.
Proof.
  intros H. unfold keyword_fonts. apply ws_update_region_same. intros _.
  unfold holds_keyword in H. destruct (value (cells ws r c)); try reflexivity.
  now rewrite H.
Qed.

Lemma keyword_fonts_fill (ws : worksheet) (r c : nat) :
  fill (cells (keyword_fonts ws) r c) = fill (cells ws r c).
Proof.
  unfold keyword_fonts. cbn [cells ws_update_region].
  destruct (_ && _); [|reflexivity].
  destruct (value (cells ws r c)); try reflexivity.
  now destruct (PyStr.contains_any keywords s).
Qed.

Lemma apply_basic_styling_header (ws : worksheet) (c : nat) :
  1 <= row_extent ws -> 1 <= c <= col_extent ws ->
  cells (apply_basic_styling ws) 1 c
  = with_fill Style.blue_fill
      (with_font Style.header_font (with_font Style.arial_font (cells ws 1 c))).
Proof.
  intros Hr Hc. unfold apply_basic_styling, ws_update_region, max_row,
    max_column. cbn [cells].
  rewrite (proj2 (in_range_true 1 _ 1)) by lia.
  rewrite (proj2 (in_range_true 1 _ c)) by lia. reflexivity.
Qed.

Lemma apply_basic_styling_fill (ws : worksheet) (r c : nat) :
  2 <= r <= row_extent ws -> 1 <= c <= col_extent ws ->
  fill (cells ws r c) = None ->
  fill (cells (apply_basic_styling ws) r c)
  = if (c =? 3)%nat then state_fill (value (cells ws r c)) else None.
Proof.
  intros Hr Hc Hf. unfold apply_basic_styling, ws_update_region, max_row,
    max_column. cbn [cells].
  rewrite (proj2 (in_range_true 1 _ r)) by lia.
  rewrite (proj2 (in_range_true 1 _ c)) by lia.
  cbn [andb]. destruct (r =? 1)%nat eqn:E; [apply Nat.eqb_eq in E; lia|].
  cbv zeta. cbn [value with_font].
  destruct (c =? 3)%nat; [|exact Hf].
  unfold state_fill.
  repeat (match goal with |- context [if ?b then _ else _] => destruct b end;
          try reflexivity).
  exact Hf.
Qed.

(** The sheet a rendering returns, traced back to the table it was
    started from. *)
Lemma render_table (out job : string) (x : extraction) (data : json)
    (ws : worksheet) :
  render out x job data = Ok ws ->
  exists table,
    add_test_results_to_worksheet empty_worksheet (sorted_tests x) = Ok table
    /\ row_extent ws = 10 + length (sorted_tests x)
    /\ (forall r c, 10 <= r ->
          fill (cells ws r c)
          = fill (cells (apply_basic_styling table) (r - 9) c)
          /\ value (cells ws r c) = value (cells table (r - 9) c)
          /\ (holds_keyword (value (cells table (r - 9) c)) = false ->
              font (cells ws r c)
              = font (cells (apply_basic_styling table) (r - 9) c)))
    /\ (forall r c, 10 + length (sorted_tests x) < r ->
                    cells ws r c = default_cell).
Proof.
  unfold render, set_column_formatting. intros H.
  inv_bind H. inv_bind H. cbv zeta in H. inv_bind H. injection H as <-.
  assert (a = empty_worksheet) as ->.
  { revert E. unfold create_workbook_and_worksheet.
    destruct (existsb _ _); [discriminate | now intros [= <-]]. }
  exists a0. split; [assumption|].
  destruct (table_extent _ _ E0) as (Hr0 & Hc0 & _ & Hunder).
  destruct (apply_basic_styling_beyond a0) as [Hr1 Hb1]; [lia|].
  assert (Hr2 := add_summary_section_extent _ _ _ _ _ _ _ _ E1).
  destruct (add_summary_section_spec _ _ _ _ _ _ _ _ E1) as (Hshift & _).
  destruct (add_version_information_beyond a1 data) as [Hr3 Hb3]; [lia|].
  destruct (version_block_fills_beyond (add_version_information a1 data))
    as [Hr4 Hb4]; [lia|].
  destruct (keyword_fonts_beyond
              (version_block_fills (add_version_information a1 data)))
    as [Hr5 Hb5]; [lia|].
  unfold apply_final_formatting.
  assert (Hcell : forall r c, 10 <= r ->
             cells (version_block_fills (add_version_information a1 data)) r c
             = cells (apply_basic_styling a0) (r - 9) c).
  { intros r c Hr. rewrite version_block_fills_cells by lia.
    rewrite add_version_information_frame by lia. now apply Hshift. }
  repeat split.
  - lia.
  - rewrite keyword_fonts_fill, Hcell by assumption. reflexivity.
  - rewrite keyword_fonts_value, Hcell by assumption.
    apply apply_basic_styling_value.
  - intros Hk. rewrite keyword_fonts_plain; [now rewrite Hcell|].
    rewrite Hcell by assumption. now rewrite apply_basic_styling_value.
  - intros r c Hr. rewrite Hb5, Hb4, Hb3 by lia.
    rewrite Hshift by lia. rewrite Hb1 by lia. apply Hunder. lia.
Qed.

Lemma scenario_renders :
  exists ws,
    render "result.xlsx" scenario_extraction "12345" scenario_claim = Ok ws.
Proof.
  destruct (render "result.xlsx" scenario_extraction "12345" scenario_claim)
    as [ws|e] eqn:R; [now exists ws|].
  exfalso.
  assert (T : match render "result.xlsx" scenario_extraction "12345"
                      scenario_claim with
              | Ok _ => true
              | Raise _ => false
              end = true) by (vm_compute; reflexivity).
  rewrite R in T. discriminate T.
Qed.

(** X5: the rendered report holds the eight headers on row 10 and the
    i-th extracted row on row 11 + i, each field under its header (as the
    cell stores it); the last row of the sheet is the last row of the
    table, and every cell under it is empty. *)
Theorem report_table_layout :
  forall (out job : string) (x : extraction) (data : json) (ws : worksheet),
    render out x job data = Ok ws ->
    (forall j h, nth_error headers j = Some h ->
                 value (cells ws 10 (1 + j)) = JStr h)
    /\ (forall i r j h,
           nth_error (sorted_tests x) i = Some r ->
           nth_error headers j = Some h ->
           bind_value (dict_get r h (JStr ""))
           = Ok (value (cells ws (11 + i) (1 + j))))
    /\ max_row ws = 10 + length (sorted_tests x)
    /\ (forall r c, 10 + length (sorted_tests x) < r ->
                    cells ws r c = default_cell).
Proof.
  intros out job x data ws H.
  destruct (render_table _ _ _ _ _ H) as (table & Ht & Hext & Hcell & Hunder).
  destruct (render_cells _ _ _ _ _ H) as (Hrows & _).
  destruct (table_extent _ _ Ht) as (_ & _ & Hhead & _).
  repeat split; try assumption.
  - intros j h Hj. assert (Hj8 := nth_error_headers _ _ Hj).
    destruct (Hcell 10 (1 + j)) as (_ & Hv & _); [lia|].
    rewrite Hv. change (10 - 9) with 1. rewrite Hhead by lia.
    cbn [value with_value]. replace (1 + j - 1) with j by lia.
    apply nth_error_nth. now rewrite nth_error_map, Hj.
  - unfold max_row. lia.
Qed.

Lemma report_table_layout_witness :
  exists ws,
    render "result.xlsx" scenario_extraction "12345" scenario_claim = Ok ws
    /\ (forall j h, nth_error headers j = Some h ->
                    value (cells ws 10 (1 + j)) = JStr h)
    /\ (forall i r j h,
           nth_error (sorted_tests scenario_extraction) i = Some r ->
           nth_error headers j = Some h ->
           bind_value (dict_get r h (JStr ""))
           = Ok (value (cells ws (11 + i) (1 + j))))
    /\ max_row ws = 10 + length (sorted_tests scenario_extraction)
    /\ (forall r c, 10 + length (sorted_tests scenario_extraction) < r ->
                    cells ws r c = default_cell).
Proof.
  destruct scenario_renders as [ws R]. exists ws. split; [exact R|].
  exact (report_table_layout _ _ _ _ _ R).
Defined.

Lemma header_has_no_keyword (c : nat) :
  1 <= c <= 8 ->
  holds_keyword (nth (c - 1) (map JStr headers) JNull) = false.
Proof.
  intros Hc.
  do 9 (destruct c as [|c]; [try lia; reflexivity|]). lia.
Qed.

(** X6: every cell of the header row (row 10, columns A to H) of the
    rendered report is bold and has the header fill. *)
Theorem report_header_style :
  forall (out job : string) (x : extraction) (data : json) (ws : worksheet),
    render out x job data = Ok ws ->
    forall c, 1 <= c <= 8 ->
      font (cells ws 10 c) = Style.header_font
      /\ font_bold (font (cells ws 10 c)) = true
      /\ fill (cells ws 10 c) = Some Style.blue_fill.
Proof.
  intros out job x data ws H c Hc.
  destruct (render_table _ _ _ _ _ H) as (table & Ht & _ & Hcell & _).
  destruct (table_extent _ _ Ht) as (Hr & Hce & Hhead & _).
  destruct (Hcell 10 c) as (Hf & _ & Hfont); [lia|].
  change (10 - 9) with 1 in *.
  rewrite apply_basic_styling_header in Hf, Hfont by lia.
  rewrite Hhead in Hfont by lia. cbn [value with_value] in Hfont.
  rewrite Hf, (Hfont (header_has_no_keyword c Hc)). now repeat split.
Qed.

Lemma report_header_style_witness :
  exists ws,
    render "result.xlsx" scenario_extraction "12345" scenario_claim = Ok ws
    /\ font (cells ws 10 3) = Style.header_font
    /\ font_bold (font (cells ws 10 3)) = true
    /\ fill (cells ws 10 3) = Some Style.blue_fill.
Proof.
  destruct scenario_renders as [ws R]. exists ws. split; [exact R|].
  apply (report_header_style _ _ _ _ _ R 3). lia.
Defined.

(** X7: in the rendered report the fill of a table cell depends on the
    State column alone: the State cell of a row is red for [failed], dark
    red for [error], orange for [skipped], green for [passed] and has no
    fill for any other value; the other cells of the row have no fill. *)
Theorem report_state_fill :
  forall (out job : string) (x : extraction) (data : json) (ws : worksheet),
    render out x job data = Ok ws ->
    forall i c, i < length (sorted_tests x) -> 1 <= c <= 8 ->
      fill (cells ws (11 + i) c)
      = if (c =? 3)%nat then state_fill (value (cells ws (11 + i) c))
        else None.
Proof.
  intros out job x data ws H i c Hi Hc.
  destruct (render_table _ _ _ _ _ H) as (table & Ht & _ & Hcell & _).
  destruct (table_extent _ _ Ht) as (Hr & Hce & _).
  destruct (table_cells _ _ Ht) as (Hrows & _).
  destruct (nth_error (sorted_tests x) i) as [r|] eqn:Hn;
    [|apply nth_error_None in Hn; lia].
  destruct (Hrows _ _ Hn) as (bound & _ & Hb).
  destruct (Hcell (11 + i) c) as (Hf & Hv & _); [lia|].
  replace (11 + i - 9) with (2 + i) in * by lia.
  rewrite Hf, Hv. apply apply_basic_styling_fill; try lia.
  now rewrite Hb by lia.
Qed.

Lemma report_state_fill_witness :
  exists ws,
    render "result.xlsx" scenario_extraction "12345" scenario_claim = Ok ws
    /\ fill (cells ws (11 + 0) 3)
       = if (3 =? 3)%nat then state_fill (value (cells ws (11 + 0) 3))
         else None.
Proof.
  destruct scenario_renders as [ws R]. exists ws. split; [exact R|].
  apply (report_state_fill _ _ _ _ _ R 0 3); simpl; lia.
Defined.

(** X8: a table cell of the rendered report whose value holds none of
    the four keywords (a value that is not a string included) has the
    plain table font: the classification font marks keyword cells only. *)
Theorem report_plain_font :
  forall (out job : string) (x : extraction) (data : json) (ws : worksheet),
    render out x job data = Ok ws ->
    forall r c,
      11 <= r <= 10 + length (sorted_tests x) -> 1 <= c <= 8 ->
      holds_keyword (value (cells ws r c)) = false ->
      font (cells ws r c) = Style.arial_font.
Proof.
  intros out job x data ws H r c Hr Hc Hk.
  destruct (render_table _ _ _ _ _ H) as (table & Ht & _ & Hcell & _).
  destruct (table_extent _ _ Ht) as (Hre & Hce & _).
  destruct (Hcell r c) as (_ & Hv & Hfont); [lia|].
  rewrite Hv in Hk. rewrite (Hfont Hk).
  apply apply_basic_styling_font; lia.
Qed.

Lemma report_plain_font_witness :
  exists ws,
    render "result.xlsx" scenario_extraction "12345" scenario_claim = Ok ws
    /\ font (cells ws 11 1) = Style.arial_font.
Proof.
  destruct scenario_renders as [ws R]. exists ws. split; [exact R|].
  apply (report_plain_font _ _ _ _ _ R 11 1); [simpl; lia | lia |].
  assert (T : match render "result.xlsx" scenario_extraction "12345"
                      scenario_claim with
              | Ok ws' => holds_keyword (value (cells ws' 11 1))
              | Raise _ => true
              end = false) by (vm_compute; reflexivity).
  now rewrite R in T.
Defined.

(** ** The summary and version blocks *)

Lemma last_assigned_none (r c : nat) (l : list (nat * nat * json)) :
  last_assigned r c l = None -> assigns r c l = false.
Proof.
  induction l as [|a l IH]; simpl; [reflexivity|].
  destruct (last_assigned r c l); [discriminate|].
  destruct (_ && _); [discriminate|]. intros _. now rewrite IH.
Qed.

(** After a run of assignments a cell holds what the last assignment to
    it stored. *)
Lemma assign_all_lookup (l : list (nat * nat * json)) (ws ws' : worksheet)
    (r c : nat) (v : json) :
  assign_all ws l = Ok ws' -> last_assigned r c l = Some v ->
  bind_value v = Ok (value (cells ws' r c)).
Proof.
  revert ws. induction l as [|[[r0 c0] v0] l IH]; simpl; intros ws H Hl;
    [discriminate|].
  inv_bind H. destruct (last_assigned r c l) as [v'|] eqn:L.
  - injection Hl as <-. now apply (IH a).
  - destruct ((r0 =? r)%nat && (c0 =? c)%nat) eqn:D; [|discriminate].
    injection Hl as <-. apply andb_true_iff in D. destruct D as [D1 D2].
    apply Nat.eqb_eq in D1, D2. subst r0 c0.
    rewrite (assign_all_frame _ _ _ _ _ H (last_assigned_none _ _ _ L)).
    now apply (ws_assign_spec _ _ _ _ _ E).
Qed.

Lemma assign_all_total (l : list (nat * nat * json)) (ws : worksheet) :
  Forall (fun a => exists v, bind_value (snd a) = Ok v) l ->
  exists ws', assign_all ws l = Ok ws'.
Proof.
  intros Hf. revert ws. induction Hf as [|[[r c] v] l [v' Hv] _ IH]; intros ws.
  - now exists ws.
  - simpl. unfold ws_assign at 1. cbn [snd] in Hv. rewrite Hv. cbn [bind].
    apply IH.
Qed.

Lemma assign_until_error_ok (l : list (nat * nat * json))
    (ws ws' : worksheet) :
  assign_all ws l = Ok ws' -> assign_until_error ws l = ws'.
Proof.
  revert ws. induction l as [|[[r c] v] l IH]; simpl; intros ws H.
  - now injection H as <-.
  - inv_bind H. rewrite E. now apply IH.
Qed.

Lemma add_summary_section_lookup (ws ws' : worksheet) (rows : list row)
    (f e s p : nat) (job : string) (r c : nat) (v : json) :
  add_summary_section ws rows f e s p job = Ok ws' ->
  last_assigned r c (summary_assignments rows f e s p job) = Some v ->
  bind_value v = Ok (value (cells ws' r c)).
Proof.
  unfold add_summary_section. intros H Hl. inv_bind H. injection H as <-.
  assert (Hval : forall (r c : nat) (cl : cell),
             value (let cl0 := with_font Style.bold_font cl in
                    match value cl0 with
                    | JStr s0 =>
                        match assoc s0 summary_fill with
                        | Some color => with_fill color cl0
                        | None => cl0
                        end
                    | _ => cl0
                    end) = value cl).
  { intros r' c' cl. cbv zeta. cbn [value with_font].
    destruct (value cl) as [| | |str| |] eqn:V; try exact V.
    destruct (assoc str summary_fill); exact V. }
  rewrite ws_update_region_value by exact Hval.
  exact (assign_all_lookup _ _ _ _ _ _ E Hl).
Qed.


Lemma generate_body_inv (input : file_state) (out job : string)
    (writable : bool) (ws : worksheet) :
  generate_body input out job writable = Ok ws ->
  exists data x,
    input = Json data
    /\ snd (extract_test_results data) = Ok x
    /\ render out x job data = Ok ws
    /\ writable = true.
Proof.
  unfold generate_body. destruct input as [| |data]; try discriminate.
  intros H. inv_bind H. destruct (negb a); [discriminate|].
  inv_bind H. inv_bind H. destruct (negb a1); [discriminate|].
  inv_bind H. inv_bind H. destruct writable; [|discriminate].
  injection H as <-. now exists data, a2.
Qed.

(** What a run that wrote a report went through. *)
Lemma main_report_inv (w : world) (args : arguments) (ws : worksheet) :
  report (main w args) = Some ws ->
  isfile w "dcirc.sh" = true
  /\ can_save w (output_file args) = true
  /\ exit_status (main w args) = 0%Z
  /\ exists data x job,
       snd (extract_test_results data) = Ok x
       /\ render (output_file args) x job data = Ok ws
       /\ ((job_id args = None /\ job = "12345"
            /\ read_input w (input_file args) = Json data)
           \/ (job_id args = Some job
               /\ download w (input_file args) job = Some (Json data))).
Proof.
  unfold main. destruct (isfile w "dcirc.sh"); [|discriminate]. cbn [negb].
  destruct (job_id args) as [job|] eqn:J.
  - destruct (download w (input_file args) job) as [input|] eqn:D;
      [|discriminate].
    unfold generate_cert_test_excel_report.
    destruct (generate_body _ _ _ _) as [ws'|] eqn:G; [|discriminate].
    cbn [report exit_status]. intros [= ->].
    destruct (generate_body_inv _ _ _ _ _ G) as (data & x & -> & Hx & Hr & Hw).
    repeat split; try assumption. exists data, x, job. tauto.
  - unfold generate_cert_test_excel_report.
    destruct (generate_body _ _ _ _) as [ws'|] eqn:G; [|discriminate].
    cbn [report exit_status]. intros [= ->].
    destruct (generate_body_inv _ _ _ _ _ G) as (data & x & Hi & Hx & Hr & Hw).
    repeat split; try assumption. exists data, x, "12345". tauto.
Qed.

Lemma scenario_run_reports :
  exists ws,
    report (main (offline_world scenario_claim) offline_arguments) = Some ws.
Proof.
  destruct (report (main (offline_world scenario_claim) offline_arguments))
    as [ws|] eqn:R; [now exists ws|].
  exfalso.
  assert (T : match report (main (offline_world scenario_claim)
                              offline_arguments) with
              | Some _ => true
              | None => false
              end = true) by (vm_compute; reflexivity).
  rewrite R in T. discriminate T.
Qed.



Lemma add_version_information_dict (ws : worksheet) (data : json) (vs : dict) :
  versions_of data = Ok (JDict vs) ->
  add_version_information ws data
  = assign_until_error ws (version_assignments vs).
Proof.
  unfold versions_of, add_version_information. intros H.
  destruct (py_get data "claim" (JDict [])) as [claim|]; [|discriminate].
  cbn [bind] in *. rewrite H. reflexivity.
Qed.

Lemma add_version_information_other (ws : worksheet) (data : json) :
  (forall vs, versions_of data <> Ok (JDict vs)) ->
  add_version_information ws data = ws.
Proof.
  unfold versions_of, add_version_information. intros H.
  destruct (py_get data "claim" (JDict [])) as [claim|]; [|reflexivity].
  cbn [bind] in *.
  destruct (py_get claim "versions" (JDict [])) as [versions|]; [|reflexivity].
  cbn [bind].
  destruct versions as [| | | | |vs]; try reflexivity.
  now destruct (H vs).
Qed.

(** The sheet a rendering returns, seen from the sheet that
    [add_summary_section] returned. *)
Lemma render_top (out job : string) (x : extraction) (data : json)
    (ws : worksheet) :
  render out x job data = Ok ws ->
  exists table summary,
    add_test_results_to_worksheet empty_worksheet (sorted_tests x) = Ok table
    /\ add_summary_section (apply_basic_styling table) (sorted_tests x)
         (total_failed x) (total_error x) (total_skipped x) (total_passed x)
         job = Ok summary
    /\ forall r c,
         value (cells ws r c)
         = value (cells (add_version_information summary data) r c).
Proof.
  unfold render, set_column_formatting. intros H.
  inv_bind H. inv_bind H. cbv zeta in H. inv_bind H. injection H as <-.
  assert (a = empty_worksheet) as ->.
  { revert E. unfold create_workbook_and_worksheet.
    destruct (existsb _ _); [discriminate | now intros [= <-]]. }
  exists a0, a1. repeat split; try assumption.
  intros r c. unfold apply_final_formatting.
  now rewrite keyword_fonts_value, version_block_fills_value.
Qed.

(** X10: when the versions section of the claim is an object whose six
    values (or the default [N/A] of a missing one) can be stored in a
    cell, the rendered report holds the labels Component, K8S, ocClient,
    OCP, CERTSUIT, claimF, certGitCom in C1 to C7, Version in D1, and in
    D2 to D7 the six versions, [N/A] standing for each missing one. *)
Theorem report_version_block :
  forall (out job : string) (x : extraction) (data : json) (ws : worksheet)
         (vs : dict),
    render out x job data = Ok ws ->
    versions_of data = Ok (JDict vs) ->
    (forall k, In k version_keys -> storable (dict_get vs k (JStr "N/A"))) ->
    map (fun r => value (cells ws r 3)) (seq 1 7)
    = map JStr ["Component"; "K8S"; "ocClient"; "OCP"; "CERTSUIT"; "claimF";
                "certGitCom"]%list
    /\ value (cells ws 1 4) = JStr "Version"
    /\ map (fun r => value (cells ws r 4)) (seq 2 6)
       = map (fun k => dict_get vs k (JStr "N/A")) version_keys.
Proof.
  intros out job x data ws vs H Hvs Hst.
  destruct (render_top _ _ _ _ _ H) as (table & summary & _ & _ & Hval).
  destruct (assign_all_total (version_assignments vs) summary) as [ws' Ha].
  { unfold version_assignments.
    repeat (apply Forall_cons;
            [cbn [snd];
             first [ eexists; vm_compute; reflexivity
                   | eexists; apply Hst; cbn; tauto ] |]).
    apply Forall_nil. }
  assert (Hv : forall r c v,
             last_assigned r c (version_assignments vs) = Some v ->
             bind_value v = Ok v -> value (cells ws r c) = v).
  { intros r c v Hl Hb. rewrite Hval, (add_version_information_dict _ _ _ Hvs).
    rewrite (assign_until_error_ok _ _ _ Ha).
    rewrite (assign_all_lookup _ _ _ _ _ _ Ha Hl) in Hb. now injection Hb. }
  repeat split.
  - cbn [map seq].
    repeat (apply f_equal2;
            [apply Hv; [reflexivity | vm_compute; reflexivity]|]).
    reflexivity.
  - apply Hv; [reflexivity | vm_compute; reflexivity].
  - cbn [map seq version_keys].
    repeat (apply f_equal2;
            [apply Hv; [reflexivity | apply Hst; cbn; tauto]|]).
    reflexivity.
Qed.

Lemma report_version_block_witness :
  exists ws,
    render "result.xlsx" scenario_extraction "12345" scenario_claim = Ok ws
    /\ map (fun r => value (cells ws r 3)) (seq 1 7)
       = map JStr ["Component"; "K8S"; "ocClient"; "OCP"; "CERTSUIT";
                   "claimF"; "certGitCom"]%list
    /\ value (cells ws 1 4) = JStr "Version"
    /\ map (fun r => value (cells ws r 4)) (seq 2 6)
       = map (fun k => dict_get [] k (JStr "N/A")) version_keys.
Proof.
  destruct scenario_renders as [ws R]. exists ws. split; [exact R|].
  apply (report_version_block _ _ _ _ _ [] R).
  - reflexivity.
  - intros k _. vm_compute. reflexivity.
Defined.

Lemma add_summary_section_blank (ws ws' : worksheet) (rows : list row)
    (f e s p : nat) (job : string) (r c : nat) :
  add_summary_section ws rows f e s p job = Ok ws' ->
  1 <= r <= 9 -> 3 <= c ->
  value (cells ws' r c) = JNull.
Proof.
  unfold add_summary_section. intros H Hr Hc. inv_bind H. injection H as <-.
  assert (Hval : forall (r c : nat) (cl : cell),
             value (let cl0 := with_font Style.bold_font cl in
                    match value cl0 with
                    | JStr s0 =>
                        match assoc s0 summary_fill with
                        | Some color => with_fill color cl0
                        | None => cl0
                        end
                    | _ => cl0
                    end) = value cl).
  { intros r' c' cl. cbv zeta. cbn [value with_font].
    destruct (value cl) as [| | |str| |] eqn:V; try exact V.
    destruct (assoc str summary_fill); exact V. }
  rewrite ws_update_region_value by exact Hval.
  rewrite (assign_all_frame _ _ _ r c E) by not_assigned.
  cbn [cells ws_insert_rows].
  destruct (Nat.ltb_spec r 1); [lia|].
  destruct (Nat.ltb_spec r (1 + 9)); [reflexivity | lia].
Qed.

(** X11: a versions section that is not an object does not stop the
    rendering: the report is the same sheet with an empty version block
    (no label and no value in C1 to D7). *)
Theorem report_without_versions_object :
  forall (out job : string) (x : extraction) (data : json) (ws : worksheet),
    render out x job data = Ok ws ->
    (forall vs, versions_of data <> Ok (JDict vs)) ->
    forall r c, 1 <= r <= 7 -> 3 <= c <= 4 -> value (cells ws r c) = JNull.
Proof.
  intros out job x data ws H Hvs r c Hr Hc.
  destruct (render_top _ _ _ _ _ H) as (table & summary & _ & Hs & Hval).
  rewrite Hval, (add_version_information_other _ _ Hvs).
  apply (add_summary_section_blank _ _ _ _ _ _ _ _ _ _ Hs); lia.
Qed.

Lemma bad_versions_renders :
  exists ws,
    render "result.xlsx" bad_versions_extraction "12345" bad_versions_claim
    = Ok ws.
Proof.
  destruct (render "result.xlsx" bad_versions_extraction "12345"
              bad_versions_claim) as [ws|e] eqn:R; [now exists ws|].
  exfalso.
  assert (T : match render "result.xlsx" bad_versions_extraction "12345"
                      bad_versions_claim with
              | Ok _ => true
              | Raise _ => false
              end = true) by (vm_compute; reflexivity).
  rewrite R in T. discriminate T.
Qed.

Lemma report_without_versions_object_witness :
  exists ws,
    render "result.xlsx" bad_versions_extraction "12345" bad_versions_claim
    = Ok ws
    /\ value (cells ws 2 4) = JNull.
Proof.
  destruct bad_versions_renders as [ws R]. exists ws. split; [exact R|].
  apply (report_without_versions_object _ _ _ _ _ R); [|lia|lia].
  intros vs. discriminate.
Defined.

(** ** Runs *)

(** X12: a run writes a report only if [dcirc.sh] is a file, the output
    can be saved, and the input (read from disk when no job is given, as
    downloaded otherwise) is a JSON object whose claim has a non-empty
    results object; such a run ends with status 0. *)
Theorem report_requires :
  forall (w : world) (args : arguments) (ws : worksheet),
    report (main w args) = Some ws ->
    exit_status (main w args) = 0%Z
    /\ isfile w "dcirc.sh" = true
    /\ can_save w (output_file args) = true
    /\ exists (d : dict) (items : list (string * json)),
         claim_results_of (JDict d) = Ok (JDict items)
         /\ items <> []
         /\ match job_id args with
            | None => read_input w (input_file args) = Json (JDict d)
            | Some job =>
                download w (input_file args) job = Some (Json (JDict d))
            end.
Proof.
  intros w args ws H.
  destruct (main_report_inv _ _ _ H)
    as (Hf & Hs & He & data & x & job & Hx & _ & Hin).
  repeat split; try assumption.
  destruct (extract_test_results_ok _ _ Hx) as (items & Hc & Hne & _).
  assert (Hd : exists d, data = JDict d).
  { destruct data as [| | | | |d]; try discriminate Hc. now exists d. }
  destruct Hd as [d ->]. exists d, items. repeat split; try assumption.
  destruct Hin as [(-> & _ & Hr) | (-> & Hr)]; exact Hr.
Qed.

Lemma report_requires_witness :
  exists ws,
    report (main (offline_world scenario_claim) offline_arguments) = Some ws
    /\ exit_status (main (offline_world scenario_claim) offline_arguments)
       = 0%Z
    /\ isfile (offline_world scenario_claim) "dcirc.sh" = true
    /\ can_save (offline_world scenario_claim) (output_file offline_arguments)
       = true
    /\ exists (d : dict) (items : list (string * json)),
         claim_results_of (JDict d) = Ok (JDict items)
         /\ items <> []
         /\ match job_id offline_arguments with
            | None =>
                read_input (offline_world scenario_claim)
                  (input_file offline_arguments) = Json (JDict d)
            | Some job =>
                download (offline_world scenario_claim)
                  (input_file offline_arguments) job = Some (Json (JDict d))
            end.
Proof.
  destruct scenario_run_reports as [ws R]. exists ws. split; [exact R|].
  exact (report_requires _ _ _ R).
Defined.

(** X13: a run ends with status 0 or 1; it ends with status 0 without a
    report exactly when [dcirc.sh] is not a file, and with status 1
    exactly when [dcirc.sh] is a file and no report was written. *)
Theorem exit_status_and_report :
  forall (w : world) (args : arguments),
    (exit_status (main w args) = 0%Z \/ exit_status (main w args) = 1%Z)
    /\ ((exit_status (main w args) = 0%Z /\ report (main w args) = None)
        <-> isfile w "dcirc.sh" = false)
    /\ (exit_status (main w args) = 1%Z <-> 
        isfile w "dcirc.sh" = true /\ report (main w args) = None).
Proof.
  intros w args. unfold main, generate_cert_test_excel_report.
  destruct (isfile w "dcirc.sh"); cbn [negb].
  - destruct (job_id args) as [job|].
    + destruct (download w (input_file args) job) as [input|];
        [destruct (generate_body _ _ _ _)|]; cbn;
        repeat split; try tauto; try discriminate; intuition discriminate.
    + destruct (generate_body _ _ _ _); cbn;
        repeat split; try tauto; try discriminate; intuition discriminate.
  - cbn. repeat split; try tauto; try discriminate; intuition discriminate.
Qed.

(** ** Text helpers *)

Lemma Forall_filter_keep {A : Type} (P : A -> Prop) (f : A -> bool)
    (l : list A) :
  Forall P l -> Forall P (filter f l).
Proof.
  induction 1 as [|x l Hx _ IH]; simpl; [constructor|].
  destruct (f x); [now constructor | exact IH].
Qed.

Lemma filter_passes {A : Type} (f : A -> bool) (l : list A) :
  Forall (fun x => f x = true) (filter f l).
Proof.
  induction l as [|x l IH]; simpl; [constructor|].
  destruct (f x) eqn:E; [now constructor | exact IH].
Qed.

(** The lines of a trimmed text are the non-empty lines of the text. *)
Lemma trim_empty_lines_split (text : string) :
  PyStr.split PyStr.nl (trim_empty_lines text)
  = match filter nonempty (PyStr.split PyStr.nl text) with
    | [] => [""]%list
    | l => l
    end.
Proof.
  unfold trim_empty_lines. cbv zeta.
  assert (F : Forall (fun l => PyStr.has_char PyStr.nl l = false)
                (filter nonempty (PyStr.split PyStr.nl text)))
    by apply Forall_filter_keep, split_no_sep.
  destruct (filter nonempty (PyStr.split PyStr.nl text)) as [|x l] eqn:E;
    [reflexivity|].
  apply split_join; [discriminate | exact F].
Qed.

(** X14: the lines of [trim_empty_lines text] are the non-empty lines of
    [text], in their order; the result is the empty string exactly when
    [text] has no such line. *)
Theorem trim_empty_lines_lines :
  forall text : string,
    PyStr.split PyStr.nl (trim_empty_lines text)
    = match filter nonempty (PyStr.split PyStr.nl text) with
      | [] => [""]%list
      | l => l
      end
    /\ (trim_empty_lines text = ""
        <-> filter nonempty (PyStr.split PyStr.nl text) = []).
Proof.
  intros text. split; [apply trim_empty_lines_split|].
  unfold trim_empty_lines. cbv zeta.
  assert (F := filter_passes nonempty (PyStr.split PyStr.nl text)).
  destruct (filter nonempty (PyStr.split PyStr.nl text)) as [|x l];
    [tauto|].
  split; [|discriminate].
  inversion F as [|? ? Hx _]; subst.
  destruct x as [|c x]; [discriminate Hx|].
  rewrite join_cons_char. discriminate.
Qed.

(** X15: trimming a trimmed text changes nothing. *)
Theorem trim_empty_lines_idempotent :
  forall text : string,
    trim_empty_lines (trim_empty_lines text) = trim_empty_lines text.
Proof.
  intros text. unfold trim_empty_lines at 1. cbv zeta.
  rewrite trim_empty_lines_split. unfold trim_empty_lines. cbv zeta.
  assert (F := filter_passes nonempty (PyStr.split PyStr.nl text)).
  destruct (filter nonempty (PyStr.split PyStr.nl text)) as [|x l] eqn:E;
    [reflexivity|].
  now rewrite (filter_all _ _ F).
Qed.

(** ** Fills of the summary and version blocks *)

Lemma ws_update_region_fill (ws : worksheet) (r1 r2 c1 c2 : nat)
    (body : nat -> nat -> cell -> cell) (r c : nat) :
  (forall r c cl, fill (body r c cl) = fill cl) ->
  fill (cells (ws_update_region ws r1 r2 c1 c2 body) r c)
  = fill (cells ws r c).
Proof.
  intros H. simpl. now destruct (in_range r1 r2 r && in_range c1 c2 c).
Qed.

Lemma row_nine_visited (ws : worksheet) (body : nat -> nat -> cell -> cell) :
  9 <= max_row (ws_update_region ws 9 9 1 (max_column ws) body).
Proof.
  unfold max_row, max_column. cbn [row_extent ws_update_region].
  destruct (Nat.leb_spec 1 (Nat.max 1 (col_extent ws)));
    cbn [andb Nat.leb]; lia.
Qed.

(** The fills after the version-block pass: light green on C1 and D1,
    yellow on C2 to C7, every other fill as before. *)
Lemma version_block_fills_fill (ws : worksheet) (r c : nat) :
  fill (cells (version_block_fills ws) r c)
  = if in_range 1 1 r && in_range 3 4 c then Some Style.light_green_fill
    else if in_range 2 7 r && in_range 3 3 c then Some Style.yellow_fill
    else fill (cells ws r c).
Proof.
  unfold version_block_fills. cbv zeta.
  set (w1 := ws_update_region ws 1 1 _ _ _).
  set (w2 := ws_update_region w1 9 9 _ _ _).
  assert (M2 : 9 <= max_row w2) by apply row_nine_visited.
  set (w3 := ws_update_region w2 1 _ 3 3 _).
  set (w4 := ws_update_region w3 1 _ 1 1 _).
  set (w5 := ws_update_region w4 10 _ 3 3 _).
  set (w6 := ws_update_region w5 1 1 3 4 _).
  set (w7 := ws_update_region w6 1 _ 2 2 _).
  rewrite ws_update_region_fill by reflexivity.
  unfold w7. rewrite ws_update_region_fill by reflexivity.
  assert (F5 : fill (cells w5 r c)
               = if in_range 2 7 r && in_range 3 3 c
                 then Some Style.yellow_fill else fill (cells ws r c)).
  { unfold w5. rewrite ws_update_region_fill by reflexivity.
    unfold w4. rewrite ws_update_region_fill by reflexivity.
    unfold w3. cbn [cells ws_update_region].
    destruct (in_range 2 7 r) eqn:R27.
    - apply in_range_true in R27.
      rewrite (proj2 (in_range_true 1 (max_row w2) r)) by lia.
      cbn [andb]. destruct (in_range 3 3 c); [reflexivity|].
      unfold w2. rewrite ws_update_region_fill by reflexivity.
      unfold w1. now rewrite ws_update_region_fill by reflexivity.
    - cbn [andb].
      assert (E : fill (cells w2 r c) = fill (cells ws r c)).
      { unfold w2. rewrite ws_update_region_fill by reflexivity.
        unfold w1. now rewrite ws_update_region_fill by reflexivity. }
      now destruct (_ && _). }
  unfold w6. cbn [cells ws_update_region].
  destruct (in_range 1 1 r && in_range 3 4 c); [reflexivity | exact F5].
Qed.

Lemma assign_all_fill (l : list (nat * nat * json)) (ws ws' : worksheet)
    (r c : nat) :
  assign_all ws l = Ok ws' -> fill (cells ws' r c) = fill (cells ws r c).
Proof.
  revert ws. induction l as [|[[r0 c0] v] l IH]; simpl; intros ws H.
  - now injection H as <-.
  - inv_bind H. rewrite (IH _ H).
    unfold ws_assign in E. inv_bind E. injection E as <-.
    cbn [cells]. destruct ((r =? r0)%nat && (c =? c0)%nat) eqn:D;
      [|reflexivity].
    apply andb_true_iff in D. destruct D as [D1 D2].
    apply Nat.eqb_eq in D1, D2. now subst.
Qed.

Lemma assign_until_error_fill (l : list (nat * nat * json))
    (ws : worksheet) (r c : nat) :
  fill (cells (assign_until_error ws l) r c) = fill (cells ws r c).
Proof.
  revert ws. induction l as [|[[r0 c0] v] l IH]; simpl; intros ws;
    [reflexivity|].
  destruct (ws_assign ws r0 c0 v) as [ws1|] eqn:E; [|reflexivity].
  rewrite IH. apply (assign_all_fill [(r0, c0, v)]%list ws ws1).
  simpl. now rewrite E.
Qed.

Lemma add_version_information_fill (ws : worksheet) (data : json)
    (r c : nat) :
  fill (cells (add_version_information ws data) r c) = fill (cells ws r c).
Proof.
  unfold add_version_information.
  destruct (bind _ _) as [assignments|] eqn:E; [|reflexivity].
  apply assign_until_error_fill.
Qed.

(** A label of the summary block after [add_summary_section]: bold, and
    filled with its colour of [summary_fill]. *)
Lemma add_summary_section_label (ws ws' : worksheet) (rows : list row)
    (f e s p : nat) (job : string) (r : nat) (label : string) :
  add_summary_section ws rows f e s p job = Ok ws' ->
  1 <= r <= 8 ->
  last_assigned r 1 (summary_assignments rows f e s p job)
  = Some (JStr label) ->
  bind_value (JStr label) = Ok (JStr label) ->
  font (cells ws' r 1) = Style.bold_font
  /\ fill (cells ws' r 1) = assoc label summary_fill.
Proof.
  assert (G : forall cl : cell,
             value cl = JStr label -> fill cl = None ->
             let cl0 := with_font Style.bold_font cl in
             let styled := match value cl0 with
                           | JStr s0 =>
                               match assoc s0 summary_fill with
                               | Some color => with_fill color cl0
                               | None => cl0
                               end
                           | _ => cl0
                           end in
             font styled = Style.bold_font
             /\ fill styled = assoc label summary_fill).
  { intros cl V F. cbv zeta. cbn [value with_font]. rewrite V.
    destruct (assoc label summary_fill) as [color|];
      cbn [font fill with_fill with_font]; auto. }
  unfold add_summary_section. intros H Hr Hl Hb. inv_bind H.
  injection H as <-.
  assert (Hv : value (cells a r 1) = JStr label).
  { assert (B := assign_all_lookup _ _ _ _ _ _ E Hl).
    rewrite Hb in B. now injection B. }
  assert (Hf : fill (cells a r 1) = None).
  { rewrite (assign_all_fill _ _ _ r 1 E). cbn [cells ws_insert_rows].
    destruct (Nat.ltb_spec r 1); [lia|].
    destruct (Nat.ltb_spec r (1 + 9)); [reflexivity | lia]. }
  cbn [cells ws_update_region].
  rewrite (proj2 (in_range_true 1 8 r)) by lia.
  rewrite (proj2 (in_range_true 1 (max_column a) 1))
    by (unfold max_column; lia).
  cbn [andb]. exact (G (cells a r 1) Hv Hf).
Qed.

(** X16: in a rendered report the labels A1 to A7 of the summary block
    are bold and filled: Summary blue, Total cyan, Failed red, Error dark
    red, Skipped orange, Passed green, Job-Id yellow. *)
Theorem report_summary_fills :
  forall (out job : string) (x : extraction) (data : json) (ws : worksheet),
    render out x job data = Ok ws ->
    map (fun r => fill (cells ws r 1)) (seq 1 7)
    = map Some [Style.blue_fill; Style.total_fill; Style.red_fill;
                Style.dark_red_fill; Style.orange_fill; Style.green_fill;
                Style.yellow_fill]%list
    /\ forall r, 1 <= r <= 7 -> font (cells ws r 1) = Style.bold_font.
Proof.
  intros out job x data ws H.
  unfold render, set_column_formatting in H.
  inv_bind H. inv_bind H. cbv zeta in H. inv_bind H. injection H as <-.
  unfold apply_final_formatting.
  assert (L : forall r label,
             1 <= r <= 7 ->
             last_assigned r 1
               (summary_assignments (sorted_tests x) (total_failed x)
                  (total_error x) (total_skipped x) (total_passed x) job)
             = Some (JStr label) ->
             bind_value (JStr label) = Ok (JStr label) ->
             PyStr.contains_any keywords label = false ->
             font (cells (keyword_fonts (version_block_fills
                            (add_version_information a1 data))) r 1)
             = Style.bold_font
             /\ fill (cells (keyword_fonts (version_block_fills
                               (add_version_information a1 data))) r 1)
                = assoc label summary_fill).
  { intros r label Hr Hl Hb Hk.
    destruct (add_summary_section_label _ _ _ _ _ _ _ _ r label E1)
      as [Ff Fl]; [lia | exact Hl | exact Hb |].
    assert (Hv : value (cells a1 r 1) = JStr label).
    { assert (B := add_summary_section_lookup _ _ _ _ _ _ _ _ _ _ _ E1 Hl).
      rewrite Hb in B. now injection B. }
    rewrite keyword_fonts_plain.
    - rewrite version_block_fills_font, version_block_fills_fill.
      rewrite (proj2 (in_range_false 3 4 1)) by lia.
      rewrite (proj2 (in_range_false 3 3 1)) by lia.
      rewrite !andb_false_r.
      rewrite add_version_information_frame by lia. now split.
    - rewrite version_block_fills_value.
      rewrite add_version_information_frame by lia.
      rewrite Hv. exact Hk. }
  assert (Lfill : forall r label color,
             1 <= r <= 7 ->
             last_assigned r 1
               (summary_assignments (sorted_tests x) (total_failed x)
                  (total_error x) (total_skipped x) (total_passed x) job)
             = Some (JStr label) ->
             bind_value (JStr label) = Ok (JStr label) ->
             PyStr.contains_any keywords label = false ->
             assoc label summary_fill = Some color ->
             fill (cells (keyword_fonts (version_block_fills
                            (add_version_information a1 data))) r 1)
             = Some color).
  { intros r label color Hr Hl Hb Hk <-. now apply L. }
  assert (Lfont : forall r label,
             1 <= r <= 7 ->
             last_assigned r 1
               (summary_assignments (sorted_tests x) (total_failed x)
                  (total_error x) (total_skipped x) (total_passed x) job)
             = Some (JStr label) ->
             bind_value (JStr label) = Ok (JStr label) ->
             PyStr.contains_any keywords label = false ->
             font (cells (keyword_fonts (version_block_fills
                            (add_version_information a1 data))) r 1)
             = Style.bold_font).
  { intros r label Hr Hl Hb Hk. now apply (L r label). }
  split.
  - cbn [map seq].
    repeat (apply f_equal2;
            [eapply Lfill;
             [lia | reflexivity | vm_compute; reflexivity
              | vm_compute; reflexivity | reflexivity] |]).
    reflexivity.
  - intros r Hr.
    assert (C : r = 1 \/ r = 2 \/ r = 3 \/ r = 4 \/ r = 5 \/ r = 6 \/ r = 7)
      by lia.
    destruct C as [-> | [-> | [-> | [-> | [-> | [-> | ->]]]]]];
      (eapply Lfont;
       [lia | reflexivity | vm_compute; reflexivity
        | vm_compute; reflexivity]).
Qed.

Lemma report_summary_fills_witness :
  exists ws,
    render "result.xlsx" scenario_extraction "12345" scenario_claim = Ok ws
    /\ map (fun r => fill (cells ws r 1)) (seq 1 7)
       = map Some [Style.blue_fill; Style.total_fill; Style.red_fill;
                   Style.dark_red_fill; Style.orange_fill; Style.green_fill;
                   Style.yellow_fill]%list.
Proof.
  destruct scenario_renders as [ws R]. exists ws. split; [exact R|].
  exact (proj1 (report_summary_fills _ _ _ _ _ R)).
Defined.

(** X17: in a rendered report C1 and D1 are filled light green and C2 to
    C7 yellow, whether or not the claim gives versions. *)
Theorem report_version_fills :
  forall (out job : string) (x : extraction) (data : json) (ws : worksheet),
    render out x job data = Ok ws ->
    fill (cells ws 1 3) = Some Style.light_green_fill
    /\ fill (cells ws 1 4) = Some Style.light_green_fill
    /\ forall r, 2 <= r <= 7 -> fill (cells ws r 3) = Some Style.yellow_fill.
Proof.
  intros out job x data ws H.
  unfold render, set_column_formatting in H.
  inv_bind H. inv_bind H. cbv zeta in H. inv_bind H. injection H as <-.
  unfold apply_final_formatting.
  repeat split; try intros r Hr;
    rewrite keyword_fonts_fill, version_block_fills_fill.
  - reflexivity.
  - reflexivity.
  - rewrite (proj2 (in_range_false 1 1 r)) by lia.
    rewrite (proj2 (in_range_true 2 7 r)) by lia. reflexivity.
Qed.

Lemma report_version_fills_witness :
  exists ws,
    render "result.xlsx" scenario_extraction "12345" scenario_claim = Ok ws
    /\ fill (cells ws 1 3) = Some Style.light_green_fill
    /\ fill (cells ws 1 4) = Some Style.light_green_fill
    /\ fill (cells ws 4 3) = Some Style.yellow_fill.
Proof.
  destruct scenario_renders as [ws R]. exists ws. split; [exact R|].
  destruct (report_version_fills _ _ _ _ _ R) as (F1 & F2 & F3).
  repeat split; [exact F1 | exact F2 | apply F3; lia].
Defined.

(** ** The export statements of dcirc.sh *)

Section ReFacts.

Import Re.

Lemma length_append (a b : string) :
  String.length (a ++ b) = String.length a + String.length b.
Proof. induction a as [|c a IH]; simpl; [reflexivity | now rewrite IH]. Qed.

Lemma literal_inv (pat s r : string) :
  literal pat s = Some r -> s = pat ++ r.
Proof.
  revert s. induction pat as [|a pat IH]; intros s H; simpl in *.
  - now injection H as ->.
  - destruct s as [|b s]; [discriminate|].
    destruct (Ascii.eqb a b) eqn:E; [|discriminate].
    apply Ascii.eqb_eq in E. subst b. now rewrite (IH _ H).
Qed.

Lemma literal_run (pat r : string) : literal pat (pat ++ r) = Some r.
Proof.
  induction pat as [|a pat IH]; simpl; [reflexivity|].
  now rewrite Ascii.eqb_refl.
Qed.

Lemma star_inv (p : ascii -> bool) (s a b : string) :
  star p s = (a, b) ->
  s = a ++ b /\ all_chars p a = true /\ stops p b = true.
Proof.
  revert a b. induction s as [|c s IH]; intros a b H; simpl in H.
  - injection H as <- <-. now repeat split.
  - destruct (p c) eqn:P.
    + destruct (star p s) as [run rest]. injection H as <- <-.
      destruct (IH _ _ eq_refl) as (-> & Ha & Hb).
      simpl. rewrite P. now repeat split.
    + injection H as <- <-. simpl. rewrite P. now repeat split.
Qed.

Lemma star_run (p : ascii -> bool) (a b : string) :
  all_chars p a = true -> stops p b = true -> star p (a ++ b) = (a, b).
Proof.
  intros Ha Hb. induction a as [|c a IH]; simpl in *.
  - destruct b as [|d b]; [reflexivity|]. simpl in Hb. simpl.
    now destruct (p d).
  - apply andb_true_iff in Ha. destruct Ha as [Hc Ha].
    now rewrite Hc, (IH Ha).
Qed.

Lemma plus_inv (p : ascii -> bool) (s a b : string) :
  plus p s = Some (a, b) ->
  s = a ++ b /\ nonempty a = true /\ all_chars p a = true
  /\ stops p b = true.
Proof.
  unfold plus. destruct (star p s) as [run rest] eqn:E.
  destruct run as [|c run]; [discriminate|]. intros [= <- <-].
  destruct (star_inv _ _ _ _ E) as (-> & Ha & Hb). now repeat split.
Qed.

Lemma plus_run (p : ascii -> bool) (a b : string) :
  nonempty a = true -> all_chars p a = true -> stops p b = true ->
  plus p (a ++ b) = Some (a, b).
Proof.
  intros Hn Ha Hb. unfold plus. rewrite (star_run _ _ _ Ha Hb).
  now destruct a.
Qed.

Lemma quoted_inv (s v rest : string) :
  quoted s = Some (v, rest) ->
  s = String quote (v ++ String quote rest)
  /\ all_chars not_quote v = true.
Proof.
  unfold quoted. destruct s as [|c s]; [discriminate|].
  destruct (Ascii.eqb c quote) eqn:C; [|discriminate].
  apply Ascii.eqb_eq in C. subst c.
  destruct (star not_quote s) as [g r] eqn:E.
  destruct r as [|d r]; [discriminate|]. intros [= <- <-].
  destruct (star_inv _ _ _ _ E) as (-> & Ha & Hb). split; [|exact Ha].
  simpl in Hb. unfold not_quote in Hb. apply negb_true_iff in Hb.
  apply negb_false_iff, Ascii.eqb_eq in Hb. now subst d.
Qed.

Lemma quoted_run (v rest : string) :
  all_chars not_quote v = true ->
  quoted (String quote (v ++ String quote rest)) = Some (v, rest).
Proof.
  intros Hv. unfold quoted. rewrite Ascii.eqb_refl.
  rewrite (star_run not_quote v (String quote rest) Hv); [reflexivity|].
  reflexivity.
Qed.

(** What a match of the pattern has read. *)
Lemma match_export_inv (s name value rest : string) :
  match_export s = Some (name, value, rest) ->
  exists (quoted : bool) (sp : string),
    s = matched_text quoted sp name value ++ rest
    /\ nonempty sp = true /\ all_chars PyStr.isspace sp = true
    /\ valid_name name = true
    /\ (if quoted then all_chars not_quote value = true
        else nonempty value = true /\ all_chars not_space value = true).
Proof.
  unfold match_export.
  destruct (literal "export" s) as [s1|] eqn:L1; [|discriminate].
  destruct (plus PyStr.isspace s1) as [[sp s2]|] eqn:P1; [|discriminate].
  destruct (plus name_char s2) as [[var_name s3]|] eqn:P2; [|discriminate].
  destruct (literal "=" s3) as [s4|] eqn:L2; [|discriminate].
  apply literal_inv in L1, L2.
  destruct (plus_inv _ _ _ _ P1) as (E1 & N1 & A1 & _).
  destruct (plus_inv _ _ _ _ P2) as (E2 & N2 & A2 & _).
  assert (V : valid_name var_name = true)
    by (unfold valid_name; now rewrite N2, A2).
  destruct (Re.quoted s4) as [[group2 r]|] eqn:Q.
  - intros [= <- <- <-]. destruct (quoted_inv _ _ _ Q) as (E4 & A4).
    exists true, sp. repeat split; try assumption.
    subst. unfold matched_text. simpl.
    repeat (rewrite append_assoc; simpl). reflexivity.
  - destruct (plus not_space s4) as [[group3 r]|] eqn:P3; [|discriminate].
    intros [= <- <- <-]. destruct (plus_inv _ _ _ _ P3) as (E4 & N4 & A4 & _).
    exists false, sp. repeat split; try assumption.
    subst. unfold matched_text. simpl.
    repeat (rewrite append_assoc; simpl). reflexivity.
Qed.

Lemma match_export_shorter (s name value rest : string) :
  match_export s = Some (name, value, rest) ->
  String.length rest < String.length s.
Proof.
  intros H. destruct (match_export_inv _ _ _ _ H) as (q & sp & -> & _).
  unfold matched_text. rewrite length_append. simpl. lia.
Qed.

Lemma finditer_from_fuel (n m : nat) (s : string) :
  String.length s < n -> String.length s < m ->
  finditer_from n s = finditer_from m s.
Proof.
  revert m s. induction n as [|n IH]; intros m s Hn Hm; [lia|].
  destruct m as [|m]; [lia|]. cbn [finditer_from].
  destruct (match_export s) as [[[name value] rest]|] eqn:M.
  - apply match_export_shorter in M. f_equal. apply IH; lia.
  - destruct s as [|c s]; [reflexivity|]. simpl in Hn, Hm. apply IH; lia.
Qed.

(** The two cases of the search, without fuel. *)
Lemma finditer_match (s name value rest : string) :
  match_export s = Some (name, value, rest) ->
  finditer s = (name, value) :: finditer rest.
Proof.
  intros M. unfold finditer at 1. cbn [finditer_from]. rewrite M.
  apply match_export_shorter in M. f_equal.
  apply finditer_from_fuel; lia.
Qed.

Lemma finditer_skip (c : ascii) (s : string) :
  match_export (String c s) = None ->
  finditer (String c s) = finditer s.
Proof.
  intros M. unfold finditer at 1. cbn [finditer_from]. rewrite M.
  apply finditer_from_fuel; simpl; lia.
Qed.

Lemma finditer_from_sound (fuel : nat) (s name value : string) :
  In (name, value) (finditer_from fuel s) ->
  exists before m rest,
    s = before ++ m /\ match_export m = Some (name, value, rest).
Proof.
  revert s. induction fuel as [|fuel IH]; intros s H; [destruct H|].
  cbn [finditer_from] in H.
  destruct (match_export s) as [[[n v] rest]|] eqn:M.
  - destruct H as [H|H].
    + injection H as -> ->. now exists "", s, rest.
    + destruct (IH _ H) as (before & m & rest' & E & M').
      destruct (match_export_inv _ _ _ _ M) as (q & sp & -> & _).
      exists (matched_text q sp n v ++ before), m, rest'.
      split; [|exact M']. now rewrite E, append_assoc.
  - destruct s as [|c s]; [destruct H|].
    destruct (IH _ H) as (before & m & rest' & E & M').
    exists (String c before), m, rest'. split; [|exact M'].
    simpl. now rewrite E.
Qed.

Lemma name_char_not_space (c : ascii) :
  name_char c = true -> PyStr.isspace c = false.
Proof.
  destruct c as [b0 b1 b2 b3 b4 b5 b6 b7].
  destruct b0, b1, b2, b3, b4, b5, b6, b7; vm_compute; congruence.
Qed.

Lemma valid_name_inv (name : string) :
  valid_name name = true ->
  nonempty name = true /\ all_chars name_char name = true
  /\ forall s, stops PyStr.isspace (name ++ s) = true.
Proof.
  unfold valid_name. intros H. apply andb_true_iff in H.
  destruct H as [Hn Ha]. repeat split; try assumption.
  intros s. destruct name as [|c name]; [discriminate Hn|].
  simpl in Ha. apply andb_true_iff in Ha. destruct Ha as [Hc _].
  simpl. now rewrite (name_char_not_space _ Hc).
Qed.

Lemma match_export_prefix (sp name s4 : string) :
  nonempty sp = true -> all_chars PyStr.isspace sp = true ->
  valid_name name = true ->
  match_export ("export" ++ sp ++ name ++ "=" ++ s4)
  = match Re.quoted s4 with
    | Some (group2, rest) => Some (name, group2, rest)
    | None =>
        match plus not_space s4 with
        | Some (group3, rest) => Some (name, group3, rest)
        | None => None
        end
    end.
Proof.
  intros Hsp Asp Hn. destruct (valid_name_inv _ Hn) as (Nn & An & Sn).
  unfold match_export. rewrite literal_run.
  rewrite (plus_run _ _ _ Hsp Asp (Sn _)).
  rewrite (plus_run name_char name ("=" ++ s4) Nn An eq_refl).
  now rewrite literal_run.
Qed.

(** A well-formed export statement at the start of a text is matched as
    written. *)
Lemma match_export_statement (st : statement) (rest : string) :
  valid_statement st = true ->
  stops not_space rest = true ->
  match_export (statement_line st ++ rest)
  = Some (snd (fst st), snd st, rest).
Proof.
  destruct st as [[q name] value]. unfold valid_statement, statement_line.
  cbn [fst snd]. intros H Hrest. apply andb_true_iff in H.
  destruct H as [Hn Hv].
  assert (P := fun s4 => match_export_prefix " " name s4 eq_refl eq_refl Hn).
  destruct q; unfold export_line, valid_value in *.
  - replace (("export " ++ name ++ "=" ++
              String quote (value ++ String quote "")) ++ rest)
      with ("export" ++ " " ++ name ++ "=" ++
            String quote (value ++ String quote rest))
      by (simpl; repeat (rewrite append_assoc; simpl); reflexivity).
    rewrite P. now rewrite (quoted_run _ _ Hv).
  - replace (("export " ++ name ++ "=" ++ value) ++ rest)
      with ("export" ++ " " ++ name ++ "=" ++ value ++ rest)
      by (simpl; repeat (rewrite append_assoc; simpl); reflexivity).
    rewrite P. apply andb_true_iff in Hv. destruct Hv as [Hv Hq].
    apply andb_true_iff in Hv. destruct Hv as [Hne Hns].
    destruct value as [|c value]; [discriminate Hne|].
    cbn [PyStr.startswith] in Hq. rewrite andb_true_r in Hq.
    apply negb_true_iff in Hq.
    assert (Q : Re.quoted (String c value ++ rest) = None).
    { unfold Re.quoted. cbn [append]. rewrite Ascii.eqb_sym.
      now rewrite Hq. }
    rewrite Q. now rewrite (plus_run _ _ _ Hne Hns Hrest).
Qed.

Lemma finditer_statements (l : list statement) :
  Forall (fun st => valid_statement st = true) l ->
  finditer (PyStr.join lf (map statement_line l)) = map statement_binding l.
Proof.
  induction 1 as [|st l Hst _ IH]; [reflexivity|].
  destruct l as [|st' l].
  - cbn [map PyStr.join].
    rewrite <- (append_nil_r (statement_line st)).
    now rewrite (finditer_match _ _ _ _
                   (match_export_statement st "" Hst eq_refl)).
  - cbn [map] in *. rewrite join_cons.
    set (tail := PyStr.join lf (statement_line st' :: map statement_line l))
      in *.
    rewrite (finditer_match _ _ _ _
               (match_export_statement st (lf ++ tail) Hst eq_refl)).
    unfold lf. cbn [append].
    rewrite finditer_skip by reflexivity.
    now rewrite IH.
Qed.

Lemma assoc_In {A : Type} (k : string) (d : list (string * A)) (v : A) :
  assoc k d = Some v -> In (k, v) d.
Proof.
  induction d as [|[k' v'] d IH]; simpl; [discriminate|].
  destruct (String.eqb_spec k' k) as [->|_].
  - intros [= ->]. now left.
  - intros H. right. now apply IH.
Qed.

Lemma assoc_app {A : Type} (k : string) (a b : list (string * A)) :
  assoc k (a ++ b)%list
  = match assoc k a with
    | Some v => Some v
    | None => assoc k b
    end.
Proof.
  induction a as [|[k' v'] a IH]; simpl; [reflexivity|].
  now destruct (k' =? k).
Qed.

Lemma assoc_var_set (d : variables) (k' v k : string) :
  assoc k (var_set d k' v) = if k' =? k then Some v else assoc k d.
Proof.
  induction d as [|[k0 v0] d IH]; simpl; [reflexivity|].
  destruct (String.eqb_spec k0 k') as [->|N]; simpl.
  - now destruct (k' =? k).
  - destruct (String.eqb_spec k0 k) as [->|_]; [|exact IH].
    destruct (String.eqb_spec k' k) as [->|_]; [congruence | reflexivity].
Qed.

Lemma In_var_set (d : variables) (k v : string) (x : string * string) :
  In x (var_set d k v) -> x = (k, v) \/ In x d.
Proof.
  induction d as [|[k0 v0] d IH]; simpl.
  - intros [<-|[]]. now left.
  - destruct (k0 =? k); simpl.
    + intros [<-|H]; auto.
    + intros [<-|H]; auto. destruct (IH H); auto.
Qed.

Lemma In_fold_var_set (l : list (string * string)) (d : variables)
    (x : string * string) :
  In x (fold_left (fun env_vars m => var_set env_vars (fst m) (snd m)) l d) ->
  In x l \/ In x d.
Proof.
  revert d. induction l as [|[k v] l IH]; intros d; simpl; [auto|].
  intros H. destruct (IH _ H) as [H'|H']; [auto|].
  destruct (In_var_set _ _ _ _ H') as [->|H'']; auto.
Qed.

Lemma assoc_fold_var_set (l : list (string * string)) (d : variables)
    (k : string) :
  assoc k (fold_left (fun env_vars m => var_set env_vars (fst m) (snd m)) l d)
  = match assoc k (rev l) with
    | Some v => Some v
    | None => assoc k d
    end.
Proof.
  revert d. induction l as [|[k' v'] l IH]; intros d; [reflexivity|].
  cbn [fold_left rev fst snd]. rewrite IH, assoc_app, assoc_var_set.
  destruct (assoc k (rev l)); [reflexivity|]. simpl.
  now destruct (k' =? k).
Qed.

(** X18: every variable read from [dcirc.sh] has a name made of the
    capitals A-Z and the underscore only, and was read from an export
    statement of the file: the word export, white space, the name, the
    equals sign and the value, between double quotes or bare. *)
Theorem dcirc_variables_are_exported :
  forall (content : string) (vars : variables) (name value : string),
    read_dcirc_env_variables (Text content) = Done vars ->
    assoc name vars = Some value ->
    valid_name name = true
    /\ exists (quoted : bool) (before sp after : string),
         content = before ++ matched_text quoted sp name value ++ after
         /\ nonempty sp = true /\ all_chars PyStr.isspace sp = true.
Proof.
  intros content vars name value H Hv. cbn [read_dcirc_env_variables] in H.
  injection H as <-. apply assoc_In in Hv.
  destruct (In_fold_var_set _ _ _ Hv) as [Hin|[]].
  destruct (finditer_from_sound _ _ _ _ Hin) as (before & m & rest & E & M).
  destruct (match_export_inv _ _ _ _ M) as (q & sp & -> & Hn & Ha & Hname & _).
  split; [exact Hname|]. now exists q, before, sp, rest.
Qed.

Lemma dcirc_variables_are_exported_witness :
  valid_name "DCI_CS_URL" = true
  /\ exists (quoted : bool) (before sp after : string),
       "# server
export DCI_CS_URL=https://api.distributed-ci.io
"
       = before ++ matched_text quoted sp "DCI_CS_URL"
                     "https://api.distributed-ci.io" ++ after
       /\ nonempty sp = true /\ all_chars PyStr.isspace sp = true.
Proof.
  apply (dcirc_variables_are_exported _
           [("DCI_CS_URL", "https://api.distributed-ci.io")]%list).
  - vm_compute. reflexivity.
  - reflexivity.
Defined.

(** X19: a [dcirc.sh] made of well-formed export statements, one per
    line, is read back as written: each name gets the value of its last
    statement, and no other name is defined. *)
Theorem dcirc_reads_back_statements :
  forall l : list statement,
    Forall (fun st => valid_statement st = true) l ->
    exists vars,
      read_dcirc_env_variables
        (Text (PyStr.join lf (map statement_line l))) = Done vars
      /\ forall name,
           assoc name vars = assoc name (rev (map statement_binding l)).
Proof.
  intros l H. eexists. split; [reflexivity|]. intros name.
  rewrite (finditer_statements _ H), assoc_fold_var_set.
  now destruct (assoc name (rev (map statement_binding l))).
Qed.

Lemma dcirc_reads_back_statements_witness :
  exists vars,
    read_dcirc_env_variables
      (Text (PyStr.join lf
               (map statement_line
                  [(true, "DCI_CLIENT_ID", "remoteci/abc");
                   (false, "DCI_API_SECRET", "s3cr3t");
                   (true, "DCI_CLIENT_ID", "remoteci/xyz")]%list)))
    = Done vars
    /\ forall name,
         assoc name vars
         = assoc name
             (rev (map statement_binding
                     [(true, "DCI_CLIENT_ID", "remoteci/abc");
                      (false, "DCI_API_SECRET", "s3cr3t");
                      (true, "DCI_CLIENT_ID", "remoteci/xyz")]%list)).
Proof.
  apply (dcirc_reads_back_statements
           [(true, "DCI_CLIENT_ID", "remoteci/abc");
            (false, "DCI_API_SECRET", "s3cr3t");
            (true, "DCI_CLIENT_ID", "remoteci/xyz")]%list).
  repeat (apply Forall_cons; [vm_compute; reflexivity|]). apply Forall_nil.
Defined.

End ReFacts.

(** ** The DCI environment *)

Lemma existsb_eqb_In (k : string) (l : list string) :
  existsb (String.eqb k) l = true <-> In k l.
Proof.
  rewrite existsb_exists. split.
  - intros (x & Hx & E). apply String.eqb_eq in E. now subst.
  - intros H. exists k. split; [exact H | apply String.eqb_refl].
Qed.

Lemma from_environment_spec (environ : string -> option string)
    (vars : list string) (env0 : variables) (miss0 : list string)
    (env : variables) (miss : list string) :
  from_environment environ vars env0 miss0 = (env, miss) ->
  miss = (miss0 ++ filter (unset environ) vars)%list
  /\ forall k,
       assoc k env
       = if existsb (String.eqb k) vars
         then match environ_value environ k with
              | Some v => Some v
              | None => assoc k env0
              end
         else assoc k env0.
Proof.
  revert env0 miss0. induction vars as [|var vars IH]; intros env0 miss0 H.
  - injection H as <- <-. now rewrite app_nil_r.
  - cbn [from_environment] in H. cbn [filter existsb]. unfold unset at 1.
    destruct (environ_value environ var) as [value|] eqn:V.
    + destruct (IH _ _ H) as [-> Hl]. split; [reflexivity|].
      intros k. rewrite Hl, assoc_var_set.
      destruct (String.eqb_spec k var) as [->|N].
      * rewrite String.eqb_refl, V. cbn [orb].
        now destruct (existsb _ vars).
      * destruct (String.eqb_spec var k) as [->|_]; [congruence|].
        reflexivity.
    + destruct (IH _ _ H) as [-> Hl]. split.
      * now rewrite <- app_assoc.
      * intros k. rewrite Hl.
        destruct (String.eqb_spec k var) as [->|N]; [|reflexivity].
        cbn [orb]. rewrite V. now destruct (existsb _ vars).
Qed.

Lemma from_dcirc_some (d : variables) (miss : list string)
    (env0 env : variables) :
  from_dcirc d miss env0 = Some env ->
  (forall var, In var miss -> exists v, assoc var d = Some v)
  /\ forall k,
       assoc k env
       = if existsb (String.eqb k) miss then assoc k d else assoc k env0.
Proof.
  revert env0. induction miss as [|var miss IH]; intros env0 H.
  - injection H as <-. split; [intros ? []|reflexivity].
  - cbn [from_dcirc] in H.
    destruct (assoc var d) as [value|] eqn:V; [|discriminate].
    destruct (IH _ H) as [Hd Hl]. split.
    + intros x [<-|Hx]; [now exists value | now apply Hd].
    + intros k. rewrite Hl, assoc_var_set. cbn [existsb].
      destruct (String.eqb_spec k var) as [->|N].
      * rewrite String.eqb_refl, V. cbn [orb].
        now destruct (existsb _ miss).
      * destruct (String.eqb_spec var k) as [->|_]; [congruence|].
        reflexivity.
Qed.

Lemma from_dcirc_none (d : variables) (miss : list string)
    (env0 : variables) :
  from_dcirc d miss env0 = None ->
  exists var, In var miss /\ assoc var d = None.
Proof.
  revert env0. induction miss as [|var miss IH]; intros env0 H;
    [discriminate|].
  cbn [from_dcirc] in H. destruct (assoc var d) as [value|] eqn:V.
  - destruct (IH _ H) as (x & Hx & Ex). exists x. split; [now right|exact Ex].
  - exists var. split; [now left | exact V].
Qed.

(** What [get_dci_environment] returns or raises, by the variables that
    the environment leaves unset. *)
Lemma get_dci_environment_spec (environ : string -> option string)
    (dcirc : text_file) :
  match get_dci_environment environ dcirc with
  | Done env =>
      (forall k,
         assoc k env
         = if existsb (String.eqb k) required_vars
           then match environ_value environ k with
                | Some v => Some v
                | None => dcirc_value dcirc k
                end
           else None)
      /\ forall var,
           In var required_vars -> unset environ var = true ->
           exists v, dcirc_value dcirc var = Some v
  | Failed e =>
      e = MissingVariables (filter (unset environ) required_vars)
      /\ exists var,
           In var required_vars /\ unset environ var = true
           /\ dcirc_value dcirc var = None
  end.
Proof.
  unfold get_dci_environment, dcirc_value.
  destruct (from_environment environ required_vars [] []) as [e m] eqn:F.
  destruct (from_environment_spec _ _ _ _ _ _ F) as [Hm Hl].
  cbn [app] in Hm. cbn [assoc] in Hl.
  assert (Hin : forall k, In k m <-> In k required_vars
                                     /\ unset environ k = true)
    by (intros k; rewrite Hm; apply filter_In).
  assert (Hset : forall k, In k required_vars -> ~ In k m ->
                           exists v, environ_value environ k = Some v).
  { intros k Hk Hn. destruct (environ_value environ k) as [v|] eqn:V;
      [now exists v|].
    destruct Hn. apply Hin. split; [exact Hk|]. unfold unset.
    now rewrite V. }
  destruct m as [|x m'].
  - split.
    + intros k. rewrite Hl.
      destruct (existsb (String.eqb k) required_vars) eqn:X; [|reflexivity].
      apply existsb_eqb_In in X.
      destruct (Hset k X) as [v ->]; [intros []|reflexivity].
    + intros var Hv Hu. destruct (proj2 (Hin var) (conj Hv Hu)).
  - assert (Hx : In x (x :: m')) by now left.
    set (m := (x :: m')%list) in *.
    destruct (read_dcirc_env_variables dcirc) as [d|err].
    + destruct (from_dcirc d m e) as [env|] eqn:D.
      * destruct (from_dcirc_some _ _ _ _ D) as [Hd Hl']. split.
        -- intros k. rewrite Hl', Hl.
           destruct (existsb (String.eqb k) m) eqn:Xm.
           ++ apply existsb_eqb_In, Hin in Xm. destruct Xm as [Hk Hu].
              rewrite (proj2 (existsb_eqb_In k required_vars) Hk).
              unfold unset in Hu.
              now destruct (environ_value environ k).
           ++ destruct (existsb (String.eqb k) required_vars) eqn:X;
                [|reflexivity].
              apply existsb_eqb_In in X.
              destruct (Hset k X) as [v ->]; [|reflexivity].
              intros Hk. apply existsb_eqb_In in Hk. congruence.
        -- intros var Hv Hu. apply Hd, Hin. now split.
      * split; [now rewrite Hm|].
        destruct (from_dcirc_none _ _ _ D) as (var & Hv & Ev).
        apply Hin in Hv. destruct Hv as [Hv Hu]. now exists var.
    + split; [now rewrite Hm|].
      apply Hin in Hx. destruct Hx as [Hv Hu]. now exists x.
Qed.

(** X20: when [get_dci_environment] returns, each of the three required
    variables has the value of the environment if it is set and not empty
    there, and otherwise the value [dcirc.sh] gives it; nothing else is
    returned. *)
Theorem environment_before_dcirc :
  forall (environ : string -> option string) (dcirc : text_file)
         (env : variables),
    get_dci_environment environ dcirc = Done env ->
    (forall var,
       assoc var env
       = if existsb (String.eqb var) required_vars
         then match environ_value environ var with
              | Some v => Some v
              | None => dcirc_value dcirc var
              end
         else None)
    /\ forall var, In var required_vars -> exists v, assoc var env = Some v.
Proof.
  intros environ dcirc env H.
  assert (S := get_dci_environment_spec environ dcirc). rewrite H in S.
  destruct S as [Hl Hd]. split; [exact Hl|].
  intros var Hv. rewrite Hl, (proj2 (existsb_eqb_In _ _) Hv).
  destruct (environ_value environ var) as [v|] eqn:V; [now exists v|].
  apply Hd; [exact Hv|]. unfold unset. now rewrite V.
Qed.

Lemma environment_before_dcirc_witness :
  exists env,
    get_dci_environment server_only_environ credentials_dcirc = Done env
    /\ map (fun var => assoc var env) required_vars
       = [Some "remoteci/abc"; Some "s3cr3t";
          Some "https://api.distributed-ci.io"]%list.
Proof.
  destruct (get_dci_environment server_only_environ credentials_dcirc)
    as [env|e] eqn:G; [|vm_compute in G; discriminate G].
  exists env. split; [reflexivity|].
  destruct (environment_before_dcirc _ _ _ G) as [Hl _].
  cbn [map required_vars]. rewrite !Hl. vm_compute. reflexivity.
Defined.

(** X21: [get_dci_environment] returns exactly when every required
    variable that the environment leaves unset or empty is defined by a
    readable [dcirc.sh]; with all three set in the environment the file
    is not needed. *)
Theorem dci_environment_found_iff :
  forall (environ : string -> option string) (dcirc : text_file),
    (exists env, get_dci_environment environ dcirc = Done env)
    <-> (forall var,
           In var required_vars -> unset environ var = true ->
           exists v, dcirc_value dcirc var = Some v).
Proof.
  intros environ dcirc.
  assert (S := get_dci_environment_spec environ dcirc).
  destruct (get_dci_environment environ dcirc) as [env|e].
  - split; [intros _; apply S | intros _; now exists env].
  - destruct S as [_ (var & Hv & Hu & Hn)]. split.
    + intros [env H]. discriminate H.
    + intros H. destruct (H var Hv Hu) as [v Ev]. congruence.
Qed.

(** X22: when [get_dci_environment] fails, its error names every
    required variable that the environment leaves unset or empty, also
    those [dcirc.sh] defines; at least one of them is not defined by a
    readable [dcirc.sh]. *)
Theorem dci_environment_error :
  forall (environ : string -> option string) (dcirc : text_file)
         (e : dci_error),
    get_dci_environment environ dcirc = Failed e ->
    e = MissingVariables (filter (unset environ) required_vars)
    /\ exists var,
         In var required_vars /\ unset environ var = true
         /\ dcirc_value dcirc var = None.
Proof.
  intros environ dcirc e H.
  assert (S := get_dci_environment_spec environ dcirc). now rewrite H in S.
Qed.

Lemma dci_environment_error_witness :
  MissingVariables ["DCI_CLIENT_ID"; "DCI_API_SECRET"]%list
  = MissingVariables (filter (unset server_only_environ) required_vars)
  /\ exists var,
       In var required_vars /\ unset server_only_environ var = true
       /\ dcirc_value client_only_dcirc var = None.
Proof.
  apply (dci_environment_error server_only_environ client_only_dcirc).
  vm_compute. reflexivity.
Defined.

(** ** The download *)

Lemma file_ids_of_length (lines : list string) (ids : list string) :
  file_ids_of lines = Some ids -> length ids = length lines.
Proof.
  revert ids. induction lines as [|l lines IH]; intros ids H; simpl in H.
  - now injection H as <-.
  - destruct (file_id l); [|discriminate].
    destruct (file_ids_of lines) as [ids'|]; [|discriminate].
    injection H as <-. simpl. now rewrite (IH ids').
Qed.

(** X23: [download_dci_cert_claim_json] returns only when the three
    variables were found, [dcictl file-list] ended with status 0 and
    printed at least one line naming both claim.json and text/plain, each
    such line has a second field, and [dcictl job-download-file], asked
    for these fields joined by commas and for the input path as target,
    ended with status 0.  Exactly these two commands were run. *)
Theorem download_returns_requires :
  forall (environ : string -> option string) (dcirc : text_file)
         (run : subprocess) (input_claim job_id : string),
    exit_code (download_dci_cert_claim_json environ dcirc run input_claim
                 job_id) = None ->
    exists (env_vars : variables) (out : string) (file_ids : list string)
           (result : completed),
      get_dci_environment environ dcirc = Done env_vars
      /\ run (updated_environ environ env_vars) (file_list_command job_id)
         = Some {| returncode := 0; stdout := Some out |}
      /\ file_ids_of (filter is_claim_file_line (PyStr.split PyStr.nl out))
         = Some file_ids
      /\ file_ids <> []
      /\ run (updated_environ environ env_vars)
           (job_download_file_command job_id (PyStr.join "," file_ids)
              input_claim) = Some result
      /\ returncode result = 0%Z
      /\ map snd (commands (download_dci_cert_claim_json environ dcirc run
                              input_claim job_id))
         = [file_list_command job_id;
            job_download_file_command job_id (PyStr.join "," file_ids)
              input_claim]%list.
Proof.
  intros environ dcirc run input_claim job_id.
  unfold download_dci_cert_claim_json.
  destruct (get_dci_environment environ dcirc) as [env_vars|] eqn:G;
    [|discriminate].
  cbv zeta.
  destruct (run _ (file_list_command job_id)) as [[rc so]|] eqn:R1;
    [|discriminate].
  cbn [returncode stdout].
  destruct (Z.eqb_spec rc 0) as [->|]; cbn [negb]; [|discriminate].
  destruct so as [out|]; [|discriminate].
  destruct (filter is_claim_file_line (PyStr.split PyStr.nl out))
    as [|l ls] eqn:F; [discriminate|].
  destruct (file_ids_of (l :: ls)) as [file_ids|] eqn:I; [|discriminate].
  destruct (run _ (job_download_file_command _ _ _)) as [result|] eqn:R2;
    [|discriminate].
  destruct (Z.eqb_spec (returncode result) 0) as [RC|]; [|discriminate].
  intros _. exists env_vars, out, file_ids, result.
  repeat split; try assumption.
  - now rewrite F.
  - apply file_ids_of_length in I. now destruct file_ids.
Qed.

Lemma download_returns_requires_witness :
  exists (env_vars : variables) (out : string) (file_ids : list string)
         (result : completed),
    get_dci_environment server_only_environ credentials_dcirc = Done env_vars
    /\ scenario_dcictl (updated_environ server_only_environ env_vars)
         (file_list_command "job-1")
       = Some {| returncode := 0; stdout := Some out |}
    /\ file_ids_of (filter is_claim_file_line (PyStr.split PyStr.nl out))
       = Some file_ids
    /\ file_ids <> []
    /\ scenario_dcictl (updated_environ server_only_environ env_vars)
         (job_download_file_command "job-1" (PyStr.join "," file_ids)
            "claim.json") = Some result
    /\ returncode result = 0%Z
    /\ map snd (commands (download_dci_cert_claim_json server_only_environ
                            credentials_dcirc scenario_dcictl "claim.json"
                            "job-1"))
       = [file_list_command "job-1";
          job_download_file_command "job-1" (PyStr.join "," file_ids)
            "claim.json"]%list.
Proof.
  apply (download_returns_requires server_only_environ credentials_dcirc
           scenario_dcictl "claim.json" "job-1").
  vm_compute. reflexivity.
Defined.

(** X24: no command is run exactly when a required variable is neither
    set in the environment nor defined by a readable [dcirc.sh]; the call
    then ends the process with status 1. *)
Theorem download_needs_credentials :
  forall (environ : string -> option string) (dcirc : text_file)
         (run : subprocess) (input_claim job_id : string),
    (commands (download_dci_cert_claim_json environ dcirc run input_claim
                 job_id) = []
     /\ exit_code (download_dci_cert_claim_json environ dcirc run input_claim
                     job_id) = Some 1%Z)
    <-> exists var,
          In var required_vars /\ unset environ var = true
          /\ dcirc_value dcirc var = None.
Proof.
  intros environ dcirc run input_claim job_id.
  assert (S := get_dci_environment_spec environ dcirc).
  unfold download_dci_cert_claim_json.
  destruct (get_dci_environment environ dcirc) as [env_vars|e].
  - destruct S as [_ Hd]. cbv zeta. split.
    + intros [H _]. exfalso. revert H.
      destruct (run _ (file_list_command job_id)) as [[rc so]|];
        [|discriminate].
      cbn [returncode stdout]. destruct (negb _); [discriminate|].
      destruct so as [out|]; [|discriminate].
      destruct (filter _ _) as [|l ls]; [discriminate|].
      destruct (file_ids_of _); [|discriminate].
      destruct (run _ _) as [result|]; [|discriminate].
      destruct (_ =? _)%Z; discriminate.
    + intros (var & Hv & Hu & Hn). destruct (Hd var Hv Hu) as [v Ev].
      congruence.
  - destruct S as [_ Hex]. split; [intros _; exact Hex | now split].
Qed.

(** X25: every command the download runs sees the environment of the
    process with the three required variables set as
    [get_dci_environment] found them: from the environment when set and
    not empty there, otherwise from [dcirc.sh]. *)
Theorem download_passes_credentials :
  forall (environ : string -> option string) (dcirc : text_file)
         (run : subprocess) (input_claim job_id : string)
         (c : (string -> option string) * list string),
    In c (commands (download_dci_cert_claim_json environ dcirc run
                      input_claim job_id)) ->
    forall var,
      fst c var
      = if existsb (String.eqb var) required_vars
        then match environ_value environ var with
             | Some v => Some v
             | None => dcirc_value dcirc var
             end
        else environ var.
Proof.
  intros environ dcirc run input_claim job_id c Hc var.
  assert (S := get_dci_environment_spec environ dcirc).
  unfold download_dci_cert_claim_json in Hc.
  destruct (get_dci_environment environ dcirc) as [env_vars|e];
    [|destruct Hc].
  destruct S as [Hl Hd]. cbv zeta in Hc.
  assert (E : fst c = updated_environ environ env_vars).
  { revert Hc.
    destruct (run _ (file_list_command job_id)) as [[rc so]|];
      [|now intros [<-|[]]].
    cbn [returncode stdout]. destruct (negb _); [now intros [<-|[]]|].
    destruct so as [out|]; [|now intros [<-|[]]].
    destruct (filter _ _) as [|l ls]; [now intros [<-|[]]|].
    destruct (file_ids_of _); [|now intros [<-|[]]].
    destruct (run _ _) as [result|]; [|now intros [<-|[<-|[]]]].
    destruct (_ =? _)%Z; now intros [<-|[<-|[]]]. }
  rewrite E. unfold updated_environ. rewrite Hl.
  destruct (existsb (String.eqb var) required_vars) eqn:X; [|reflexivity].
  apply existsb_eqb_In in X.
  destruct (environ_value environ var) as [v|] eqn:V; [reflexivity|].
  destruct (Hd var X) as [v' ->]; [|reflexivity].
  unfold unset. now rewrite V.
Qed.

Lemma download_passes_credentials_witness :
  exists c,
    In c (commands (download_dci_cert_claim_json server_only_environ
                      credentials_dcirc scenario_dcictl "claim.json"
                      "job-1"))
    /\ map (fst c) ("HOME" :: required_vars)
       = [None; Some "remoteci/abc"; Some "s3cr3t";
          Some "https://api.distributed-ci.io"]%list.
Proof.
  destruct (commands (download_dci_cert_claim_json server_only_environ
                        credentials_dcirc scenario_dcictl "claim.json"
                        "job-1")) as [|c cs] eqn:C;
    [vm_compute in C; discriminate C|].
  exists c. split; [now left|].
  assert (H := download_passes_credentials server_only_environ
                 credentials_dcirc scenario_dcictl "claim.json" "job-1" c).
  rewrite C in H. specialize (H (or_introl eq_refl)).
  cbn [map required_vars]. rewrite !H. vm_compute. reflexivity.
Defined.

Lemma split_whitespace_word (w : string) (c : ascii) (rest : string) :
  nonempty w = true -> all_chars Re.not_space w = true ->
  PyStr.isspace c = true ->
  split_whitespace (w ++ String c rest) = w :: split_whitespace rest.
Proof.
  intros Hn Hw Hc. induction w as [|a w IH]; [discriminate Hn|].
  cbn [all_chars] in Hw. apply andb_true_iff in Hw. destruct Hw as [Ha Hw].
  unfold Re.not_space in Ha. apply negb_true_iff in Ha.
  destruct w as [|b w].
  - cbn [append split_whitespace]. now rewrite Ha, Hc.
  - specialize (IH eq_refl Hw).
    assert (Hb : PyStr.isspace b = false).
    { cbn [all_chars] in Hw. apply andb_true_iff in Hw.
      destruct Hw as [Hb _]. now apply negb_true_iff in Hb. }
    change (String a (String b w) ++ String c rest)
      with (String a (String b w ++ String c rest)).
    cbn [split_whitespace]. rewrite Ha.
    change (String b w ++ String c rest)
      with (String b (w ++ String c rest)) in *.
    cbv iota. rewrite Hb. now rewrite IH.
Qed.

(** X26: of a listing line that starts with a field, a white space
    character, a second field and a white space character, the
    identifier handed to the download is the second field, whatever
    follows it. *)
Theorem file_id_is_second_field :
  forall (first id rest : string) (c d : ascii),
    nonempty first = true -> all_chars Re.not_space first = true ->
    nonempty id = true -> all_chars Re.not_space id = true ->
    PyStr.isspace c = true -> PyStr.isspace d = true ->
    file_id (first ++ String c (id ++ String d rest)) = Some id.
Proof.
  intros first id rest c d Hf Af Hi Ai Hc Hd. unfold file_id.
  rewrite (split_whitespace_word _ _ _ Hf Af Hc).
  now rewrite (split_whitespace_word _ _ _ Hi Ai Hd).
Qed.

Lemma file_id_is_second_field_witness :
  file_id ("|" ++ String " " ("f1" ++ String " " "| claim.json | text/plain |"))
  = Some "f1".
Proof.
  apply file_id_is_second_field; reflexivity.
Defined.

(** ** Replacing text in a file *)

Lemma literal_startswith (old s : string) :
  PyStr.startswith s old = false -> Re.literal old s = None.
Proof.
  revert s. induction old as [|a old IH]; intros s H; [discriminate H|].
  destruct s as [|b s]; [reflexivity|]. cbn [PyStr.startswith] in H.
  cbn [Re.literal]. destruct (Ascii.eqb a b); [|reflexivity].
  now apply IH.
Qed.

Lemma contains_false (old : string) (c : ascii) (s : string) :
  PyStr.contains old (String c s) = false ->
  PyStr.startswith (String c s) old = false
  /\ PyStr.contains old s = false.
Proof.
  cbn [PyStr.contains]. intros H. now apply orb_false_iff in H.
Qed.

(** Without an occurrence nothing is replaced. *)
Lemma replace_from_absent (fuel : nat) (s old new : string) :
  nonempty old = true -> PyStr.contains old s = false ->
  replace_from fuel s old new = s.
Proof.
  intros Ho. revert s. induction fuel as [|fuel IH]; intros s H;
    [reflexivity|].
  cbn [replace_from]. destruct s as [|c s].
  - destruct old; [discriminate Ho | reflexivity].
  - destruct (contains_false _ _ _ H) as [Hs Hc].
    rewrite (literal_startswith _ _ Hs). now rewrite (IH _ Hc).
Qed.

(** Replacing a text by itself changes nothing. *)
Lemma replace_same (s old : string) : replace s old old = s.
Proof.
  unfold replace. destruct old as [|a old].
  - induction s as [|c s IH]; [reflexivity|]. cbn. now rewrite IH.
  - generalize (String.length s) as fuel. intros fuel. revert s.
    induction fuel as [|fuel IH]; intros s; [reflexivity|].
    cbn [replace_from].
    destruct (Re.literal (String a old) s) as [rest|] eqn:L.
    + apply literal_inv in L. now rewrite IH, L.
    + destruct s as [|c s]; [reflexivity|]. now rewrite IH.
Qed.

(** The first occurrence, after a text that does not hold the first
    character of [old], when no other occurrence follows. *)
Lemma replace_from_once (fuel : nat) (a b old new : string) (c : ascii)
    (old' : string) :
  old = String c old' -> PyStr.has_char c a = false ->
  PyStr.contains old b = false -> String.length a < fuel ->
  replace_from fuel (a ++ old ++ b) old new = a ++ new ++ b.
Proof.
  intros Eo. revert fuel. induction a as [|x a IH]; intros fuel Ha Hb Hf.
  - destruct fuel as [|fuel]; [simpl in Hf; lia|].
    cbn [append replace_from]. rewrite literal_run.
    rewrite replace_from_absent; [reflexivity | now subst | exact Hb].
  - destruct fuel as [|fuel]; [simpl in Hf; lia|].
    cbn [PyStr.has_char] in Ha. apply orb_false_iff in Ha.
    destruct Ha as [Hx Ha]. simpl in Hf.
    cbn [append replace_from].
    assert (L : Re.literal old (String x (a ++ old ++ b)) = None)
      by (rewrite Eo; cbn [Re.literal]; now rewrite Hx).
    rewrite L. rewrite IH; [reflexivity | exact Ha | exact Hb | lia].
Qed.

Lemma write_text_spec (fs fs' : file_system) (path data : string) :
  write_text fs path data = Some fs' ->
  file fs' path = Text data
  /\ forall p, (p =? path) = false -> file fs' p = file fs p.
Proof.
  unfold write_text. destruct (writable fs path); [|discriminate].
  intros [= <-]. cbn [file]. rewrite String.eqb_refl. split; [reflexivity|].
  now intros p ->.
Qed.

(** X27: when the search text is not empty and does not occur in the
    input file, or is the same as the replacement, the output file
    receives the text of the input file as read; no other file changes. *)
Theorem replace_text_copies :
  forall (fs : file_system)
         (input_file search_text replace_text output_file filedata : string),
    read_text fs input_file = Some filedata ->
    writable fs output_file = true ->
    replace_text = search_text
    \/ (nonempty search_text = true
        /\ PyStr.contains search_text filedata = false) ->
    exists fs',
      replace_text_in_file fs input_file search_text replace_text output_file
      = Some fs'
      /\ file fs' output_file = Text filedata
      /\ forall p, (p =? output_file) = false -> file fs' p = file fs p.
Proof.
  intros fs input_file search_text replace_text output_file filedata
    Hr Hw Hs.
  unfold replace_text_in_file. rewrite Hr. cbv zeta.
  assert (E : replace filedata search_text replace_text = filedata).
  { destruct Hs as [->|[Hn Hc]]; [apply replace_same|].
    unfold replace. destruct search_text; [discriminate Hn|].
    now apply replace_from_absent. }
  rewrite E.
  destruct (write_text fs output_file filedata) as [fs'|] eqn:W.
  - exists fs'. split; [reflexivity|]. now apply write_text_spec.
  - unfold write_text in W. now rewrite Hw in W.
Qed.

Lemma replace_text_copies_witness :
  exists fs',
    replace_text_in_file scenario_files "dcirc.sh.in" "@HOST@" "localhost"
      "dcirc.sh" = Some fs'
    /\ file fs' "dcirc.sh" = Text "export DCI_CS_URL=@URL@"
    /\ forall p, (p =? "dcirc.sh") = false -> file fs' p = file scenario_files p.
Proof.
  apply (replace_text_copies scenario_files "dcirc.sh.in" "@HOST@"
           "localhost" "dcirc.sh" "export DCI_CS_URL=@URL@").
  - reflexivity.
  - reflexivity.
  - right. split; vm_compute; reflexivity.
Defined.

(** X28: when the input file reads as a text without the first
    character of the search text, then the search text, then a text
    without the search text, the output file receives the same with the
    replacement in the place of the search text. *)
Theorem replace_text_substitutes :
  forall (fs : file_system)
         (input_file search_text replace_text output_file : string)
         (before after : string) (c : ascii) (search' : string),
    read_text fs input_file = Some (before ++ search_text ++ after) ->
    writable fs output_file = true ->
    search_text = String c search' ->
    PyStr.has_char c before = false ->
    PyStr.contains search_text after = false ->
    exists fs',
      replace_text_in_file fs input_file search_text replace_text output_file
      = Some fs'
      /\ file fs' output_file = Text (before ++ replace_text ++ after).
Proof.
  intros fs input_file search_text replace_text output_file before after
    c search' Hr Hw Es Hb Ha.
  unfold replace_text_in_file. rewrite Hr. cbv zeta.
  assert (E : replace (before ++ search_text ++ after) search_text
                replace_text = before ++ replace_text ++ after).
  { unfold replace. rewrite Es at 1.
    apply (replace_from_once _ _ _ _ _ c search'); try assumption.
    rewrite length_append, length_append, Es. simpl. lia. }
  rewrite E.
  destruct (write_text fs output_file _) as [fs'|] eqn:W.
  - exists fs'. split; [reflexivity|].
    exact (proj1 (write_text_spec _ _ _ _ W)).
  - unfold write_text in W. now rewrite Hw in W.
Qed.

Lemma replace_text_substitutes_witness :
  exists fs',
    replace_text_in_file scenario_files "dcirc.sh.in" "@URL@"
      "https://api.distributed-ci.io" "dcirc.sh" = Some fs'
    /\ file fs' "dcirc.sh"
       = Text ("export DCI_CS_URL=" ++ "https://api.distributed-ci.io" ++ "").
Proof.
  apply (replace_text_substitutes scenario_files "dcirc.sh.in" "@URL@"
           "https://api.distributed-ci.io" "dcirc.sh" "export DCI_CS_URL="
           "" "@"%char "URL@"); reflexivity.
Defined.

(** ** Reports that cannot be made *)

Lemma generate_raises (input : file_state) (out job : string)
    (writable : bool) :
  (forall ws, generate_body input out job writable <> Ok ws) ->
  generate_cert_test_excel_report input out job writable
  = {| exit_status := 1; report := None |}.
Proof.
  intros H. unfold generate_cert_test_excel_report.
  destruct (generate_body input out job writable) as [ws|e];
    [now destruct (H ws) | reflexivity].
Qed.

Lemma refused_title_render (out job : string) (x : extraction)
    (data : json) (c : ascii) :
  In c invalid_title_characters ->
  PyStr.has_char c (PyStr.strip (basename out)) = true ->
  render out x job data = Raise InvalidSheetTitle.
Proof.
  intros Hc Hh. unfold render, create_workbook_and_worksheet. cbv zeta.
  assert (E : existsb (fun c => PyStr.has_char c (PyStr.strip (basename out)))
                invalid_title_characters = true)
    by (apply existsb_exists; now exists c).
  now rewrite E.
Qed.

(** X29: when [dcirc.sh] is a file and the name of the output file,
    after its last slash and without surrounding white space, holds one
    of the characters a sheet title cannot have (backslash, star,
    question mark, colon, slash, square brackets), the run ends with
    status 1 and writes no report, whatever the input. *)
Theorem refused_sheet_title_is_fatal :
  forall (w : world) (args : arguments) (c : ascii),
    isfile w "dcirc.sh" = true ->
    In c invalid_title_characters ->
    PyStr.has_char c (PyStr.strip (basename (output_file args))) = true ->
    main w args = {| exit_status := 1; report := None |}.
Proof.
  intros w args c Hf Hc Hh. unfold main. rewrite Hf. cbn [negb].
  assert (G : forall input job,
             generate_cert_test_excel_report input (output_file args) job
               (can_save w (output_file args))
             = {| exit_status := 1; report := None |}).
  { intros input job. apply generate_raises. intros ws H.
    destruct (generate_body_inv _ _ _ _ _ H) as (data & x & _ & _ & R & _).
    rewrite (refused_title_render _ _ _ _ c Hc Hh) in R. discriminate R. }
  destruct (job_id args) as [job|]; [|apply G].
  destruct (download w (input_file args) job); [apply G | reflexivity].
Qed.

Lemma refused_sheet_title_is_fatal_witness :
  main (offline_world scenario_claim) bracket_arguments
  = {| exit_status := 1; report := None |}.
Proof.
  apply (refused_sheet_title_is_fatal _ _ "["%char).
  - reflexivity.
  - simpl. tauto.
  - vm_compute. reflexivity.
Defined.

(** X30: when a field of an extracted row cannot be stored in a cell (a
    string with a control character the workbook refuses, such as the
    escape character of a colour sequence in the captured output, or a
    list or an object), no report is written and the report generation
    ends the process with status 1. *)
Theorem unstorable_field_is_fatal :
  forall (data : json) (out job : string) (writable : bool)
         (x : extraction) (i : nat) (r : row) (j : nat) (h : string)
         (e : exn),
    snd (extract_test_results data) = Ok x ->
    nth_error (sorted_tests x) i = Some r ->
    nth_error headers j = Some h ->
    bind_value (dict_get r h (JStr "")) = Raise e ->
    generate_cert_test_excel_report (Json data) out job writable
    = {| exit_status := 1; report := None |}.
Proof.
  intros data out job writable x i r j h e Hx Hr Hh Hb.
  apply generate_raises. intros ws H.
  destruct (generate_body_inv _ _ _ _ _ H) as (data' & x' & E & Hx' & R & _).
  injection E as <-. rewrite Hx in Hx'. injection Hx' as <-.
  destruct (render_cells _ _ _ _ _ R) as (Hrows & _).
  rewrite (Hrows _ _ _ _ Hr Hh) in Hb. discriminate Hb.
Qed.

Lemma unstorable_field_is_fatal_witness :
  generate_cert_test_excel_report (Json escape_claim) "result.xlsx" "12345"
    true
  = {| exit_status := 1; report := None |}.
Proof.
  apply (unstorable_field_is_fatal escape_claim "result.xlsx" "12345" true
           escape_extraction 0 escape_row 3 "Capture_Output"
           (IllegalCharacterError (String "027"%char "[31mFAIL"))).
  - vm_compute. reflexivity.
  - reflexivity.
  - reflexivity.
  - vm_compute. reflexivity.
Defined.

